(** * The authentication portal's request handler

    A shallow embedding of [AuthPortal.ServeHTTP] and [GetRequestID]
    (plugin.go).  The handler is a straight-line program over a mutable
    context bag ([opts], a [map[string]interface{}]), a response writer, a
    logger, the process-wide session cache and the configured backends.  It
    is embedded as a computation in a state monad with early exit: an exit
    is either a [return] of the handler or a Go run-time panic (a failed
    type assertion, a method call on a nil [error]). *)

From Stdlib Require Import ZArith Ascii.
From stdpp Require Import base option list strings gmap fin_maps.

Local Open Scope Z_scope.
Local Open Scope string_scope.
Local Open Scope list_scope.

(** ** Go's [strings] package, as far as the handler uses it *)

Module GoStrings.

(** [cut_prefix s p] is [Some rest] when [s = p ++ rest]. *)
Fixpoint cut_prefix (s p : string) {struct p} : option string :=
  match p with
  | EmptyString => Some s
  | String c p' =>
      match s with
      | EmptyString => None
      | String d s' => if Ascii.eqb c d then cut_prefix s' p' else None
      end
  end.

(** [strings.HasPrefix(s, prefix)] *)
Definition HasPrefix (s p : string) : bool :=
  match cut_prefix s p with Some _ => true | None => false end.

(** [strings.TrimPrefix(s, prefix)] *)
Definition TrimPrefix (s p : string) : string :=
  match cut_prefix s p with Some rest => rest | None => s end.

(** [strings.Split(s, sep)] for a one-character separator: the pieces
    between the separators, [""] giving one empty piece. *)
Fixpoint Split (s : string) (sep : Ascii.ascii) : list string :=
  match s with
  | EmptyString => [EmptyString]
  | String c s' =>
      if Ascii.eqb c sep then EmptyString :: Split s' sep
      else match Split s' sep with
           | piece :: pieces => String c piece :: pieces
           | [] => [String c EmptyString]
           end
  end.

End GoStrings.

(** ** Data model *)

(** [jwt.UserClaims]: the fields the handler writes, and the rest of the
    claim set as the backend supplied it. *)
Record UserClaims := mkUserClaims {
  ID : string;
  Issuer : string;
  Address : string;
  Attributes : list (string * string)
}.

(** The dynamic values ([interface{}]) stored in [opts], in a backend's
    result map and in a session cache entry.  [VClaims None] is a nil
    [*jwt.UserClaims]; [VRef] is a pointer to a collaborator whose content
    the handler never inspects (logger, UI factory, cookie policy, ...). *)
Inductive value :=
| VNil
| VBool (b : bool)
| VInt (n : Z)
| VString (s : string)
| VStrings (l : list string)
| VStringMap (m : gmap string string)
| VClaims (c : option UserClaims)
| VRef (name : string).

(** Go's [error]: [None] is [nil], [Some msg] an error whose [Error()] is
    [msg]. *)
Definition error := option string.

(** The [Backend] interface.  [Authenticate] receives the context bag, which
    it reads, and returns a result map and an error; a nil result map reads
    like an empty one. *)
Record Backend := mkBackend {
  GetName : string;
  GetRealm : string;
  GetMethod : string;
  Authenticate : gmap string value → gmap string value * error
}.

Record Request := mkRequest {
  Method : string;
  URL_Path : string;
  (** [r.URL.Query()]: a key that is present has at least one value, kept
      here as the first value and the others *)
  URL_Query : gmap string (string * list string);
  (** the [request_id] variable of the request's context, a string when set *)
  Var_request_id : option string
}.

Record UserInterfaceParameters := { Title : string }.
Record Registration := { Disabled : bool; Dropbox : string }.
Record Cookies := { GetAttributes : string }.
Record CommonTokenConfig := { TokenName : string }.
Record TokenValidator := {
  Authorize : Request → option UserClaims * bool * error
}.

Record AuthPortal := mkAuthPortal {
  AuthURLPath : string;
  UserInterface : UserInterfaceParameters;
  UserRegistration : Registration;
  PortalCookies : Cookies;
  Backends : list Backend;
  TokenProvider : CommonTokenConfig;
  EnableSourceIPTracking : bool;
  PortalTokenValidator : TokenValidator
}.

(** The package-level collaborators: [utils.*], [path.Join] and the UUID
    generator, whose next identifier is [NewV4]. *)
Record Utils := mkUtils {
  GetContentType : Request → string;
  GetSourceAddress : Request → string;
  GetCurrentURL : Request → string;
  ParseCredentials : Request → option (gmap string string) * error;
  path_Join : list string → string;
  NewV4 : string
}.

(** ** Effects *)

Inductive Level := Debug | Warn.

Inductive Handler :=
| ServeSessionLoginRedirect | ServeGeneric | ServeRegister
| ServeSessionLogoff | ServeStaticAssets | ServeWhoami | ServeSettings
| ServePortal | ServeLogin.

(** What the handler does to the outside, in the order it does it. *)
Inductive Event :=
| EvAuthenticate (b : Backend) (ctx : gmap string value)
    (resp : gmap string value) (err : error)
| EvLog (lvl : Level) (msg : string) (fields : list (string * value))
| EvHeaderSet (key val : string)
| EvWriteHeader (code : Z)
| EvRedirect (url : string) (code : Z)
| EvCacheAdd (key : string) (entry : gmap string value).

(** Modelled from the spec: the session cache of package [cache], which is
    not part of the sources at hand.  It maps a session identifier to its
    entry, holds at most one entry per identifier, and a new entry for an
    identifier overwrites the old one. *)
Module SessionCache.
Definition t := gmap string (gmap string value).
Definition Add (k : string) (e : gmap string value) (c : t) : t := <[k := e]> c.
Definition Get (k : string) (c : t) : option (gmap string value) := c !! k.
End SessionCache.

Record State := mkState {
  opts : gmap string value;
  trace : list Event;
  sessionCache : gmap string (gmap string value)
}.

(** How a run of the handler ends: it returns what a renderer of package
    [handlers] returns for the current context, it returns [nil] itself, or
    it panics. *)
Inductive Outcome :=
| Served (h : Handler)
| ReturnedNil
| Panicked.

Inductive Res (A : Type) :=
| Next (a : A) (s : State)
| Stop (o : Outcome) (s : State).
Arguments Next {A} a s.
Arguments Stop {A} o s.

Definition M (A : Type) : Type := State → Res A.

Definition ret {A} (a : A) : M A := fun s => Next a s.

Definition bind {A B} (c : M A) (k : A → M B) : M B :=
  fun s => match c s with
           | Next a s' => k a s'
           | Stop o s' => Stop o s'
           end.

Declare Scope portal_scope.
Delimit Scope portal_scope with portal.
Notation "'let!' x := c 'in' k" := (bind c (fun x => k))
  (at level 10, x name, c at level 100, k at level 200) : portal_scope.
Notation "c ;;; k" := (bind c (fun _ => k))
  (at level 100, k at level 200, right associativity) : portal_scope.
Local Open Scope portal_scope.

Definition exit {A} (o : Outcome) : M A := fun s => Stop o s.
Definition panic {A} : M A := exit Panicked.

Definition get_opts : M (gmap string value) := fun s => Next (opts s) s.

(** [opts[k] = v] *)
Definition set_opt (k : string) (v : value) : M unit :=
  fun s => Next tt (mkState (<[k := v]> (opts s)) (trace s) (sessionCache s)).

Definition emit (e : Event) : M unit :=
  fun s => Next tt (mkState (opts s) (trace s ++ [e]) (sessionCache s)).

(** [sessionCache.Add(k, e)] *)
Definition cache_add (k : string) (e : gmap string value) : M unit :=
  fun s => Next tt (mkState (opts s) (trace s ++ [EvCacheAdd k e])
                            (SessionCache.Add k e (sessionCache s))).

(** Type assertions [x.(T)] on a map read: they panic on a missing key or
    a value of another type. *)
Definition as_bool (v : option value) : M bool :=
  match v with Some (VBool b) => ret b | _ => panic end.
Definition as_int (v : option value) : M Z :=
  match v with Some (VInt n) => ret n | _ => panic end.
Definition as_string (v : option value) : M string :=
  match v with Some (VString x) => ret x | _ => panic end.
(** the assertion to a [jwt.UserClaims] pointer, followed by a write
    through that pointer *)
Definition as_claims (v : option value) : M UserClaims :=
  match v with Some (VClaims (Some c)) => ret c | _ => panic end.

(** [err.Error()]: a nil pointer dereference when [err] is nil *)
Definition Error_of (err : error) : M string :=
  match err with Some msg => ret msg | None => panic end.

Definition log (lvl : Level) (msg : string) (fields : list (string * value)) : M unit :=
  emit (EvLog lvl msg fields).

(** ** The handler *)

Definition redirectToToken : string := "AUTH_PORTAL_REDIRECT_URL".

(** [GetRequestID]: the identifier stored in the request's context, returned
    as it is, or else a fresh UUID (which the source also stores back into
    that context). *)
Definition GetRequestID (u : Utils) (r : Request) : string :=
  match Var_request_id r with
  | None => NewV4 u
  | Some rawRequestID => rawRequestID
  end.

Definition set_Issuer (c : UserClaims) (x : string) : UserClaims :=
  mkUserClaims (ID c) x (Address c) (Attributes c).
Definition set_Address (c : UserClaims) (x : string) : UserClaims :=
  mkUserClaims (ID c) (Issuer c) x (Attributes c).
Definition set_ID (c : UserClaims) (x : string) : UserClaims :=
  mkUserClaims x (Issuer c) (Address c) (Attributes c).

(** The [map[string]interface{}] handed to [sessionCache.Add]. *)
Definition cache_entry (claims : UserClaims) (backend : Backend) : gmap string value :=
  <["backend_method" := VString (GetMethod backend)]>
  (<["backend_realm" := VString (GetRealm backend)]>
  (<["backend_name" := VString (GetName backend)]>
  (<["claims" := VClaims (Some claims)]> ∅))).

(** [credentials["realm"]] on a [map[string]string]: the empty string when
    the key is missing. *)
Definition credentials_realm (credentials : gmap string string) : string :=
  default "" (credentials !! "realm").

Section Handler.

Variable u : Utils.
Variable m : AuthPortal.
Variable r : Request.

(** Lines 110-125: the fresh context bag. *)
Definition new_opts (reqID : string) : M unit :=
  set_opt "request_id" (VString reqID) ;;;
  set_opt "content_type" (VString (GetContentType u r)) ;;;
  set_opt "authenticated" (VBool false) ;;;
  set_opt "auth_backend_found" (VBool false) ;;;
  set_opt "auth_credentials_found" (VBool false) ;;;
  set_opt "logger" (VRef "logger") ;;;
  set_opt "auth_url_path" (VString (AuthURLPath m)) ;;;
  set_opt "ui" (VRef "uiFactory") ;;;
  set_opt "cookies" (VRef "Cookies") ;;;
  set_opt "cookie_names" (VStrings [redirectToToken; TokenName (TokenProvider m)]) ;;;
  set_opt "token_provider" (VRef "TokenProvider") ;;;
  (if String.eqb (Title (UserInterface m)) "" then ret tt
   else set_opt "ui_title" (VString (Title (UserInterface m)))) ;;;
  set_opt "redirect_token_name" (VString redirectToToken).

(** Lines 130-148: find and validate a token. *)
Definition validate_token : M unit :=
  let '(claims, authOK, err) := Authorize (PortalTokenValidator m) r in
  if authOK then
    set_opt "authenticated" (VBool true) ;;;
    set_opt "user_claims" (VClaims claims)
  else
    match err with
    | None => ret tt
    | Some _ =>
        let! e := Error_of err in
        if String.eqb e "[Token is expired]" then exit (Served ServeSessionLoginRedirect)
        else if String.eqb e "no token found" then ret tt
        else
          let! o := get_opts in
          let! request_id := as_string (o !! "request_id") in
          let! e' := Error_of err in
          log Warn "Authorization failed"
            [("request_id", VString request_id); ("error", VString e');
             ("src_ip_address", VString (GetSourceAddress u r))]
    end.

(** Lines 150-165: requests carrying query parameters. *)
Definition query_parameters (urlPath : string) : M unit :=
  if String.eqb (Method r) "GET" then
    let! foundQueryOptions :=
      match URL_Query r !! "redirect_url" with
      | Some redirectURL =>
          emit (EvHeaderSet "Set-Cookie"
                  (redirectToToken +:+ "=" +:+ redirectURL.1 +:+ ";"
                   +:+ GetAttributes (PortalCookies m))) ;;;
          ret true
      | None => ret false
      end in
    if negb (GoStrings.HasPrefix urlPath "saml") && negb (GoStrings.HasPrefix urlPath "x509")
       && negb (GoStrings.HasPrefix urlPath "oauth2") then
      if foundQueryOptions then
        emit (EvHeaderSet "Location" (AuthURLPath m)) ;;;
        emit (EvWriteHeader 302) ;;;
        exit ReturnedNil
      else ret tt
    else ret tt
  else ret tt.

(** Lines 256-279: a delegated backend produced claims. *)
Definition delegated_success (reqID reqBackendMethod reqBackendRealm : string)
    (backend : Backend) (resp : gmap string value) : M Empty_set :=
  let! claims := as_claims (resp !! "claims") in
  let claims := set_Issuer claims (GetCurrentURL u r) in
  let claims := if EnableSourceIPTracking m
                then set_Address claims (GetSourceAddress u r) else claims in
  let claims := if String.eqb (ID claims) "" then set_ID claims reqID else claims in
  cache_add (ID claims) (cache_entry claims backend) ;;;
  set_opt "authenticated" (VBool true) ;;;
  set_opt "user_claims" (VClaims (Some claims)) ;;;
  set_opt "status_code" (VInt 200) ;;;
  log Debug "Authentication succeeded"
    [("request_id", VString reqID); ("auth_method", VString reqBackendMethod);
     ("auth_realm", VString reqBackendRealm); ("user", VClaims (Some claims))] ;;;
  exit (Served ServeLogin).

(** Lines 225-235 and 243-253, which read the same: the failure outcome of
    a delegated backend. *)
Definition delegated_failure (reqID reqBackendMethod reqBackendRealm : string)
    (resp : gmap string value) (err : error) : M Empty_set :=
  set_opt "flow" (VString "auth_failed") ;;;
  set_opt "authenticated" (VBool false) ;;;
  set_opt "message" (VString "Authentication failed") ;;;
  let! code := as_int (resp !! "code") in
  set_opt "status_code" (VInt code) ;;;
  let! e := Error_of err in
  log Warn "Authentication failed"
    [("request_id", VString reqID); ("auth_method", VString reqBackendMethod);
     ("auth_realm", VString reqBackendRealm); ("error", VString e)] ;;;
  exit (Served ServeGeneric).

(** Lines 221-279: the body of the loop for a backend whose realm and
    method are the requested ones.  Every path through it leaves the
    handler. *)
Definition delegated_attempt (reqID reqBackendMethod reqBackendRealm : string)
    (backend : Backend) : M Empty_set :=
  set_opt "request" (VRef "r") ;;;
  set_opt "request_path"
    (VString (path_Join u [AuthURLPath m; reqBackendMethod; reqBackendRealm])) ;;;
  let! o := get_opts in
  let '(resp, err) := Authenticate backend o in
  emit (EvAuthenticate backend o resp err) ;;;
  match err with
  | Some _ => delegated_failure reqID reqBackendMethod reqBackendRealm resp err
  | None =>
      match resp !! "redirect_url" with
      | Some v =>
          let! url := as_string (Some v) in
          emit (EvRedirect url 308) ;;;
          exit ReturnedNil
      | None =>
          match resp !! "claims" with
          | None => delegated_failure reqID reqBackendMethod reqBackendRealm resp err
          | Some _ => delegated_success reqID reqBackendMethod reqBackendRealm backend resp
          end
      end
  end.

(** Lines 214-284: the scan of the configured backends and what follows it. *)
Fixpoint delegated_loop (reqID reqBackendMethod reqBackendRealm : string)
    (backends : list Backend) : M Empty_set :=
  match backends with
  | [] =>
      set_opt "status_code" (VInt 400) ;;;
      set_opt "flow" (VString "backend_not_found") ;;;
      set_opt "authenticated" (VBool false) ;;;
      exit (Served ServeGeneric)
  | backend :: rest =>
      if negb (String.eqb (GetRealm backend) reqBackendRealm) then
        delegated_loop reqID reqBackendMethod reqBackendRealm rest
      else if negb (String.eqb (GetMethod backend) reqBackendMethod) then
        delegated_loop reqID reqBackendMethod reqBackendRealm rest
      else delegated_attempt reqID reqBackendMethod reqBackendRealm backend
  end.

(** Lines 203-284. *)
Definition delegated_flow (reqID urlPath : string) : M Empty_set :=
  let urlPathParts := GoStrings.Split urlPath "/" in
  if (length urlPathParts <? 2)%nat then
    set_opt "status_code" (VInt 400) ;;;
    set_opt "flow" (VString "malformed_backend") ;;;
    set_opt "authenticated" (VBool false) ;;;
    exit (Served ServeGeneric)
  else
    let reqBackendMethod := nth 0 urlPathParts "" in
    let reqBackendRealm := nth 1 urlPathParts "" in
    set_opt "flow" (VString reqBackendMethod) ;;;
    delegated_loop reqID reqBackendMethod reqBackendRealm (Backends m).

(** Lines 296-330: the body of the interactive login loop. *)
Definition login_attempt (reqID : string) (credentials : gmap string string)
    (backend : Backend) : M unit :=
  if negb (String.eqb (GetRealm backend) (credentials_realm credentials)) then ret tt
  else
    set_opt "auth_backend_found" (VBool true) ;;;
    set_opt "auth_credentials" (VStringMap credentials) ;;;
    let! o := get_opts in
    let '(resp, err) := Authenticate backend o in
    emit (EvAuthenticate backend o resp err) ;;;
    match err with
    | Some _ =>
        set_opt "message" (VString "Authentication failed") ;;;
        let! code := as_int (resp !! "code") in
        set_opt "status_code" (VInt code) ;;;
        let! e := Error_of err in
        log Warn "Authentication failed"
          [("request_id", VString reqID); ("error", VString e)]
    | None =>
        let! claims := as_claims (resp !! "claims") in
        let claims := set_Issuer claims (GetCurrentURL u r) in
        let claims := if EnableSourceIPTracking m
                      then set_Address claims (GetSourceAddress u r) else claims in
        let claims := if String.eqb (ID claims) "" then set_ID claims reqID else claims in
        cache_add (ID claims) (cache_entry claims backend) ;;;
        set_opt "user_claims" (VClaims (Some claims)) ;;;
        set_opt "authenticated" (VBool true) ;;;
        set_opt "status_code" (VInt 200) ;;;
        log Debug "Authentication succeeded"
          [("request_id", VString reqID); ("user", VClaims (Some claims))]
    end.

(** Lines 295-331: [for _, backend := range m.Backends]. *)
Fixpoint login_loop (reqID : string) (credentials : gmap string string)
    (backends : list Backend) : M unit :=
  match backends with
  | [] => ret tt
  | backend :: rest =>
      login_attempt reqID credentials backend ;;;
      login_loop reqID credentials rest
  end.

(** Lines 285-349. *)
Definition login_flow (reqID : string) : M Empty_set :=
  set_opt "flow" (VString "login") ;;;
  set_opt "login_options" (VRef "loginOptions") ;;;
  let! o := get_opts in
  let! authenticated := as_bool (o !! "authenticated") in
  (if authenticated then set_opt "authorized" (VBool true)
   else
     let '(credentials, err) := ParseCredentials u r in
     match err with
     | None =>
         match credentials with
         | Some credentials =>
             set_opt "auth_credentials_found" (VBool true) ;;;
             login_loop reqID credentials (Backends m) ;;;
             let! o := get_opts in
             let! found := as_bool (o !! "auth_backend_found") in
             if negb found then
               set_opt "status_code" (VInt 500) ;;;
               log Warn "Authentication failed"
                 [("request_id", VString reqID);
                  ("error", VString "no matching auth backend found")]
             else ret tt
         | None => ret tt
         end
     | Some _ =>
         set_opt "message" (VString "Authentication failed") ;;;
         set_opt "status_code" (VInt 400) ;;;
         let! e := Error_of err in
         log Warn "Authentication failed"
           [("request_id", VString reqID); ("error", VString e)]
     end) ;;;
  exit (Served ServeLogin).

(** Lines 167-353: request routing. *)
Definition route (reqID urlPath : string) : M Empty_set :=
  let starts := GoStrings.HasPrefix urlPath in
  if starts "register" then
    if Disabled (UserRegistration m) then
      set_opt "flow" (VString "unsupported_feature") ;;; exit (Served ServeGeneric)
    else if String.eqb (Dropbox (UserRegistration m)) "" then
      set_opt "flow" (VString "unsupported_feature") ;;; exit (Served ServeGeneric)
    else
      set_opt "flow" (VString "register") ;;;
      set_opt "registration" (VRef "UserRegistration") ;;;
      set_opt "registration_db" (VRef "UserRegistrationDatabase") ;;;
      exit (Served ServeRegister)
  else if starts "recover" || starts "forgot" then
    set_opt "flow" (VString "unsupported_feature") ;;; exit (Served ServeGeneric)
  else if starts "logout" || starts "logoff" then
    set_opt "flow" (VString "logout") ;;; exit (Served ServeSessionLogoff)
  else if starts "assets" then
    set_opt "flow" (VString "assets") ;;; exit (Served ServeStaticAssets)
  else if starts "whoami" then
    set_opt "flow" (VString "whoami") ;;; exit (Served ServeWhoami)
  else if starts "settings" then
    set_opt "flow" (VString "settings") ;;; exit (Served ServeSettings)
  else if starts "portal" then
    set_opt "flow" (VString "portal") ;;; exit (Served ServePortal)
  else if starts "saml" || starts "x509" || starts "oauth2" then
    delegated_flow reqID urlPath
  else if starts "login" || String.eqb urlPath "" then
    login_flow reqID
  else
    set_opt "flow" (VString "not_found") ;;; exit (Served ServeGeneric).

(** The path below the portal's mount point (lines 127-128). *)
Definition url_path : string :=
  GoStrings.TrimPrefix (GoStrings.TrimPrefix (URL_Path r) (AuthURLPath m)) "/".

(** [AuthPortal.ServeHTTP] *)
Definition ServeHTTP : M Empty_set :=
  let reqID := GetRequestID u r in
  new_opts reqID ;;;
  let urlPath := url_path in
  validate_token ;;;
  query_parameters urlPath ;;;
  route reqID urlPath.

End Handler.

(** A run of the handler for one request, from an empty context bag, an
    untouched response and the session cache as it stands. *)
Definition serve (u : Utils) (m : AuthPortal) (r : Request)
    (cache : gmap string (gmap string value)) : Outcome * State :=
  match ServeHTTP u m r (mkState ∅ [] cache) with
  | Next a _ => match a with end
  | Stop o s => (o, s)
  end.

(** ** Reading a run *)

(** The path is under one of the delegated-backend prefixes (lines 158 and
    203). *)
Definition is_delegated (urlPath : string) : bool :=
  GoStrings.HasPrefix urlPath "saml" || GoStrings.HasPrefix urlPath "x509"
  || GoStrings.HasPrefix urlPath "oauth2".

(** The calls of [Authenticate] recorded in a trace, in order: the backend,
    the context it was given, and what it returned. *)
Record Call := mkCall {
  call_backend : Backend;
  call_ctx : gmap string value;
  call_resp : gmap string value;
  call_err : error
}.

Definition calls (t : list Event) : list Call :=
  omap (fun e => match e with
                 | EvAuthenticate b ctx resp err => Some (mkCall b ctx resp err)
                 | _ => None
                 end) t.

(** The backends on which [Authenticate] was invoked, in order. *)
Definition invoked (t : list Event) : list Backend := call_backend <$> calls t.

(** The session cache writes recorded in a trace, in order. *)
Definition cache_writes (t : list Event) : list (string * gmap string value) :=
  omap (fun e => match e with EvCacheAdd k v => Some (k, v) | _ => None end) t.

(** The cache after a sequence of writes. *)
Definition replay (c : gmap string (gmap string value))
    (ws : list (string * gmap string value)) : gmap string (gmap string value) :=
  foldl (fun c w => SessionCache.Add w.1 w.2 c) c ws.

(** What a backend answered: an error, or a result for the session. *)
Definition succeeded (c : Call) : bool :=
  match call_err c with None => true | Some _ => false end.

(** The token validator rejects the request's token as expired. *)
Definition token_expired (m : AuthPortal) (r : Request) : bool :=
  match Authorize (PortalTokenValidator m) r with
  | (_, false, Some e) => String.eqb e "[Token is expired]"
  | _ => false
  end.

(** The token validator accepts the request's token. *)
Definition token_accepted (m : AuthPortal) (r : Request) : bool :=
  (Authorize (PortalTokenValidator m) r).1.2.

(** Every answer the interactive login loop can process: an error comes
    with an integer [code], a success with a claim set. *)
Definition answer_ok (c : Call) : bool :=
  match call_err c with
  | Some _ => match call_resp c !! "code" with Some (VInt _) => true | _ => false end
  | None => match call_resp c !! "claims" with
            | Some (VClaims (Some _)) => true
            | _ => false
            end
  end.

(** An answer the failure branches can process: an error comes with an
    integer [code]. *)
Definition error_has_code (c : Call) : bool :=
  match call_err c with
  | Some _ => match call_resp c !! "code" with Some (VInt _) => true | _ => false end
  | None => true
  end.

(** The status code a processed answer leaves in the context. *)
Definition status_of_call (c : Call) : option value :=
  match call_err c with
  | Some _ => call_resp c !! "code"
  | None => Some (VInt 200)
  end.

(** The backend's realm is the one of the submitted credentials
    (line 296). *)
Definition realm_matches (credentials : gmap string string) (b : Backend) : bool :=
  String.eqb (GetRealm b) (credentials_realm credentials).

(** The backend serves the requested method and realm (lines 215-220). *)
Definition serves (method realm : string) (b : Backend) : bool :=
  String.eqb (GetRealm b) realm && String.eqb (GetMethod b) method.

(** The backend a delegated-backend path asks for: the first configured one
    that serves the first two segments of the path, if the path has two
    segments and there is such a backend (lines 204-220). *)
Definition requested_backend (m : AuthPortal) (urlPath : string) : list Backend :=
  let urlPathParts := GoStrings.Split urlPath "/" in
  if (length urlPathParts <? 2)%nat then []
  else option_list
         (List.find (serves (nth 0 urlPathParts "") (nth 1 urlPathParts ""))
            (Backends m)).

(** The claims the handler stores for the claims a backend returned: issuer
    and, when tracked, source address stamped, an empty identifier replaced
    by the request's (lines 257-263 and 310-316). *)
Definition session_claims (u : Utils) (m : AuthPortal) (r : Request)
    (c : UserClaims) : UserClaims :=
  let c := set_Issuer c (GetCurrentURL u r) in
  let c := if EnableSourceIPTracking m then set_Address c (GetSourceAddress u r) else c in
  if String.eqb (ID c) "" then set_ID c (GetRequestID u r) else c.

(** The cache write a call of [Authenticate] is followed by, if any: the
    call returned no error and a claim set, and, on a delegated-backend
    path, no [redirect_url]. *)
Definition write_of_call (u : Utils) (m : AuthPortal) (r : Request)
    (delegated : bool) (c : Call) : option (string * gmap string value) :=
  match call_err c with
  | Some _ => None
  | None =>
      if delegated && bool_decide (is_Some (call_resp c !! "redirect_url")) then None
      else match call_resp c !! "claims" with
           | Some (VClaims (Some claims)) =>
               let claims := session_claims u m r claims in
               Some (ID claims, cache_entry claims (call_backend c))
           | _ => None
           end
  end.

Definition event_of_call (c : Call) : Event :=
  EvAuthenticate (call_backend c) (call_ctx c) (call_resp c) (call_err c).

(** Events that are neither a backend call nor a cache write. *)
Definition quiet (e : Event) : bool :=
  match e with
  | EvAuthenticate _ _ _ _ | EvCacheAdd _ _ => false
  | _ => true
  end.

Definition is_log (e : Event) : bool :=
  match e with EvLog _ _ _ => true | _ => false end.

(** The context bag as lines 110-125 fill it. *)
Definition new_context (u : Utils) (m : AuthPortal) (r : Request) : gmap string value :=
  opts (match new_opts u m r (GetRequestID u r) (mkState ∅ [] ∅) with
        | Next _ s => s | Stop _ s => s
        end).

(** The GET request carries [redirect_url] and its path is not under a
    delegated-backend prefix (lines 151-165). *)
Definition redirects_home (m : AuthPortal) (r : Request) : bool :=
  String.eqb (Method r) "GET"
  && bool_decide (is_Some (URL_Query r !! "redirect_url"))
  && negb (is_delegated (url_path m r)).

(** The context a backend is handed in the interactive login loop
    (lines 299-300), and on a delegated-backend path (lines 221-222). *)
Definition login_ctx (credentials : gmap string string) (o : gmap string value)
    : gmap string value :=
  <["auth_credentials" := VStringMap credentials]>
    (<["auth_backend_found" := VBool true]> o).

Definition delegated_ctx (u : Utils) (m : AuthPortal) (method realm : string)
    (o : gmap string value) : gmap string value :=
  <["request_path" := VString (path_Join u [AuthURLPath m; method; realm])]>
    (<["request" := VRef "r"]> o).

(** ** Relating the states of a computation *)

Definition final {A} (x : Res A) : State :=
  match x with Next _ s => s | Stop _ s => s end.

Definition panicked {A} (x : Res A) : bool :=
  match x with Stop Panicked _ => true | _ => false end.

(** [sound R c]: from every state, [c] relates the state it starts in to the
    state it ends in, [R] being told whether it ended in a panic. *)
Definition sound {A} (R : State → State → bool → Prop) (c : M A) : Prop :=
  ∀ s, R s (final (c s)) (panicked (c s)).

(** Relations that compose along a sequence of steps none but the last of
    which panics. *)
Class Sequential (R : State → State → bool → Prop) : Prop := {
  seq_refl : ∀ s, R s s false;
  seq_trans : ∀ s1 s2 s3 b, R s1 s2 false → R s2 s3 b → R s1 s3 b
}.

(** The shape of every trace: a call of [Authenticate] is a call of a
    configured backend on the recorded context with the recorded answer,
    and it is followed at once by its cache write, when it has one; no
    other cache write occurs. *)
Inductive blocks (u : Utils) (m : AuthPortal) (r : Request) (delegated : bool)
    : list Event → Prop :=
| blocks_nil : blocks u m r delegated []
| blocks_quiet e t :
    quiet e = true → blocks u m r delegated t → blocks u m r delegated (e :: t)
| blocks_call c t :
    call_backend c ∈ Backends m →
    Authenticate (call_backend c) (call_ctx c) = (call_resp c, call_err c) →
    write_of_call u m r delegated c = None →
    blocks u m r delegated t →
    blocks u m r delegated (event_of_call c :: t)
| blocks_write c k e t :
    call_backend c ∈ Backends m →
    Authenticate (call_backend c) (call_ctx c) = (call_resp c, call_err c) →
    write_of_call u m r delegated c = Some (k, e) →
    blocks u m r delegated t →
    blocks u m r delegated (event_of_call c :: EvCacheAdd k e :: t).

(** What every part of the handler maintains: the trace grows by such
    blocks, the session cache changes by the recorded writes only, and a run
    that does not panic has only seen errors that carry an integer code. *)
Definition tracks (u : Utils) (m : AuthPortal) (r : Request) (delegated : bool)
    (s s' : State) (pan : bool) : Prop :=
  ∃ evs, trace s' = trace s ++ evs
       ∧ sessionCache s' = replay (sessionCache s) (cache_writes evs)
       ∧ blocks u m r delegated evs
       ∧ (pan = false → forallb error_has_code (calls evs) = true).

(** The context and the log after token validation (lines 131-148), run on
    the fresh context. *)
Definition validated_context (u : Utils) (m : AuthPortal) (r : Request)
    : gmap string value :=
  opts (final (validate_token u m r (mkState (new_context u m r) [] ∅))).

Definition validation_log (u : Utils) (m : AuthPortal) (r : Request) : list Event :=
  trace (final (validate_token u m r (mkState (new_context u m r) [] ∅))).

(** The header lines 154-157 set. *)
Definition redirect_cookie (m : AuthPortal) (r : Request) : list Event :=
  if String.eqb (Method r) "GET" then
    match URL_Query r !! "redirect_url" with
    | Some redirectURL =>
        [EvHeaderSet "Set-Cookie"
           (redirectToToken +:+ "=" +:+ redirectURL.1 +:+ ";"
            +:+ GetAttributes (PortalCookies m))]
    | None => []
    end
  else [].

(** A backend every answer of which the login loop can process. *)
Definition well_behaved (b : Backend) : Prop :=
  ∀ ctx, answer_ok (mkCall b ctx (Authenticate b ctx).1 (Authenticate b ctx).2) = true.

(** The log lines of the two flows. *)
Definition login_failed_log (reqID e : string) : Event :=
  EvLog Warn "Authentication failed"
    [("request_id", VString reqID); ("error", VString e)].

Definition login_succeeded_log (reqID : string) (claims : UserClaims) : Event :=
  EvLog Debug "Authentication succeeded"
    [("request_id", VString reqID); ("user", VClaims (Some claims))].

Definition delegated_failed_log (reqID method realm e : string) : Event :=
  EvLog Warn "Authentication failed"
    [("request_id", VString reqID); ("auth_method", VString method);
     ("auth_realm", VString realm); ("error", VString e)].

(** How [authenticated], [auth_backend_found] and [status_code] stand once
    the login loop has processed the calls [cs], given how they stood
    before. *)
Definition authenticated_after (cs : list Call) (before : option value) : option value :=
  if existsb succeeded cs then Some (VBool true) else before.

Definition found_after (cs : list Call) (before : option value) : option value :=
  match cs with [] => before | _ :: _ => Some (VBool true) end.

Definition status_after (cs : list Call) (before : option value) : option value :=
  match last cs with Some c => status_of_call c | None => before end.

(** A recorded call is a call of one of [backends], of the credentials'
    realm, with the answer that backend gives on the recorded context. *)
Definition call_of (credentials : gmap string string) (backends : list Backend)
    (c : Call) : Prop :=
  call_backend c ∈ backends
  ∧ realm_matches credentials (call_backend c) = true
  ∧ Authenticate (call_backend c) (call_ctx c) = (call_resp c, call_err c).

(** ** A portal to run the handler on *)

Module Examples.

Definition utils (credentials : option (gmap string string)) : Utils :=
  {| GetContentType := fun _ => "text/html";
     GetSourceAddress := fun _ => "203.0.113.7";
     GetCurrentURL := fun _ => "https://portal.example.com/auth";
     ParseCredentials := fun _ => (credentials, None);
     path_Join := String.concat "/";
     NewV4 := "6ba7b810-9dad-11d1-80b4-00c04fd430c8" |}.

Definition corp_credentials : gmap string string :=
  <["realm" := "corp"]> (<["username" := "bob"]> (<["password" := "secret"]> ∅)).

Definition claims_of (id : string) : UserClaims :=
  {| ID := id; Issuer := ""; Address := ""; Attributes := [("roles", "user")] |}.

(** LDAP accepts bob. *)
Definition ldap : Backend :=
  {| GetName := "ldap_backend"; GetRealm := "corp"; GetMethod := "ldap";
     Authenticate := fun _ => (<["claims" := VClaims (Some (claims_of "bob"))]> ∅, None) |}.

(** The local database rejects him, with a status code. *)
Definition local : Backend :=
  {| GetName := "local_backend"; GetRealm := "corp"; GetMethod := "local";
     Authenticate := fun _ => (<["code" := VInt 401]> ∅, Some "user authentication failed") |}.

(** Google returns claims without an identifier. *)
Definition google : Backend :=
  {| GetName := "google_backend"; GetRealm := "google"; GetMethod := "oauth2";
     Authenticate := fun _ => (<["claims" := VClaims (Some (claims_of ""))]> ∅, None) |}.

(** GitHub refuses, with a status code. *)
Definition github : Backend :=
  {| GetName := "github_backend"; GetRealm := "github"; GetMethod := "oauth2";
     Authenticate := fun _ => (<["code" := VInt 403]> ∅, Some "access denied") |}.

(** Okta answers without an error, a redirect or claims. *)
Definition okta : Backend :=
  {| GetName := "okta_backend"; GetRealm := "okta"; GetMethod := "saml";
     Authenticate := fun _ => (<["code" := VInt 401]> ∅, None) |}.

(** A backend whose error has no status code. *)
Definition azure : Backend :=
  {| GetName := "azure_backend"; GetRealm := "azure"; GetMethod := "saml";
     Authenticate := fun _ => (∅, Some "assertion rejected") |}.

Definition portal (token : option UserClaims * bool * error) : AuthPortal :=
  {| AuthURLPath := "/auth";
     UserInterface := {| Title := "Sign In" |};
     UserRegistration := {| Disabled := true; Dropbox := "" |};
     PortalCookies := {| GetAttributes := " Path=/; Secure; HttpOnly;" |};
     Backends := [ldap; local; google; github; okta; azure];
     TokenProvider := {| TokenName := "access_token" |};
     EnableSourceIPTracking := false;
     PortalTokenValidator := {| Authorize := fun _ => token |} |}.

Definition no_token : option UserClaims * bool * error := (None, false, Some "no token found").
Definition expired_token : option UserClaims * bool * error :=
  (None, false, Some "[Token is expired]").
Definition valid_token : option UserClaims * bool * error :=
  (Some (claims_of "alice"), true, None).

Definition get (path : string) : Request :=
  {| Method := "GET"; URL_Path := path; URL_Query := ∅; Var_request_id := None |}.

Definition get_with_redirect (path : string) : Request :=
  {| Method := "GET"; URL_Path := path;
     URL_Query := <["redirect_url" := ("https://app.example.com/", [])]> ∅;
     Var_request_id := None |}.

Definition post (path : string) : Request :=
  {| Method := "POST"; URL_Path := path; URL_Query := ∅; Var_request_id := None |}.

(** A request whose context carries an empty [request_id]. *)
Definition get_without_id (path : string) : Request :=
  {| Method := "GET"; URL_Path := path; URL_Query := ∅; Var_request_id := Some "" |}.

End Examples.

(** ** More readings of a run *)

(** [emits P]: the trace grows, by events that all satisfy [P]. *)
Definition emits (P : Event → bool) (s s' : State) (pan : bool) : Prop :=
  ∃ evs, trace s' = trace s ++ evs ∧ forallb P evs = true.

(** The response writer is written to ([w.Header().Set], [w.WriteHeader]). *)
Definition writes_header (e : Event) : bool :=
  match e with
  | EvHeaderSet _ _ | EvWriteHeader _ => true
  | _ => false
  end.

(** A log line whose first field is the correlation identifier [reqID]. *)
Definition log_of_request (reqID : string) (e : Event) : bool :=
  match e with
  | EvLog _ _ ((k, VString x) :: _) => String.eqb k "request_id" && String.eqb x reqID
  | EvLog _ _ _ => false
  | _ => true
  end.

(** The path is the one of the interactive login flow (line 285). *)
Definition is_login (urlPath : string) : bool :=
  GoStrings.HasPrefix urlPath "login" || String.eqb urlPath "".

(** What routing may do to the outside, on a path that is under a
    delegated-backend prefix or not ([delegated]) and is a login path or not
    ([login]): no write to the response writer, no redirect but a 308 on a
    delegated-backend path, no backend call and no cache write off these two
    kinds of path, and log lines of this request only. *)
Definition routed_event (delegated login : bool) (reqID : string) (e : Event) : bool :=
  match e with
  | EvHeaderSet _ _ | EvWriteHeader _ => false
  | EvRedirect _ code => delegated && Z.eqb code 308
  | EvAuthenticate _ _ _ _ | EvCacheAdd _ _ => delegated || login
  | EvLog _ _ _ => log_of_request reqID e
  end.

(** A call that returned no error and a claim set. *)
Definition gave_claims (c : Call) : bool :=
  match call_err c with
  | Some _ => false
  | None => match call_resp c !! "claims" with
            | Some (VClaims (Some _)) => true
            | _ => false
            end
  end.

(** [authenticated] is not switched on but by an accepted token or by a
    call that gave claims. *)
Definition fail_closed (m : AuthPortal) (r : Request) (s s' : State) (pan : bool)
    : Prop :=
  ∃ evs, trace s' = trace s ++ evs
       ∧ (opts s' !! "authenticated" = Some (VBool true) →
          opts s !! "authenticated" = Some (VBool true)
          ∨ token_accepted m r = true
          ∨ existsb gave_claims (calls evs) = true).

(** The method and the realm a delegated-backend path asks for: its first
    two segments (lines 211-212). *)
Definition requested_method (urlPath : string) : string :=
  nth 0 (GoStrings.Split urlPath "/") "".

Definition requested_realm (urlPath : string) : string :=
  nth 1 (GoStrings.Split urlPath "/") "".

(** The context the requested backend is called with on a delegated-backend
    path (lines 213 and 221-222). *)
Definition delegated_call_ctx (u : Utils) (m : AuthPortal) (r : Request)
    : gmap string value :=
  delegated_ctx u m (requested_method (url_path m r)) (requested_realm (url_path m r))
    (<["flow" := VString (requested_method (url_path m r))]> (validated_context u m r)).

(** The string has a slash in it. *)
Fixpoint has_slash (s : string) : bool :=
  match s with
  | EmptyString => false
  | String c s' => Ascii.eqb c "/" || has_slash s'
  end.

(** [ends_in Q c]: whenever [c] leaves the handler, by a renderer, a plain
    return or a panic, the outcome is one of [Q]. *)
Definition ends_in {A} (Q : Outcome → Prop) (c : M A) : Prop :=
  ∀ s, match c s with
       | Stop o _ => Q o
       | Next _ _ => True
       end.

(** How the interactive login flow can end (line 349), and how a
    delegated-backend flow can (lines 209, 235, 240, 253, 279 and 284). *)
Definition login_outcome (o : Outcome) : bool :=
  match o with
  | Served ServeLogin | Panicked => true
  | _ => false
  end.

Definition delegated_outcome (o : Outcome) : bool :=
  match o with
  | Served ServeGeneric | Served ServeLogin | ReturnedNil | Panicked => true
  | _ => false
  end.

(** The keys of the context that routing sets on a path of a static flow
    (lines 169-202 and 351). *)
Definition static_key (k : string) : bool :=
  String.eqb k "flow" || String.eqb k "registration" || String.eqb k "registration_db".

(** An answer a delegated-backend path can process (lines 224-256): an
    error with an integer [code]; or no error and a [redirect_url] that is a
    string; or no error, no [redirect_url] and a claim set. *)
Definition delegated_answer_ok (c : Call) : bool :=
  match call_err c with
  | Some _ => match call_resp c !! "code" with Some (VInt _) => true | _ => false end
  | None =>
      match call_resp c !! "redirect_url" with
      | Some (VString _) => true
      | Some _ => false
      | None => match call_resp c !! "claims" with
                | Some (VClaims (Some _)) => true
                | _ => false
                end
      end
  end.

(** The entries of the context that the handler writes once the fresh bag
    is filled (lines 132-133 and 168-352). *)
Definition flow_key (k : string) : bool :=
  existsb (String.eqb k)
    ["authenticated"; "user_claims"; "flow"; "registration"; "registration_db";
     "status_code"; "message"; "request"; "request_path"; "login_options";
     "authorized"; "auth_credentials_found"; "auth_backend_found";
     "auth_credentials"].

(** [keeps_base]: the other entries of the context are left as they are. *)
Definition keeps_base (s s' : State) (pan : bool) : Prop :=
  ∀ k, flow_key k = false → opts s' !! k = opts s !! k.

(** ** More of the portal to run the handler on *)

Module Examples2.

(** An identity provider that asks for a visit first: its result carries a
    [redirect_url], and claims that are not to be used yet. *)
Definition keycloak : Backend :=
  {| GetName := "keycloak_backend"; GetRealm := "keycloak"; GetMethod := "saml";
     Authenticate := fun _ =>
       (<["redirect_url" := VString "https://idp.example.com/sso"]>
          (<["claims" := VClaims (Some (Examples.claims_of "carol"))]> ∅), None) |}.

(** A second backend for oauth2/google, configured after the first. *)
Definition google_mirror : Backend :=
  {| GetName := "google_mirror"; GetRealm := "google"; GetMethod := "oauth2";
     Authenticate := fun _ => (<["code" := VInt 503]> ∅, Some "unavailable") |}.

(** LDAP again, for another directory of the same realm. *)
Definition ldap_branch : Backend :=
  {| GetName := "ldap_branch"; GetRealm := "corp"; GetMethod := "ldap";
     Authenticate := fun _ =>
       (<["claims" := VClaims (Some (Examples.claims_of "robert"))]> ∅, None) |}.

Definition portal (token : option UserClaims * bool * error) (registration : Registration)
    (tracking : bool) : AuthPortal :=
  {| AuthURLPath := "/auth";
     UserInterface := {| Title := "" |};
     UserRegistration := registration;
     PortalCookies := {| GetAttributes := " Path=/;" |};
     Backends := [Examples.ldap; Examples.local; ldap_branch; Examples.google;
                  google_mirror; Examples.github; keycloak];
     TokenProvider := {| TokenName := "access_token" |};
     EnableSourceIPTracking := tracking;
     PortalTokenValidator := {| Authorize := fun _ => token |} |}.

Definition open_registration : Registration :=
  {| Disabled := false; Dropbox := "/var/lib/portal/registrations.json" |}.

Definition closed_registration : Registration :=
  {| Disabled := true; Dropbox := "/var/lib/portal/registrations.json" |}.

(** The request body cannot be parsed. *)
Definition utils_unparsable : Utils :=
  {| GetContentType := fun _ => "application/json";
     GetSourceAddress := fun _ => "203.0.113.7";
     GetCurrentURL := fun _ => "https://portal.example.com/auth";
     ParseCredentials := fun _ => (None, Some "invalid json");
     path_Join := String.concat "/";
     NewV4 := "6ba7b810-9dad-11d1-80b4-00c04fd430c8" |}.

Definition bad_token : option UserClaims * bool * error :=
  (None, false, Some "signature is invalid").

(** A second directory of the realm "corp", which knows bob too. *)
Definition directory : Backend :=
  {| GetName := "directory_backend"; GetRealm := "corp"; GetMethod := "directory";
     Authenticate := fun _ =>
       (<["claims" := VClaims (Some (Examples.claims_of "bob"))]> ∅, None) |}.

Definition twin_portal : AuthPortal :=
  {| AuthURLPath := "/auth";
     UserInterface := {| Title := "Sign In" |};
     UserRegistration := {| Disabled := true; Dropbox := "" |};
     PortalCookies := {| GetAttributes := " Path=/; Secure; HttpOnly;" |};
     Backends := [Examples.ldap; directory];
     TokenProvider := {| TokenName := "access_token" |};
     EnableSourceIPTracking := false;
     PortalTokenValidator := {| Authorize := fun _ => Examples.no_token |} |}.

End Examples2.

(** ** Facts about the path tests *)

Lemma cut_prefix_app (s p rest : string) :
  GoStrings.cut_prefix s p = Some rest → s = p +:+ rest.
Proof.
  revert s. induction p as [|c p IH]; intros s H; simpl in *.
  - by injection H as ->.
  - destruct s as [|d s]; [discriminate|].
    destruct (Ascii.eqb c d) eqn:E; [|discriminate].
    apply Ascii.eqb_eq in E. subst d.
    change (String c s = String c (p +:+ rest)). f_equal. by apply IH.
Qed.

Lemma HasPrefix_app (s p : string) :
  GoStrings.HasPrefix s p = true → ∃ rest, s = p +:+ rest.
Proof.
  unfold GoStrings.HasPrefix. destruct (GoStrings.cut_prefix s p) eqn:E; [|discriminate].
  intros _. eexists. by apply cut_prefix_app.
Qed.

(** A path under a delegated-backend prefix, spelled out. *)
Lemma is_delegated_cases (p : string) :
  is_delegated p = true →
  ∃ rest, p = "saml" +:+ rest ∨ p = "x509" +:+ rest ∨ p = "oauth2" +:+ rest.
Proof.
  unfold is_delegated. intros H.
  apply orb_true_iff in H as [H|H]; [apply orb_true_iff in H as [H|H]|];
    apply HasPrefix_app in H as [rest ->]; eauto.
Qed.

Lemma route_delegated u m r reqID p :
  is_delegated p = true → route u m r reqID p = delegated_flow u m r reqID p.
Proof.
  intros H. destruct (is_delegated_cases p H) as [rest [ -> | [ -> | -> ] ] ]; reflexivity.
Qed.

Lemma route_login u m r reqID p :
  GoStrings.HasPrefix p "login" || String.eqb p "" = true →
  route u m r reqID p = login_flow u m r reqID.
Proof.
  intros H. apply orb_true_iff in H as [H|H].
  - apply HasPrefix_app in H as [rest ->]. reflexivity.
  - apply String.eqb_eq in H. subst p. reflexivity.
Qed.

Lemma login_not_delegated p :
  GoStrings.HasPrefix p "login" || String.eqb p "" = true → is_delegated p = false.
Proof.
  intros H. apply orb_true_iff in H as [H|H].
  - apply HasPrefix_app in H as [rest ->]. reflexivity.
  - apply String.eqb_eq in H. subst p. reflexivity.
Qed.

(** ** Composing computations *)

Section Sound.

Context (R : State → State → bool → Prop) `{!Sequential R}.

Lemma sound_ret {A} (a : A) : sound R (ret a).
Proof. intros s. apply seq_refl. Qed.

Lemma sound_bind {A B} (c : M A) (k : A → M B) :
  sound R c → (∀ a, sound R (k a)) → sound R (bind c k).
Proof.
  intros Hc Hk s. unfold bind. specialize (Hc s).
  destruct (c s) as [a s'|o s'] eqn:E; simpl in *.
  - eapply seq_trans; [exact Hc|apply Hk].
  - exact Hc.
Qed.

Lemma sound_exit {A} (o : Outcome) : o ≠ Panicked → sound R (@exit A o).
Proof. intros Ho s. unfold exit. destruct o; simpl; try apply seq_refl. done. Qed.

Lemma sound_get_opts : sound R get_opts.
Proof. intros s. apply seq_refl. Qed.

End Sound.

(** ** Traces *)

Lemma calls_app t1 t2 : calls (t1 ++ t2) = calls t1 ++ calls t2.
Proof. apply omap_app. Qed.

Lemma cache_writes_app t1 t2 :
  cache_writes (t1 ++ t2) = cache_writes t1 ++ cache_writes t2.
Proof. apply omap_app. Qed.

Lemma invoked_app t1 t2 : invoked (t1 ++ t2) = invoked t1 ++ invoked t2.
Proof. unfold invoked. by rewrite calls_app, fmap_app. Qed.

Lemma replay_app c w1 w2 : replay c (w1 ++ w2) = replay (replay c w1) w2.
Proof. apply foldl_app. Qed.

Lemma calls_auth b ctx resp err t :
  calls (EvAuthenticate b ctx resp err :: t) = mkCall b ctx resp err :: calls t.
Proof. reflexivity. Qed.

Lemma calls_quiet e t : quiet e = true → calls (e :: t) = calls t.
Proof. by destruct e. Qed.

Lemma calls_cache k v t : calls (EvCacheAdd k v :: t) = calls t.
Proof. reflexivity. Qed.

Lemma invoked_auth b ctx resp err t :
  invoked (EvAuthenticate b ctx resp err :: t) = b :: invoked t.
Proof. reflexivity. Qed.

Lemma invoked_quiet e t : quiet e = true → invoked (e :: t) = invoked t.
Proof. by destruct e. Qed.

Lemma invoked_cache k v t : invoked (EvCacheAdd k v :: t) = invoked t.
Proof. reflexivity. Qed.

Lemma cache_writes_auth b ctx resp err t :
  cache_writes (EvAuthenticate b ctx resp err :: t) = cache_writes t.
Proof. reflexivity. Qed.

Lemma cache_writes_cache k v t :
  cache_writes (EvCacheAdd k v :: t) = (k, v) :: cache_writes t.
Proof. reflexivity. Qed.

Lemma cache_writes_nil : cache_writes [] = [].
Proof. reflexivity. Qed.

Create Rewrite HintDb traces.
#[export] Hint Rewrite calls_auth calls_cache invoked_auth invoked_cache : traces.
#[export] Hint Rewrite cache_writes_auth cache_writes_cache cache_writes_nil : traces.
#[export] Hint Rewrite calls_quiet invoked_quiet using reflexivity : traces.

Lemma quiet_calls t : forallb quiet t = true → calls t = [].
Proof.
  induction t as [|e t IH]; [done|]. simpl. intros [Q H]%andb_true_iff.
  destruct e; try discriminate; by apply IH.
Qed.

Lemma quiet_cache_writes t : forallb quiet t = true → cache_writes t = [].
Proof.
  induction t as [|e t IH]; [done|]. simpl. intros [Q H]%andb_true_iff.
  destruct e; try discriminate; by apply IH.
Qed.

Section Blocks.

Context (u : Utils) (m : AuthPortal) (r : Request) (d : bool).

Lemma blocks_app t1 t2 : blocks u m r d t1 → blocks u m r d t2 → blocks u m r d (t1 ++ t2).
Proof.
  induction 1; intros Ht2; simpl; [done|..].
  - apply blocks_quiet; auto.
  - apply blocks_call; auto.
  - apply (blocks_write _ _ _ _ c k e); auto.
Qed.

(** The cache writes of a trace are those of its calls, in order. *)
Lemma blocks_writes t :
  blocks u m r d t → cache_writes t = omap (write_of_call u m r d) (calls t).
Proof.
  induction 1 as [|e t Q _ IH|[b ctx resp err] t _ _ W _ IH|[b ctx resp err] k e t _ _ W _ IH].
  - done.
  - destruct e; try discriminate; exact IH.
  - cbn. rewrite W. exact IH.
  - cbn. rewrite W. by f_equal.
Qed.

(** Every recorded call is a call of a configured backend, with its
    answer. *)
Lemma blocks_calls t c :
  blocks u m r d t → c ∈ calls t →
  call_backend c ∈ Backends m
  ∧ Authenticate (call_backend c) (call_ctx c) = (call_resp c, call_err c).
Proof.
  induction 1 as [|e t Q _ IH|[b ctx resp err] t B A _ _ IH|[b ctx resp err] k e t B A _ _ IH].
  - intros H. by apply elem_of_nil in H.
  - destruct e; try discriminate; exact IH.
  - cbn. intros [->|H]%elem_of_cons; [done|auto].
  - cbn. intros [->|H]%elem_of_cons; [done|auto].
Qed.

(** A call that has a cache write is followed by it at once. *)
Lemma blocks_split t1 c t2 k e :
  blocks u m r d (t1 ++ event_of_call c :: t2) →
  write_of_call u m r d c = Some (k, e) →
  ∃ t3, t2 = EvCacheAdd k e :: t3.
Proof.
  intros H. remember (t1 ++ event_of_call c :: t2) as t eqn:E.
  revert t1 E. destruct c as [b ctx resp err]. unfold event_of_call at 1. simpl.
  induction H as [|e0 t Q _ IH|[b0 ctx0 resp0 err0] t _ _ W _ IH
                  |[b0 ctx0 resp0 err0] k0 e0 t _ _ W _ IH];
    intros t1 E W'; unfold event_of_call in E; simpl in E.
  - by destruct t1.
  - destruct t1 as [|x t1]; simplify_eq/=; try discriminate. by eapply IH.
  - destruct t1 as [|x t1]; simplify_eq/=; try congruence. by eapply IH.
  - destruct t1 as [|x t1]; simplify_eq/=; eauto.
    destruct t1 as [|y t1]; simplify_eq/=. by eapply IH.
Qed.

#[export] Instance tracks_sequential : Sequential (tracks u m r d).
Proof.
  split.
  - intros s. exists []. rewrite app_nil_r. split_and!; try done. constructor.
  - intros s1 s2 s3 b (e1 & T1 & C1 & W1 & F1) (e2 & T2 & C2 & W2 & F2).
    exists (e1 ++ e2). split_and!.
    + by rewrite T2, T1, app_assoc.
    + by rewrite C2, C1, cache_writes_app, replay_app.
    + by apply blocks_app.
    + intros Hb. rewrite calls_app, forallb_app, F1, F2; done.
Qed.

Local Abbreviation R := (tracks u m r d).

Lemma tracks_set_opt k v : sound R (set_opt k v).
Proof.
  intros s. exists []. simpl. rewrite app_nil_r. split_and!; try done. constructor.
Qed.

Lemma tracks_emit e : quiet e = true → sound R (emit e).
Proof.
  intros Q s. exists [e]. split_and!; try done.
  - by destruct e.
  - apply blocks_quiet; [done|constructor].
  - by destruct e.
Qed.

Lemma tracks_log lvl msg fields : sound R (log lvl msg fields).
Proof. by apply tracks_emit. Qed.

Lemma tracks_panic {A} : sound R (@panic A).
Proof.
  intros s. exists []. simpl. rewrite app_nil_r. split_and!; try done. constructor.
Qed.

Lemma tracks_as_bool v : sound R (as_bool v).
Proof. destruct v as [[]|]; first [apply sound_ret, _ | apply tracks_panic]. Qed.

Lemma tracks_as_int v : sound R (as_int v).
Proof. destruct v as [[]|]; first [apply sound_ret, _ | apply tracks_panic]. Qed.

Lemma tracks_as_string v : sound R (as_string v).
Proof. destruct v as [[]|]; first [apply sound_ret, _ | apply tracks_panic]. Qed.

Lemma tracks_Error_of err : sound R (Error_of err).
Proof. destruct err; first [apply sound_ret, _ | apply tracks_panic]. Qed.

End Blocks.

Ltac tracks_step :=
  lazymatch goal with
  | |- sound _ (bind _ _) => apply (sound_bind _); [|intros ?]
  | |- sound _ (ret _) => apply (sound_ret _)
  | |- sound _ get_opts => apply (sound_get_opts _)
  | |- sound _ (set_opt _ _) => apply tracks_set_opt
  | |- sound _ (log _ _ _) => apply tracks_log
  | |- sound _ (emit _) => apply tracks_emit; reflexivity
  | |- sound _ (exit _) => apply (sound_exit _); discriminate
  | |- sound _ panic => apply tracks_panic
  | |- sound _ (as_bool _) => apply tracks_as_bool
  | |- sound _ (as_int _) => apply tracks_as_int
  | |- sound _ (as_string _) => apply tracks_as_string
  | |- sound _ (Error_of _) => apply tracks_Error_of
  | |- sound _ (if ?b then _ else _) => destruct b
  | |- sound _ (match ?x with _ => _ end) => destruct x
  end.

Ltac run_monad :=
  cbv [bind ret exit panic get_opts set_opt emit log cache_add
       as_bool as_int as_string as_claims Error_of
       opts trace sessionCache final panicked].

Ltac use_lookups :=
  repeat match goal with H : _ !! _ = _ |- _ => rewrite H end.

Ltac build_blocks :=
  lazymatch goal with
  | |- blocks _ _ _ _ [] => constructor
  | |- blocks _ _ _ _ (EvAuthenticate ?b ?c ?rs ?e :: EvCacheAdd ?k ?v :: ?t) =>
      apply (blocks_write _ _ _ _ (mkCall b c rs e) k v t);
      [assumption | assumption | unfold write_of_call; cbn; use_lookups; reflexivity
      | build_blocks]
  | |- blocks _ _ _ _ (EvAuthenticate ?b ?c ?rs ?e :: ?t) =>
      apply (blocks_call _ _ _ _ (mkCall b c rs e) t);
      [assumption | assumption | unfold write_of_call; cbn; use_lookups; reflexivity
      | build_blocks]
  | |- blocks _ _ _ _ (_ :: _) => apply blocks_quiet; [reflexivity | build_blocks]
  end.

Ltac close_tracks :=
  eexists; split_and!;
  [ cbn [trace]; rewrite <- ?app_assoc; reflexivity
  | reflexivity
  | cbn [app]; build_blocks
  | cbn; unfold error_has_code; cbn; use_lookups; done ].

Section Handler_tracks.

Context (u : Utils) (m : AuthPortal) (r : Request).

Lemma new_opts_tracks d reqID : sound (tracks u m r d) (new_opts u m r reqID).
Proof. unfold new_opts. repeat tracks_step. Qed.

Lemma validate_token_tracks d : sound (tracks u m r d) (validate_token u m r).
Proof. unfold validate_token. repeat tracks_step. Qed.

Lemma query_parameters_tracks d p : sound (tracks u m r d) (query_parameters m r p).
Proof. unfold query_parameters. repeat tracks_step. Qed.

Lemma login_attempt_tracks credentials backend :
  backend ∈ Backends m →
  sound (tracks u m r false)
    (login_attempt u m r (GetRequestID u r) credentials backend).
Proof.
  intros B [o t c]. unfold login_attempt.
  destruct (negb _); [apply (seq_refl (R := tracks u m r false))|].
  run_monad.
  destruct (Authenticate backend _) as [resp [e|]] eqn:EA.
  - destruct (resp !! "code") as [[]|] eqn:EC; close_tracks.
  - destruct (resp !! "claims") as [[| | | | | |[claims|]|]|] eqn:EC; close_tracks.
Qed.

Lemma delegated_attempt_tracks method realm backend :
  backend ∈ Backends m →
  sound (tracks u m r true)
    (delegated_attempt u m r (GetRequestID u r) method realm backend).
Proof.
  intros B [o t c]. unfold delegated_attempt, delegated_failure, delegated_success.
  run_monad.
  destruct (Authenticate backend _) as [resp [e|]] eqn:EA.
  - destruct (resp !! "code") as [[]|] eqn:EC; close_tracks.
  - destruct (resp !! "redirect_url") as [v|] eqn:ER.
    + destruct v; close_tracks.
    + destruct (resp !! "claims") as [v|] eqn:EC.
      * destruct v as [| | | | | |[claims|]|]; close_tracks.
      * destruct (resp !! "code") as [[]|] eqn:EK; close_tracks.
Qed.

Lemma login_loop_tracks credentials backends :
  (∀ b, b ∈ backends → b ∈ Backends m) →
  sound (tracks u m r false)
    (login_loop u m r (GetRequestID u r) credentials backends).
Proof.
  induction backends as [|backend rest IH]; intros Hin; simpl.
  - apply (sound_ret _).
  - apply (sound_bind _).
    + apply login_attempt_tracks, Hin. by left.
    + intros _. apply IH. intros b Hb. apply Hin. by right.
Qed.

Lemma delegated_loop_tracks method realm backends :
  (∀ b, b ∈ backends → b ∈ Backends m) →
  sound (tracks u m r true)
    (delegated_loop u m r (GetRequestID u r) method realm backends).
Proof.
  induction backends as [|backend rest IH]; intros Hin; simpl.
  - repeat tracks_step.
  - assert (sound (tracks u m r true)
              (delegated_loop u m r (GetRequestID u r) method realm rest)) as IH'.
    { apply IH. intros b Hb. apply Hin. by right. }
    repeat (destruct (negb _); [exact IH'|]).
    apply delegated_attempt_tracks, Hin. by left.
Qed.

Lemma delegated_flow_tracks p :
  sound (tracks u m r true) (delegated_flow u m r (GetRequestID u r) p).
Proof.
  unfold delegated_flow.
  destruct (_ <? _)%nat; repeat tracks_step. by apply delegated_loop_tracks.
Qed.

Lemma login_flow_tracks :
  sound (tracks u m r false) (login_flow u m r (GetRequestID u r)).
Proof.
  unfold login_flow.
  repeat first [by apply login_loop_tracks | tracks_step].
Qed.

Lemma route_tracks p :
  sound (tracks u m r (is_delegated p)) (route u m r (GetRequestID u r) p).
Proof.
  destruct (is_delegated p) eqn:D.
  - rewrite route_delegated by done. apply delegated_flow_tracks.
  - unfold route.
    change (GoStrings.HasPrefix p "saml" || GoStrings.HasPrefix p "x509"
            || GoStrings.HasPrefix p "oauth2") with (is_delegated p).
    rewrite D.
    repeat first [apply login_flow_tracks | tracks_step].
Qed.

Lemma ServeHTTP_tracks :
  sound (tracks u m r (is_delegated (url_path m r))) (ServeHTTP u m r).
Proof.
  unfold ServeHTTP.
  repeat first [apply new_opts_tracks | apply validate_token_tracks
               | apply query_parameters_tracks | apply route_tracks | tracks_step].
Qed.

(** Every run: its trace is made of such blocks, its cache is the initial one
    after the recorded writes, and unless it panicked every error it saw
    carried an integer code. *)
Lemma serve_tracks cache :
  let x := serve u m r cache in
  blocks u m r (is_delegated (url_path m r)) (trace x.2)
  ∧ sessionCache x.2 = replay cache (cache_writes (trace x.2))
  ∧ (x.1 ≠ Panicked → forallb error_has_code (calls (trace x.2)) = true).
Proof.
  unfold serve. pose proof (ServeHTTP_tracks (mkState ∅ [] cache)) as (evs & T & C & B & F).
  destruct (ServeHTTP u m r _) as [[]|o s]; simpl in *. subst evs.
  split_and!; [done..|]. intros Ho. apply F. by destruct o.
Qed.

End Handler_tracks.

(** ** The handler up to routing *)

Section Prologue.

Context (u : Utils) (m : AuthPortal) (r : Request).

Lemma new_opts_run t c :
  new_opts u m r (GetRequestID u r) (mkState ∅ t c)
  = Next tt (mkState (new_context u m r) t c).
Proof.
  unfold new_context, new_opts. destruct (String.eqb _ ""); reflexivity.
Qed.

Lemma new_context_request_id :
  new_context u m r !! "request_id" = Some (VString (GetRequestID u r)).
Proof.
  unfold new_context, new_opts. destruct (String.eqb _ ""); run_monad; by simplify_map_eq.
Qed.

Lemma new_context_authenticated :
  new_context u m r !! "authenticated" = Some (VBool false).
Proof.
  unfold new_context, new_opts. destruct (String.eqb _ ""); run_monad; by simplify_map_eq.
Qed.

Lemma new_context_auth_backend_found :
  new_context u m r !! "auth_backend_found" = Some (VBool false).
Proof.
  unfold new_context, new_opts. destruct (String.eqb _ ""); run_monad; by simplify_map_eq.
Qed.

Lemma new_context_flow : new_context u m r !! "flow" = None.
Proof.
  unfold new_context, new_opts. destruct (String.eqb _ ""); run_monad; by simplify_map_eq.
Qed.

Lemma new_context_status_code : new_context u m r !! "status_code" = None.
Proof.
  unfold new_context, new_opts. destruct (String.eqb _ ""); run_monad; by simplify_map_eq.
Qed.

(** Token validation, from the fresh context: it leaves for the login
    redirect when the token is expired, and goes on otherwise. *)
Lemma validate_token_run t c :
  validate_token u m r (mkState (new_context u m r) t c)
  = if token_expired m r
    then Stop (Served ServeSessionLoginRedirect) (mkState (new_context u m r) t c)
    else Next tt (mkState (validated_context u m r) (t ++ validation_log u m r) c).
Proof.
  unfold validated_context, validation_log, token_expired, validate_token.
  destruct (Authorize _ r) as [[claims [|]] [e|]]; run_monad;
    rewrite ?app_nil_r; try reflexivity.
  destruct (String.eqb e "[Token is expired]"); [reflexivity|].
  destruct (String.eqb e "no token found"); rewrite ?app_nil_r; [reflexivity|].
  rewrite new_context_request_id. reflexivity.
Qed.

Lemma validated_context_authenticated :
  token_expired m r = false →
  validated_context u m r !! "authenticated" = Some (VBool (token_accepted m r)).
Proof.
  unfold validated_context, token_expired, token_accepted, validate_token.
  destruct (Authorize _ r) as [[claims [|]] [e|]]; run_monad; simpl;
    rewrite ?lookup_insert_ne by done; rewrite ?lookup_insert_eq;
    rewrite ?new_context_authenticated; try done.
  intros ->. destruct (String.eqb e "no token found"); simpl;
    rewrite ?new_context_request_id; simpl; by rewrite new_context_authenticated.
Qed.

(** Validation writes [authenticated] and [user_claims] only. *)
Lemma validated_context_other k :
  k ≠ "authenticated" → k ≠ "user_claims" →
  validated_context u m r !! k = new_context u m r !! k.
Proof.
  intros K1 K2. unfold validated_context, validate_token.
  destruct (Authorize _ r) as [[claims [|]] [e|]]; run_monad; simpl;
    rewrite ?lookup_insert_ne by done; try done.
  destruct (String.eqb e "[Token is expired]"); [done|].
  destruct (String.eqb e "no token found"); [done|].
  by rewrite new_context_request_id.
Qed.

Lemma validation_log_quiet : forallb quiet (validation_log u m r) = true.
Proof.
  unfold validation_log, validate_token.
  destruct (Authorize _ r) as [[claims [|]] [e|]]; run_monad; try done.
  destruct (String.eqb e "[Token is expired]"); [done|].
  destruct (String.eqb e "no token found"); [done|].
  by rewrite new_context_request_id.
Qed.

Lemma validation_log_is_log : forallb is_log (validation_log u m r) = true.
Proof.
  unfold validation_log, validate_token.
  destruct (Authorize _ r) as [[claims [|]] [e|]]; run_monad; try done.
  destruct (String.eqb e "[Token is expired]"); [done|].
  destruct (String.eqb e "no token found"); [done|].
  by rewrite new_context_request_id.
Qed.

Lemma redirect_cookie_quiet : forallb quiet (redirect_cookie m r) = true.
Proof.
  unfold redirect_cookie. destruct (String.eqb _ _); [|done].
  by destruct (URL_Query r !! "redirect_url").
Qed.

(** The query parameters: the redirect back to the portal's root, or on to
    routing. *)
Lemma query_parameters_run o t c :
  query_parameters m r (url_path m r) (mkState o t c)
  = if redirects_home m r
    then Stop ReturnedNil
           (mkState o (t ++ redirect_cookie m r
                         ++ [EvHeaderSet "Location" (AuthURLPath m); EvWriteHeader 302]) c)
    else Next tt (mkState o (t ++ redirect_cookie m r) c).
Proof.
  unfold query_parameters, redirects_home, redirect_cookie, is_delegated.
  destruct (String.eqb (Method r) "GET"); simpl; [|by rewrite app_nil_r].
  destruct (URL_Query r !! "redirect_url") as [v|]; run_monad; simpl;
    destruct (GoStrings.HasPrefix _ "saml"), (GoStrings.HasPrefix _ "x509"),
      (GoStrings.HasPrefix _ "oauth2"); simpl;
    rewrite <- ?app_assoc, ?app_nil_r; reflexivity.
Qed.

(** The whole handler, by what happens before routing. *)
Lemma ServeHTTP_run cache :
  ServeHTTP u m r (mkState ∅ [] cache)
  = if token_expired m r
    then Stop (Served ServeSessionLoginRedirect) (mkState (new_context u m r) [] cache)
    else if redirects_home m r
    then Stop ReturnedNil
           (mkState (validated_context u m r)
              (validation_log u m r ++ redirect_cookie m r
                 ++ [EvHeaderSet "Location" (AuthURLPath m); EvWriteHeader 302]) cache)
    else route u m r (GetRequestID u r) (url_path m r)
           (mkState (validated_context u m r)
              (validation_log u m r ++ redirect_cookie m r) cache).
Proof.
  unfold ServeHTTP, bind. rewrite new_opts_run, validate_token_run.
  destruct (token_expired m r); [done|].
  rewrite query_parameters_run. simpl. by destruct (redirects_home m r).
Qed.

End Prologue.

(** ** Routing *)

Section Routing.

Context (u : Utils) (m : AuthPortal) (r : Request).

(** Away from the delegated-backend prefixes, an authenticated request is
    rendered without any further effect, and stays authenticated. *)
Lemma route_authenticated reqID p s :
  is_delegated p = false →
  opts s !! "authenticated" = Some (VBool true) →
  ∃ h o, route u m r reqID p s = Stop (Served h) (mkState o (trace s) (sessionCache s))
       ∧ o !! "authenticated" = Some (VBool true).
Proof.
  intros D A. destruct s as [o t c]. simpl in A. unfold route.
  change (GoStrings.HasPrefix p "saml" || GoStrings.HasPrefix p "x509"
          || GoStrings.HasPrefix p "oauth2") with (is_delegated p).
  rewrite D. unfold login_flow.
  repeat match goal with
         | |- context [if ?b then _ else _] => destruct b
         end;
    run_monad; rewrite ?lookup_insert_ne by done; rewrite ?A;
    do 2 eexists; (split; [reflexivity|]);
    rewrite ?lookup_insert_ne by done; exact A.
Qed.

End Routing.

(** ** One backend of the interactive login loop *)

Section Login_attempt.

Context (u : Utils) (m : AuthPortal) (r : Request).
Context (credentials : gmap string string) (backend : Backend).

Local Abbreviation attempt :=
  (login_attempt u m r (GetRequestID u r) credentials backend).

Lemma login_attempt_skip s :
  realm_matches credentials backend = false → attempt s = Next tt s.
Proof. unfold login_attempt, realm_matches. by intros ->. Qed.

Lemma login_attempt_error s resp e n :
  realm_matches credentials backend = true →
  Authenticate backend (login_ctx credentials (opts s)) = (resp, Some e) →
  resp !! "code" = Some (VInt n) →
  attempt s
  = Next tt (mkState
               (<["status_code" := VInt n]>
                  (<["message" := VString "Authentication failed"]>
                     (login_ctx credentials (opts s))))
               (trace s ++ [EvAuthenticate backend (login_ctx credentials (opts s))
                              resp (Some e);
                            login_failed_log (GetRequestID u r) e])
               (sessionCache s)).
Proof.
  unfold login_attempt, realm_matches, login_ctx. intros -> EA EC.
  destruct s as [o t c]. run_monad. simpl in *. rewrite EA. simpl. rewrite EC.
  by rewrite <- app_assoc.
Qed.

Lemma login_attempt_error_panics s resp e :
  realm_matches credentials backend = true →
  Authenticate backend (login_ctx credentials (opts s)) = (resp, Some e) →
  (∀ n, resp !! "code" ≠ Some (VInt n)) →
  attempt s
  = Stop Panicked
      (mkState (<["message" := VString "Authentication failed"]>
                  (login_ctx credentials (opts s)))
         (trace s ++ [EvAuthenticate backend (login_ctx credentials (opts s))
                        resp (Some e)])
         (sessionCache s)).
Proof.
  unfold login_attempt, realm_matches, login_ctx. intros -> EA EC.
  destruct s as [o t c]. run_monad. simpl in *. rewrite EA. simpl.
  destruct (resp !! "code") as [[]|]; try reflexivity. by destruct (EC n).
Qed.

Lemma login_attempt_success s resp claims :
  realm_matches credentials backend = true →
  Authenticate backend (login_ctx credentials (opts s)) = (resp, None) →
  resp !! "claims" = Some (VClaims (Some claims)) →
  let claims' := session_claims u m r claims in
  attempt s
  = Next tt (mkState
               (<["status_code" := VInt 200]>
                  (<["authenticated" := VBool true]>
                     (<["user_claims" := VClaims (Some claims')]>
                        (login_ctx credentials (opts s)))))
               (trace s ++ [EvAuthenticate backend (login_ctx credentials (opts s))
                              resp None;
                            EvCacheAdd (ID claims') (cache_entry claims' backend);
                            login_succeeded_log (GetRequestID u r) claims'])
               (SessionCache.Add (ID claims') (cache_entry claims' backend)
                  (sessionCache s))).
Proof.
  unfold login_attempt, realm_matches, login_ctx. intros -> EA EC.
  destruct s as [o t c]. run_monad. simpl in *. rewrite EA. simpl. rewrite EC.
  by rewrite <- !app_assoc.
Qed.

Lemma login_attempt_success_panics s resp :
  realm_matches credentials backend = true →
  Authenticate backend (login_ctx credentials (opts s)) = (resp, None) →
  (∀ claims, resp !! "claims" ≠ Some (VClaims (Some claims))) →
  attempt s
  = Stop Panicked
      (mkState (login_ctx credentials (opts s))
         (trace s ++ [EvAuthenticate backend (login_ctx credentials (opts s))
                        resp None])
         (sessionCache s)).
Proof.
  unfold login_attempt, realm_matches, login_ctx. intros -> EA EC.
  destruct s as [o t c]. run_monad. simpl in *. rewrite EA. simpl.
  destruct (resp !! "claims") as [[| | | | | |[claims|]|]|]; try reflexivity.
  by destruct (EC claims).
Qed.

End Login_attempt.

(** ** The interactive login loop *)

Section Login_loop.

Context (u : Utils) (m : AuthPortal) (r : Request).
Context (credentials : gmap string string).

Lemma last_cons_call (c : Call) cs :
  last (c :: cs) = match last cs with Some c' => Some c' | None => Some c end.
Proof. destruct cs as [|c' cs]; [done|]. rewrite last_cons. by destruct (last (c' :: cs)). Qed.

Lemma status_after_cons c cs before :
  status_after (c :: cs) before = status_after cs (status_of_call c).
Proof. unfold status_after. rewrite last_cons_call. by destruct (last cs). Qed.

Lemma code_cases (resp : gmap string value) :
  (∃ n, resp !! "code" = Some (VInt n)) ∨ (∀ n, resp !! "code" ≠ Some (VInt n)).
Proof. destruct (resp !! "code") as [[]|]; eauto. Qed.

Lemma claims_cases (resp : gmap string value) :
  (∃ c, resp !! "claims" = Some (VClaims (Some c)))
  ∨ (∀ c, resp !! "claims" ≠ Some (VClaims (Some c))).
Proof. destruct (resp !! "claims") as [[| | | | | |[c|]|]|]; eauto. Qed.

(** The loop calls the backends of the credentials' realm, all of them and in
    the configured order, unless an answer it cannot process makes it
    panic. *)
Lemma login_loop_run backends s :
  match login_loop u m r (GetRequestID u r) credentials backends s with
  | Next _ s' =>
      ∃ evs, trace s' = trace s ++ evs
           ∧ sessionCache s' = replay (sessionCache s) (cache_writes evs)
           ∧ (∀ c, c ∈ calls evs → call_of credentials backends c)
           ∧ invoked evs = List.filter (realm_matches credentials) backends
           ∧ forallb answer_ok (calls evs) = true
           ∧ opts s' !! "authenticated"
             = authenticated_after (calls evs) (opts s !! "authenticated")
           ∧ opts s' !! "auth_backend_found"
             = found_after (calls evs) (opts s !! "auth_backend_found")
           ∧ opts s' !! "status_code"
             = status_after (calls evs) (opts s !! "status_code")
           ∧ opts s' !! "flow" = opts s !! "flow"
  | Stop o s' =>
      o = Panicked
      ∧ ∃ evs c, trace s' = trace s ++ evs
               ∧ (∀ c, c ∈ calls evs → call_of credentials backends c)
               ∧ c ∈ calls evs ∧ answer_ok c = false
  end.
Proof.
  revert s. induction backends as [|b bs IH]; intros s.
  - simpl. exists []. rewrite app_nil_r. split_and!; try done.
    intros c Hc. by apply elem_of_nil in Hc.
  - cbn [login_loop List.filter]. unfold bind.
    assert (∀ c, call_of credentials bs c → call_of credentials (b :: bs) c) as Hweak.
    { intros c (Hb & Hr & Ha). split_and!; [by right|done..]. }
    destruct (realm_matches credentials b) eqn:RM.
    2:{ rewrite login_attempt_skip by done. specialize (IH s).
        destruct (login_loop _ _ _ _ _ _ _) as [[] s'|o s'].
        - destruct IH as (evs & T & K & P & I & F & A & B & S & L).
          exists evs. split_and!; auto.
        - destruct IH as (-> & evs & c & T & P & C & A).
          split; [done|]. exists evs, c. split_and!; auto. }
    destruct (Authenticate b (login_ctx credentials (opts s))) as [resp err] eqn:EA.
    assert (∀ evs c, (∀ c, c ∈ calls evs → call_of credentials bs c) →
              c ∈ mkCall b (login_ctx credentials (opts s)) resp err :: calls evs →
              call_of credentials (b :: bs) c) as Hcall.
    { intros evs c P [->|Hc]%elem_of_cons; [|by apply Hweak, P].
      split_and!; [by left|done..]. }
    destruct err as [e|].
    + destruct (code_cases resp) as [[n EC]|EC].
      * rewrite (login_attempt_error _ _ _ _ _ _ _ _ n RM EA EC).
        match goal with |- context [login_loop _ _ _ _ _ _ ?s1] => specialize (IH s1) end.
        destruct (login_loop _ _ _ _ _ _ _) as [[] s'|o s'].
        -- destruct IH as (evs & T & K & P & I & F & A & B & S & L).
           cbn [opts trace sessionCache] in *.
           eexists. split_and!.
           ++ rewrite T, <- app_assoc. reflexivity.
           ++ by rewrite K.
           ++ cbn [app]. autorewrite with traces. intros c. by apply Hcall.
           ++ cbn [app]. autorewrite with traces. by rewrite I.
           ++ cbn [app]. autorewrite with traces. cbn [forallb].
              unfold answer_ok at 1. cbn. by rewrite EC.
           ++ rewrite A. cbn [app]. autorewrite with traces.
              unfold authenticated_after. cbn. unfold login_ctx.
              by rewrite !lookup_insert_ne by done.
           ++ rewrite B. cbn [app]. autorewrite with traces.
              destruct (calls evs); [|done]. cbn. unfold login_ctx.
              rewrite !lookup_insert_ne by done. by rewrite lookup_insert_eq.
           ++ rewrite S. cbn [app]. autorewrite with traces.
              rewrite status_after_cons, lookup_insert_eq.
              unfold status_of_call. cbn. by rewrite EC.
           ++ rewrite L. unfold login_ctx. by rewrite !lookup_insert_ne by done.
        -- destruct IH as (-> & evs & c & T & P & C & A). cbn [opts trace] in *.
           split; [done|]. eexists _, c. split_and!.
           ++ rewrite T, <- app_assoc. reflexivity.
           ++ cbn [app]. autorewrite with traces. intros c'. by apply Hcall.
           ++ cbn [app]. autorewrite with traces. by right.
           ++ done.
      * rewrite (login_attempt_error_panics _ _ _ _ _ _ _ _ RM EA) by eauto.
        split; [done|]. eexists [_], _. split_and!; [done| |autorewrite with traces; by left|].
        -- autorewrite with traces. intros c. apply (Hcall []).
           intros c' Hc'. by apply elem_of_nil in Hc'.
        -- unfold answer_ok. cbn. destruct (resp !! "code") as [[]|]; try done.
           by destruct (EC n).
    + destruct (claims_cases resp) as [[cl EC]|EC].
      * rewrite (login_attempt_success _ _ _ _ _ _ _ cl RM EA EC). cbv zeta.
        match goal with |- context [login_loop _ _ _ _ _ _ ?s1] => specialize (IH s1) end.
        destruct (login_loop _ _ _ _ _ _ _) as [[] s'|o s'].
        -- destruct IH as (evs & T & K & P & I & F & A & B & S & L).
           cbn [opts trace sessionCache] in *.
           eexists. split_and!.
           ++ rewrite T, <- app_assoc. reflexivity.
           ++ by rewrite K.
           ++ cbn [app]. autorewrite with traces. intros c. by apply Hcall.
           ++ cbn [app]. autorewrite with traces. by rewrite I.
           ++ cbn [app]. autorewrite with traces. cbn [forallb].
              unfold answer_ok at 1. cbn. by rewrite EC.
           ++ rewrite A. cbn [app]. autorewrite with traces.
              unfold authenticated_after. cbn.
              destruct (existsb succeeded (calls evs)); [done|].
              by rewrite lookup_insert_ne, lookup_insert_eq.
           ++ rewrite B. cbn [app]. autorewrite with traces.
              destruct (calls evs); [|done]. cbn. unfold login_ctx.
              rewrite !lookup_insert_ne by done. by rewrite lookup_insert_eq.
           ++ rewrite S. cbn [app]. autorewrite with traces.
              by rewrite status_after_cons, lookup_insert_eq.
           ++ rewrite L. unfold login_ctx. by rewrite !lookup_insert_ne by done.
        -- destruct IH as (-> & evs & c & T & P & C & A). cbn [opts trace] in *.
           split; [done|]. eexists _, c. split_and!.
           ++ rewrite T, <- app_assoc. reflexivity.
           ++ cbn [app]. autorewrite with traces. intros c'. by apply Hcall.
           ++ cbn [app]. autorewrite with traces. by right.
           ++ done.
      * rewrite (login_attempt_success_panics _ _ _ _ _ _ _ RM EA) by eauto.
        split; [done|]. eexists [_], _. split_and!; [done| |autorewrite with traces; by left|].
        -- autorewrite with traces. intros c. apply (Hcall []).
           intros c' Hc'. by apply elem_of_nil in Hc'.
        -- unfold answer_ok. cbn. destruct (resp !! "claims") as [[| | | | | |[cl|]|]|]; try done.
           by destruct (EC cl).
Qed.

End Login_loop.

(** ** The interactive login flow *)

Section Login_flow.

Context (u : Utils) (m : AuthPortal) (r : Request).
Context (credentials : gmap string string).

Lemma login_flow_run s :
  opts s !! "authenticated" = Some (VBool false) →
  ParseCredentials u r = (Some credentials, None) →
  login_flow u m r (GetRequestID u r) s
  = match login_loop u m r (GetRequestID u r) credentials (Backends m)
            (mkState
               (<["auth_credentials_found" := VBool true]>
                  (<["login_options" := VRef "loginOptions"]>
                     (<["flow" := VString "login"]> (opts s))))
               (trace s) (sessionCache s)) with
    | Next _ s' =>
        match opts s' !! "auth_backend_found" with
        | Some (VBool true) => Stop (Served ServeLogin) s'
        | Some (VBool false) =>
            Stop (Served ServeLogin)
              (mkState (<["status_code" := VInt 500]> (opts s'))
                 (trace s' ++ [login_failed_log (GetRequestID u r)
                                 "no matching auth backend found"])
                 (sessionCache s'))
        | _ => Stop Panicked s'
        end
    | Stop o s' => Stop o s'
    end.
Proof.
  intros A P. destruct s as [o t c]. simpl in A. unfold login_flow.
  run_monad. rewrite !lookup_insert_ne by done. rewrite A, P.
  destruct (login_loop _ _ _ _ _ _ _) as [[] [o' t' c']|]; [|done].
  by destruct (o' !! "auth_backend_found") as [[| [|] | | | | | |]|].
Qed.

(** A credential submission that reaches the login loop: what the run calls
    and how it ends. *)
Lemma serve_login cache :
  token_accepted m r = false →
  token_expired m r = false →
  redirects_home m r = false →
  GoStrings.HasPrefix (url_path m r) "login" || String.eqb (url_path m r) "" = true →
  ParseCredentials u r = (Some credentials, None) →
  ∃ o s, serve u m r cache = (o, s)
       ∧ (∀ c, c ∈ calls (trace s) → call_of credentials (Backends m) c)
       ∧ ((o = Served ServeLogin
           ∧ invoked (trace s) = List.filter (realm_matches credentials) (Backends m)
           ∧ forallb answer_ok (calls (trace s)) = true
           ∧ opts s !! "authenticated"
             = Some (VBool (existsb succeeded (calls (trace s))))
           ∧ opts s !! "status_code"
             = status_after (calls (trace s)) (Some (VInt 500))
           ∧ opts s !! "flow" = Some (VString "login"))
          ∨ (o = Panicked ∧ ∃ c, c ∈ calls (trace s) ∧ answer_ok c = false)).
Proof.
  intros HA HE HR HP HC. unfold serve. rewrite ServeHTTP_run, HE, HR.
  rewrite route_login by done.
  rewrite login_flow_run;
    [|cbn [opts]; by rewrite validated_context_authenticated, HA|done].
  match goal with |- context [login_loop _ _ _ _ _ _ ?s1] =>
    pose proof (login_loop_run u m r credentials (Backends m) s1) as H
  end.
  assert (∀ t, calls ((validation_log u m r ++ redirect_cookie m r) ++ t) = calls t)
    as Hcalls.
  { intros t. rewrite !calls_app.
    by rewrite !quiet_calls by (apply validation_log_quiet || apply redirect_cookie_quiet). }
  destruct (login_loop _ _ _ _ _ _ _) as [[] s'|o s'].
  - destruct H as (evs & T & K & P & I & F & A & B & S & L). cbn [opts trace] in *.
    rewrite !lookup_insert_ne in A by done.
    rewrite !lookup_insert_ne in B by done.
    rewrite !lookup_insert_ne in S by done.
    rewrite !lookup_insert_ne, lookup_insert_eq in L by done.
    rewrite validated_context_authenticated, HA in A by done.
    rewrite validated_context_other, new_context_auth_backend_found in B by done.
    rewrite validated_context_other, new_context_status_code in S by done.
    rewrite B. unfold found_after. destruct (calls evs) as [|c0 cs] eqn:EC.
    + do 2 eexists. split; [reflexivity|]. cbn [opts trace].
      assert (calls (trace s' ++ [login_failed_log (GetRequestID u r)
                                    "no matching auth backend found"]) = []) as E0.
      { by rewrite T, <- app_assoc, Hcalls, calls_app, EC. }
      unfold invoked in *. rewrite E0. split.
      { intros c Hc. by apply elem_of_nil in Hc. }
      left. split_and!; try done.
      * by rewrite <- I, EC.
      * by rewrite lookup_insert_ne, A.
      * by rewrite lookup_insert_eq.
      * by rewrite lookup_insert_ne.
    + do 2 eexists. split; [reflexivity|].
      rewrite T, Hcalls, EC. split; [done|].
      left. split_and!; try done.
      * unfold invoked in *. by rewrite <- I, Hcalls, EC.
      * rewrite A. unfold authenticated_after. by destruct (existsb _ _).
      * rewrite S. unfold status_after. rewrite last_cons_call. by destruct (last cs).
  - destruct H as (-> & evs & c & T & P & C & A). cbn [opts trace] in *.
    do 2 eexists. split; [reflexivity|].
    rewrite T, Hcalls. split; [done|]. right. eauto.
Qed.

(** With backends whose answers the loop can process, the submission is
    rendered: every backend of the realm was called, in order. *)
Lemma serve_login_well_behaved cache :
  token_accepted m r = false →
  token_expired m r = false →
  redirects_home m r = false →
  GoStrings.HasPrefix (url_path m r) "login" || String.eqb (url_path m r) "" = true →
  ParseCredentials u r = (Some credentials, None) →
  (∀ b, b ∈ Backends m → realm_matches credentials b = true → well_behaved b) →
  ∃ s, serve u m r cache = (Served ServeLogin, s)
     ∧ invoked (trace s) = List.filter (realm_matches credentials) (Backends m)
     ∧ opts s !! "authenticated" = Some (VBool (existsb succeeded (calls (trace s))))
     ∧ opts s !! "status_code" = status_after (calls (trace s)) (Some (VInt 500)).
Proof.
  intros HA HE HR HP HC HW.
  destruct (serve_login cache HA HE HR HP HC)
    as (o & s & -> & P & [(-> & I & F & A & S & L)|(-> & c & Hc & Hbad)]).
  - exists s. by split_and!.
  - exfalso. destruct (P c Hc) as (Hin & Hrealm & Hans).
    specialize (HW _ Hin Hrealm (call_ctx c)). rewrite Hans in HW.
    destruct c. simpl in *. congruence.
Qed.

End Login_flow.

(** ** The delegated-backend flow *)

Section Delegated.

Context (u : Utils) (m : AuthPortal) (r : Request).
Context (method realm : string) (backend : Backend).

Local Abbreviation attempt :=
  (delegated_attempt u m r (GetRequestID u r) method realm backend).
Local Abbreviation ctx_of s := (delegated_ctx u m method realm (opts s)).

Lemma delegated_attempt_error s resp e n :
  Authenticate backend (ctx_of s) = (resp, Some e) →
  resp !! "code" = Some (VInt n) →
  attempt s
  = Stop (Served ServeGeneric)
      (mkState
         (<["status_code" := VInt n]>
            (<["message" := VString "Authentication failed"]>
               (<["authenticated" := VBool false]>
                  (<["flow" := VString "auth_failed"]> (ctx_of s)))))
         (trace s ++ [EvAuthenticate backend (ctx_of s) resp (Some e);
                      delegated_failed_log (GetRequestID u r) method realm e])
         (sessionCache s)).
Proof.
  unfold delegated_attempt, delegated_failure, delegated_ctx. intros EA EC.
  destruct s as [o t c]. run_monad. simpl in *. rewrite EA. simpl. rewrite EC.
  by rewrite <- app_assoc.
Qed.

Lemma delegated_attempt_error_panics s resp e :
  Authenticate backend (ctx_of s) = (resp, Some e) →
  (∀ n, resp !! "code" ≠ Some (VInt n)) →
  attempt s
  = Stop Panicked
      (mkState
         (<["message" := VString "Authentication failed"]>
            (<["authenticated" := VBool false]>
               (<["flow" := VString "auth_failed"]> (ctx_of s))))
         (trace s ++ [EvAuthenticate backend (ctx_of s) resp (Some e)])
         (sessionCache s)).
Proof.
  unfold delegated_attempt, delegated_failure, delegated_ctx. intros EA EC.
  destruct s as [o t c]. run_monad. simpl in *. rewrite EA. simpl.
  destruct (resp !! "code") as [[]|]; try reflexivity. by destruct (EC n).
Qed.

(** No error, no redirect and no claims: the failure branch runs, and stops
    at [err.Error()] on the nil error, before the warning is logged and
    before the failure page is rendered. *)
Lemma delegated_attempt_no_claims_panics s resp :
  Authenticate backend (ctx_of s) = (resp, None) →
  resp !! "redirect_url" = None →
  resp !! "claims" = None →
  ∃ o, attempt s
       = Stop Panicked
           (mkState o (trace s ++ [EvAuthenticate backend (ctx_of s) resp None])
              (sessionCache s)).
Proof.
  unfold delegated_attempt, delegated_failure, delegated_ctx. intros EA ER EC.
  destruct s as [o t c]. run_monad. simpl in *. rewrite EA. simpl. rewrite ER, EC.
  destruct (resp !! "code") as [[]|]; eauto.
Qed.

Lemma delegated_attempt_success s resp claims :
  Authenticate backend (ctx_of s) = (resp, None) →
  resp !! "redirect_url" = None →
  resp !! "claims" = Some (VClaims (Some claims)) →
  let claims' := session_claims u m r claims in
  attempt s
  = Stop (Served ServeLogin)
      (mkState
         (<["status_code" := VInt 200]>
            (<["user_claims" := VClaims (Some claims')]>
               (<["authenticated" := VBool true]> (ctx_of s))))
         (trace s ++ [EvAuthenticate backend (ctx_of s) resp None;
                      EvCacheAdd (ID claims') (cache_entry claims' backend);
                      EvLog Debug "Authentication succeeded"
                        [("request_id", VString (GetRequestID u r));
                         ("auth_method", VString method);
                         ("auth_realm", VString realm);
                         ("user", VClaims (Some claims'))]])
         (SessionCache.Add (ID claims') (cache_entry claims' backend) (sessionCache s))).
Proof.
  unfold delegated_attempt, delegated_success, delegated_ctx. intros EA ER EC.
  destruct s as [o t c]. run_monad. simpl in *. rewrite EA. simpl. rewrite ER, EC.
  simpl. by rewrite <- !app_assoc.
Qed.

(** An attempt makes one call, and at most one cache write. *)
Lemma delegated_attempt_once s :
  ∃ evs, trace (final (attempt s)) = trace s ++ evs
       ∧ invoked evs = [backend] ∧ (length (cache_writes evs) ≤ 1)%nat.
Proof.
  destruct s as [o t c]. unfold delegated_attempt, delegated_failure, delegated_success.
  run_monad.
  destruct (Authenticate backend _) as [resp [e|]].
  - destruct (resp !! "code") as [[]|];
      (eexists; split_and!;
       [cbn [trace]; rewrite <- ?app_assoc; reflexivity|reflexivity|cbn; lia]).
  - destruct (resp !! "redirect_url") as [v|].
    + destruct v;
        (eexists; split_and!;
         [cbn [trace]; rewrite <- ?app_assoc; reflexivity|reflexivity|cbn; lia]).
    + destruct (resp !! "claims") as [v|].
      * destruct v as [| | | | | |[claims|]|];
          (eexists; split_and!;
           [cbn [trace]; rewrite <- ?app_assoc; reflexivity|reflexivity|cbn; lia]).
      * destruct (resp !! "code") as [[]|];
          (eexists; split_and!;
           [cbn [trace]; rewrite <- ?app_assoc; reflexivity|reflexivity|cbn; lia]).
Qed.

End Delegated.

Section Delegated_flow.

Context (u : Utils) (m : AuthPortal) (r : Request).

(** The scan calls the first backend that serves the requested method and
    realm, and no other. *)
Lemma delegated_loop_find method realm backends s :
  delegated_loop u m r (GetRequestID u r) method realm backends s
  = match List.find (serves method realm) backends with
    | Some backend =>
        delegated_attempt u m r (GetRequestID u r) method realm backend s
    | None =>
        Stop (Served ServeGeneric)
          (mkState
             (<["authenticated" := VBool false]>
                (<["flow" := VString "backend_not_found"]>
                   (<["status_code" := VInt 400]> (opts s))))
             (trace s) (sessionCache s))
    end.
Proof.
  induction backends as [|b bs IH]; [done|].
  cbn [delegated_loop List.find]. unfold serves at 1.
  destruct (String.eqb (GetRealm b) realm); [|exact IH].
  destruct (String.eqb (GetMethod b) method); [done|exact IH].
Qed.

Lemma delegated_flow_once p s :
  ∃ evs, trace (final (delegated_flow u m r (GetRequestID u r) p s)) = trace s ++ evs
       ∧ invoked evs = requested_backend m p
       ∧ (length (cache_writes evs) ≤ 1)%nat.
Proof.
  destruct s as [o t c]. unfold delegated_flow, requested_backend.
  destruct (_ <? _)%nat.
  { exists []. run_monad. split_and!; [by rewrite app_nil_r|done|cbn; lia]. }
  unfold bind at 1. cbn [set_opt]. rewrite delegated_loop_find.
  destruct (List.find _ _) as [b|].
  - match goal with |- context [delegated_attempt _ _ _ _ ?a ?b ?c ?s1] =>
      destruct (delegated_attempt_once u m r a b c s1) as (evs & T & I & W)
    end.
    exists evs. by rewrite T.
  - exists []. simpl. split_and!; [by rewrite app_nil_r|done|lia].
Qed.

(** A request that reaches routing on a delegated-backend path: the one
    backend called, and the one cache write at most. *)
Lemma serve_delegated cache :
  token_expired m r = false →
  is_delegated (url_path m r) = true →
  invoked (trace (serve u m r cache).2) = requested_backend m (url_path m r)
  ∧ (length (cache_writes (trace (serve u m r cache).2)) ≤ 1)%nat.
Proof.
  intros E D. unfold serve. rewrite ServeHTTP_run, E.
  unfold redirects_home. rewrite D, andb_false_r. rewrite route_delegated by done.
  match goal with |- context [delegated_flow _ _ _ _ ?p ?s1] =>
    destruct (delegated_flow_once p s1) as (evs & T & I & W)
  end.
  destruct (delegated_flow _ _ _ _ _ _) as [[]|o s]. simpl in *.
  rewrite T, !invoked_app, !cache_writes_app. unfold invoked at 1 2.
  rewrite !quiet_calls, !quiet_cache_writes
    by (apply validation_log_quiet || apply redirect_cookie_quiet).
  done.
Qed.

(** On a delegated-backend path a run writes the session cache at most
    once. *)
Lemma serve_delegated_once cache :
  is_delegated (url_path m r) = true →
  (length (cache_writes (trace (serve u m r cache).2)) ≤ 1)%nat.
Proof.
  intros D. destruct (token_expired m r) eqn:E.
  - unfold serve. rewrite ServeHTTP_run, E. simpl. lia.
  - by apply serve_delegated.
Qed.

End Delegated_flow.

(** ** The stored claims *)

Lemma ID_session_claims u m r claims :
  ID (session_claims u m r claims)
  = if String.eqb (ID claims) "" then GetRequestID u r else ID claims.
Proof.
  unfold session_claims. destruct (EnableSourceIPTracking m); simpl;
    by destruct (String.eqb (ID claims) "").
Qed.

Lemma cache_entry_lookups claims b :
  cache_entry claims b !! "claims" = Some (VClaims (Some claims))
  ∧ cache_entry claims b !! "backend_name" = Some (VString (GetName b))
  ∧ cache_entry claims b !! "backend_realm" = Some (VString (GetRealm b))
  ∧ cache_entry claims b !! "backend_method" = Some (VString (GetMethod b)).
Proof. unfold cache_entry. split_and!; by simplify_map_eq. Qed.

Lemma replay_snoc c ws k e :
  SessionCache.Get k (replay c (ws ++ [(k, e)])) = Some e.
Proof.
  rewrite replay_app. simpl. unfold SessionCache.Get, SessionCache.Add.
  apply lookup_insert_eq.
Qed.

(** ** The session cache at the end of a run *)

Section Blocks_rest.

Context (u : Utils) (m : AuthPortal) (r : Request) (d : bool).

(** A call that has a cache write is followed by it at once, and what
    follows the write is made of blocks again. *)
Lemma blocks_rest t1 c t2 k e :
  blocks u m r d (t1 ++ event_of_call c :: t2) →
  write_of_call u m r d c = Some (k, e) →
  ∃ t3, t2 = EvCacheAdd k e :: t3 ∧ blocks u m r d t3.
Proof.
  intros H. remember (t1 ++ event_of_call c :: t2) as t eqn:E.
  revert t1 E. destruct c as [b ctx resp err]. unfold event_of_call at 1. simpl.
  induction H as [|e0 t Q _ IH|[b0 ctx0 resp0 err0] t _ _ W _ IH
                  |[b0 ctx0 resp0 err0] k0 e0 t _ _ W B IH];
    intros t1 E W'; unfold event_of_call in E; simpl in E.
  - by destruct t1.
  - destruct t1 as [|x t1]; simplify_eq/=; try discriminate. by eapply IH.
  - destruct t1 as [|x t1]; simplify_eq/=; try congruence. by eapply IH.
  - destruct t1 as [|x t1]; simplify_eq/=; eauto.
    destruct t1 as [|y t1]; simplify_eq/=. by eapply IH.
Qed.

(** The writes of a list of blocks are those of its successful calls. *)
Lemma blocks_write_call t k e :
  blocks u m r d t → (k, e) ∈ cache_writes t →
  ∃ c claims,
    c ∈ calls t
    ∧ call_backend c ∈ Backends m
    ∧ Authenticate (call_backend c) (call_ctx c) = (call_resp c, None)
    ∧ call_resp c !! "claims" = Some (VClaims (Some claims))
    ∧ k = ID (session_claims u m r claims)
    ∧ e = cache_entry (session_claims u m r claims) (call_backend c).
Proof.
  intros B H. rewrite (blocks_writes _ _ _ _ _ B) in H.
  apply list_elem_of_omap in H as (c & Hc & Hw).
  destruct (blocks_calls _ _ _ _ _ _ B Hc) as (Hin & Hans).
  unfold write_of_call in Hw. destruct (call_err c); [done|].
  destruct (_ && _); [done|].
  destruct (call_resp c !! "claims") as [[| | | | | |[claims|]|]|] eqn:EC; try done.
  injection Hw as <- <-. by exists c, claims.
Qed.

End Blocks_rest.

(** What the cache returns for a key after a sequence of writes of which
    one has this key: the entry of the last write with the key. *)
Lemma replay_key c ws k e ws' :
  ∃ e', (k, e') ∈ (k, e) :: ws'
      ∧ SessionCache.Get k (replay c (ws ++ (k, e) :: ws')) = Some e'
      ∧ ((∀ k0 e0, (k0, e0) ∈ ws' → k0 ≠ k) → e' = e).
Proof.
  induction ws' as [|[k1 e1] ws' IH] using rev_ind.
  - exists e. split_and!; [by left| |done].
    change [(k, e)] with ([] ++ [(k, e)]). rewrite app_assoc. apply replay_snoc.
  - destruct IH as (e' & Hin & G & U).
    rewrite app_comm_cons, app_assoc, replay_app. cbn.
    unfold SessionCache.Get, SessionCache.Add in *. cbn [fst snd].
    destruct (decide (k1 = k)) as [->|N].
    + exists e1. split_and!.
      * apply elem_of_cons. right. apply elem_of_app. right. by left.
      * apply lookup_insert_eq.
      * intros H. exfalso. eapply H; [|done]. apply elem_of_app. right. by left.
    + exists e'. split_and!.
      * apply elem_of_cons in Hin as [->|?]; [by left|right].
        apply elem_of_app. by left.
      * rewrite <- G. by apply lookup_insert_ne.
      * intros H. apply U. intros k0 e0 H0. apply (H k0 e0). apply elem_of_app. by left.
Qed.

Ltac lookups :=
  cbn [opts trace sessionCache];
  repeat first [rewrite lookup_insert_eq | rewrite lookup_insert_ne by done].

(** ** The properties of the handler *)

(** C1, as the handler has it.  When the token validator accepts the
    request's token, validation marks the context authenticated.  On every
    path that is not under a delegated-backend prefix the run then ends
    without a panic, without a call of any backend and without a change of
    the session cache, the context still authenticated.  Under a
    delegated-backend prefix the backend that serves the requested method
    and realm is called all the same. *)
Theorem accepted_token_skips_backends u m r cache :
  token_accepted m r = true →
  (∀ s, ∃ s', validate_token u m r s = Next tt s'
            ∧ opts s' !! "authenticated" = Some (VBool true)
            ∧ trace s' = trace s)
  ∧ (is_delegated (url_path m r) = false →
     ∃ o s, serve u m r cache = (o, s)
          ∧ o ≠ Panicked
          ∧ invoked (trace s) = []
          ∧ opts s !! "authenticated" = Some (VBool true)
          ∧ sessionCache s = cache)
  ∧ (is_delegated (url_path m r) = true →
     invoked (trace (serve u m r cache).2) = requested_backend m (url_path m r)).
Proof.
  intros HA.
  assert (token_expired m r = false) as HE.
  { unfold token_expired, token_accepted in *.
    destruct (Authorize _ r) as [[claims ok] err]. simpl in HA. by subst ok. }
  split_and!.
  - intros s. unfold validate_token. unfold token_accepted in HA.
    destruct (Authorize _ r) as [[claims ok] err]. simpl in HA. subst ok.
    run_monad. eexists. split_and!; [reflexivity| |reflexivity].
    by lookups.
  - intros HD. unfold serve. rewrite ServeHTTP_run.
    rewrite HE.
    assert (validated_context u m r !! "authenticated" = Some (VBool true)) as HV.
    { by rewrite validated_context_authenticated, HA. }
    assert (∀ t, forallb quiet t = true →
                 invoked (validation_log u m r ++ redirect_cookie m r ++ t) = []) as HQ.
    { intros t Ht. unfold invoked. rewrite !calls_app.
      by rewrite !quiet_calls
        by (apply validation_log_quiet || apply redirect_cookie_quiet || exact Ht). }
    destruct (redirects_home m r).
    + do 2 eexists. split_and!; [reflexivity|done|by apply HQ|exact HV|reflexivity].
    + destruct (route_authenticated u m r (GetRequestID u r) (url_path m r)
                  (mkState (validated_context u m r)
                     (validation_log u m r ++ redirect_cookie m r) cache) HD HV)
        as (h & o & -> & Ho).
      do 2 eexists. split_and!; [reflexivity|done| |exact Ho|reflexivity].
      specialize (HQ [] eq_refl). by rewrite !app_nil_r in HQ.
  - intros HD. by apply serve_delegated.
Qed.

Lemma accepted_token_skips_backends_witness :
  ∃ o s, serve (Examples.utils (Some Examples.corp_credentials))
           (Examples.portal Examples.valid_token) (Examples.post "/auth/login") ∅ = (o, s)
       ∧ o ≠ Panicked
       ∧ invoked (trace s) = []
       ∧ opts s !! "authenticated" = Some (VBool true)
       ∧ sessionCache s = ∅.
Proof.
  apply (accepted_token_skips_backends (Examples.utils (Some Examples.corp_credentials))
           (Examples.portal Examples.valid_token) (Examples.post "/auth/login") ∅);
    reflexivity.
Defined.

(** C1 as stated fails under a delegated-backend prefix: the token is
    accepted, and still the backend serving the requested method and realm is
    called; as it refuses, the request even ends unauthenticated. *)
Lemma accepted_token_delegated_path :
  let m := Examples.portal Examples.valid_token in
  let r := Examples.get "/auth/oauth2/github" in
  let x := serve (Examples.utils None) m r ∅ in
  (Authorize (PortalTokenValidator m) r).1.2 = true
  ∧ GetName <$> invoked (trace x.2) = ["github_backend"]
  ∧ opts x.2 !! "authenticated" = Some (VBool false).
Proof. vm_compute. split_and!; reflexivity. Qed.

(** C2, as the handler has it.  A credential submission that reaches the
    interactive login loop, with backends whose answers the loop can process
    (an error with an integer code, a success with claims): [Authenticate] is
    called on every backend of the credentials' realm, in the configured
    order, whether the earlier ones failed or succeeded.  At the end
    [authenticated] is true exactly when one of these calls succeeded, be it
    the last or not; it is the status code that is the one of the last
    call. *)
Theorem login_calls_every_backend_of_the_realm u m r cache credentials :
  token_accepted m r = false →
  token_expired m r = false →
  redirects_home m r = false →
  GoStrings.HasPrefix (url_path m r) "login" || String.eqb (url_path m r) "" = true →
  ParseCredentials u r = (Some credentials, None) →
  (∀ b, b ∈ Backends m → realm_matches credentials b = true → well_behaved b) →
  ∃ s, serve u m r cache = (Served ServeLogin, s)
     ∧ invoked (trace s) = List.filter (realm_matches credentials) (Backends m)
     ∧ opts s !! "authenticated" = Some (VBool (existsb succeeded (calls (trace s))))
     ∧ opts s !! "status_code" = status_after (calls (trace s)) (Some (VInt 500)).
Proof. apply serve_login_well_behaved. Qed.

Lemma login_calls_every_backend_of_the_realm_witness :
  ∃ s, serve (Examples.utils (Some Examples.corp_credentials))
         (Examples.portal Examples.no_token) (Examples.post "/auth/login") ∅
       = (Served ServeLogin, s)
     ∧ invoked (trace s) = [Examples.ldap; Examples.local]
     ∧ opts s !! "authenticated" = Some (VBool (existsb succeeded (calls (trace s))))
     ∧ opts s !! "status_code" = status_after (calls (trace s)) (Some (VInt 500)).
Proof.
  apply (login_calls_every_backend_of_the_realm
           (Examples.utils (Some Examples.corp_credentials))
           (Examples.portal Examples.no_token) (Examples.post "/auth/login") ∅
           Examples.corp_credentials); try reflexivity.
  intros b Hb Hr ctx. simpl in Hb.
  repeat (apply elem_of_cons in Hb as [->|Hb]; [try discriminate Hr; reflexivity|]).
  by apply elem_of_nil in Hb.
Defined.

(** C2 as stated fails: LDAP and the local database share the realm "corp";
    both are called, in that order; the last one processed refuses, and the
    request ends authenticated all the same. *)
Lemma login_last_backend_fails :
  let x := serve (Examples.utils (Some Examples.corp_credentials))
             (Examples.portal Examples.no_token) (Examples.post "/auth/login") ∅ in
  GetName <$> invoked (trace x.2) = ["ldap_backend"; "local_backend"]
  ∧ succeeded <$> last (calls (trace x.2)) = Some false
  ∧ opts x.2 !! "authenticated" = Some (VBool true).
Proof. vm_compute. split_and!; reflexivity. Qed.

(** C3, on the handler: the delegated backend for saml/okta answers without
    an error, without a redirect and without claims.  The failure branch
    sets the flow, the flag and the status code, and then panics on
    [err.Error()], the error being nil: no warning is logged and the failure
    page is not rendered. *)
Theorem delegated_no_claims_panics :
  let x := serve (Examples.utils None) (Examples.portal Examples.no_token)
             (Examples.get "/auth/saml/okta") ∅ in
  x.1 = Panicked
  ∧ GetName <$> invoked (trace x.2) = ["okta_backend"]
  ∧ filter (fun e => is_log e = true) (trace x.2) = []
  ∧ opts x.2 !! "flow" = Some (VString "auth_failed")
  ∧ opts x.2 !! "authenticated" = Some (VBool false)
  ∧ opts x.2 !! "status_code" = Some (VInt 401).
Proof. vm_compute. split_and!; reflexivity. Qed.

(** C4. A request whose token validation fails with the expiration error is
    handed at once to the login redirect: the context is the fresh one (not
    authenticated, no flow), nothing was written to the response, no backend
    was called and the session cache is untouched. *)
Theorem expired_token_redirects_to_login u m r cache claims :
  Authorize (PortalTokenValidator m) r = (claims, false, Some "[Token is expired]") →
  ∃ o, serve u m r cache = (Served ServeSessionLoginRedirect, mkState o [] cache)
     ∧ o !! "authenticated" = Some (VBool false)
     ∧ o !! "flow" = None
     ∧ invoked (trace (serve u m r cache).2) = [].
Proof.
  intros H. unfold serve. rewrite ServeHTTP_run.
  unfold token_expired. rewrite H. simpl.
  exists (new_context u m r). split_and!; try done.
  - apply new_context_authenticated.
  - apply new_context_flow.
Qed.

Lemma expired_token_redirects_to_login_witness :
  ∃ o, serve (Examples.utils None) (Examples.portal Examples.expired_token)
         (Examples.get_with_redirect "/auth/oauth2/google") ∅
       = (Served ServeSessionLoginRedirect, mkState o [] ∅)
     ∧ o !! "authenticated" = Some (VBool false)
     ∧ o !! "flow" = None
     ∧ invoked (trace (serve (Examples.utils None) (Examples.portal Examples.expired_token)
                         (Examples.get_with_redirect "/auth/oauth2/google") ∅).2) = [].
Proof.
  apply (expired_token_redirects_to_login _ _ _ _ None). reflexivity.
Defined.

(** C5, as the handler has it.  A GET request that carries [redirect_url],
    whose path is not under a delegated-backend prefix and whose token is
    not rejected as expired, ends in the handler's own 302: after what token
    validation logged, the redirect cookie is set to the parameter's first
    value with the configured attributes, then [Location] is set to the
    portal's root and the status 302 is written; the handler returns there,
    with no flow chosen, whatever the path and whether or not the request
    is authenticated. *)
Theorem redirect_url_returns_to_auth_root u m r cache redirectURL :
  Method r = "GET" →
  URL_Query r !! "redirect_url" = Some redirectURL →
  is_delegated (url_path m r) = false →
  token_expired m r = false →
  ∃ o, serve u m r cache
       = (ReturnedNil,
          mkState o
            (validation_log u m r
               ++ [EvHeaderSet "Set-Cookie"
                     (redirectToToken +:+ "=" +:+ redirectURL.1 +:+ ";"
                      +:+ GetAttributes (PortalCookies m));
                   EvHeaderSet "Location" (AuthURLPath m);
                   EvWriteHeader 302])
            cache)
     ∧ forallb is_log (validation_log u m r) = true
     ∧ o !! "flow" = None
     ∧ o !! "authenticated" = Some (VBool (token_accepted m r)).
Proof.
  intros HM HQ HD HE. unfold serve. rewrite ServeHTTP_run, HE.
  unfold redirects_home, redirect_cookie. rewrite HM, HQ, HD.
  rewrite bool_decide_eq_true_2 by eauto. simpl.
  eexists. split_and!; [reflexivity|..].
  - apply validation_log_is_log.
  - rewrite validated_context_other by done. apply new_context_flow.
  - by apply validated_context_authenticated.
Qed.

Lemma redirect_url_returns_to_auth_root_witness :
  ∃ o, serve (Examples.utils None) (Examples.portal Examples.valid_token)
         (Examples.get_with_redirect "/auth/whoami") ∅
       = (ReturnedNil,
          mkState o
            [EvHeaderSet "Set-Cookie"
               "AUTH_PORTAL_REDIRECT_URL=https://app.example.com/; Path=/; Secure; HttpOnly;";
             EvHeaderSet "Location" "/auth";
             EvWriteHeader 302]
            ∅)
     ∧ o !! "flow" = None
     ∧ o !! "authenticated" = Some (VBool true).
Proof.
  destruct (redirect_url_returns_to_auth_root (Examples.utils None)
              (Examples.portal Examples.valid_token)
              (Examples.get_with_redirect "/auth/whoami") ∅
              ("https://app.example.com/", []))
    as (o & H & _ & F & A); [reflexivity..|].
  exists o. split_and!; [exact H|exact F|exact A].
Defined.

(** C5 as stated fails: with an expired token the same GET request never
    reaches the query parameters; no cookie is set and no 302 is written by
    the handler, which hands the request to the login redirect. *)
Lemma redirect_url_with_expired_token :
  let r := Examples.get_with_redirect "/auth/login" in
  let m := Examples.portal Examples.expired_token in
  Method r = "GET"
  ∧ URL_Query r !! "redirect_url" = Some ("https://app.example.com/", [])
  ∧ is_delegated (url_path m r) = false
  ∧ (serve (Examples.utils None) m r ∅).1 = Served ServeSessionLoginRedirect
  ∧ trace (serve (Examples.utils None) m r ∅).2 = [].
Proof. vm_compute. split_and!; reflexivity. Qed.

(** C6, as the handler has it.  Every entry written to the session cache
    comes from a call of [Authenticate] that returned no error and a claim
    set; its key is the identifier of these claims, or the request's
    correlation identifier when that identifier is empty.  So the key is
    not empty provided the correlation identifier of the request is not. *)
Theorem cache_key_is_claim_or_request_id u m r cache k e :
  (k, e) ∈ cache_writes (trace (serve u m r cache).2) →
  ∃ c claims,
    c ∈ calls (trace (serve u m r cache).2)
    ∧ call_err c = None
    ∧ call_resp c !! "claims" = Some (VClaims (Some claims))
    ∧ k = (if String.eqb (ID claims) "" then GetRequestID u r else ID claims)
    ∧ e = cache_entry (session_claims u m r claims) (call_backend c)
    ∧ (GetRequestID u r ≠ "" → k ≠ "").
Proof.
  intros H. destruct (serve_tracks u m r cache) as (B & _ & _).
  rewrite (blocks_writes _ _ _ _ _ B) in H.
  apply list_elem_of_omap in H as (c & Hc & W).
  unfold write_of_call in W.
  destruct (call_err c) eqn:Eerr; [discriminate|].
  destruct (_ && _); [discriminate|].
  destruct (call_resp c !! "claims") as [[| | | | | |[claims|]|]|] eqn:EC;
    try discriminate.
  injection W as <- <-. exists c, claims. split_and!; try done.
  - apply ID_session_claims.
  - rewrite ID_session_claims. intros Hid.
    destruct (String.eqb (ID claims) "") eqn:E; [done|]. by apply String.eqb_neq in E.
Qed.

Lemma cache_key_is_claim_or_request_id_witness :
  let u := Examples.utils None in
  let m := Examples.portal Examples.no_token in
  let r := Examples.get "/auth/oauth2/google" in
  ∃ c claims,
    c ∈ calls (trace (serve u m r ∅).2)
    ∧ call_err c = None
    ∧ call_resp c !! "claims" = Some (VClaims (Some claims))
    ∧ "6ba7b810-9dad-11d1-80b4-00c04fd430c8"
      = (if String.eqb (ID claims) "" then GetRequestID u r else ID claims)
    ∧ cache_entry (session_claims u m r (Examples.claims_of "")) Examples.google
      = cache_entry (session_claims u m r claims) (call_backend c)
    ∧ (GetRequestID u r ≠ "" → "6ba7b810-9dad-11d1-80b4-00c04fd430c8" ≠ "").
Proof.
  intros u m r.
  apply (cache_key_is_claim_or_request_id u m r ∅).
  replace (cache_writes (trace (serve u m r ∅).2))
    with [("6ba7b810-9dad-11d1-80b4-00c04fd430c8",
           cache_entry (session_claims u m r (Examples.claims_of "")) Examples.google)]
    by (vm_compute; reflexivity).
  apply list_elem_of_here.
Defined.

(** C6 as stated fails: the request's context carries an empty [request_id]
    and Google returns claims without an identifier; the entry is written
    under the empty key. *)
Lemma cache_key_empty :
  let x := serve (Examples.utils None) (Examples.portal Examples.no_token)
             (Examples.get_without_id "/auth/oauth2/google") ∅ in
  GetRequestID (Examples.utils None) (Examples.get_without_id "/auth/oauth2/google") = ""
  ∧ x.1 = Served ServeLogin
  ∧ (cache_writes (trace x.2)).*1 = [""].
Proof. vm_compute. split_and!; reflexivity. Qed.

(** C7, as the handler has it.  The backends are called: on a
    delegated-backend path the one the path asks for, in the interactive
    login loop every backend of the credentials' realm.  Every call of
    [Authenticate] that returns no error and a claim set (and, on a
    delegated-backend path, no [redirect_url]) is a call of a configured
    backend and is followed at once by the write of a session cache entry:
    its key is the identifier of the stored claims, it holds these claims
    and the name, realm and method of that very backend.  The cache a run
    leaves is the initial one after its writes, in order.  At the end of the
    run the identifier retrieves this entry unless a later write of the run
    has the same key; it retrieves in any case the entry of this success or
    of a later success of the run with the same identifier; on a
    delegated-backend path there is no later write. *)
Theorem successful_authentication_is_cached u m r cache :
  let x := serve u m r cache in
  let d := is_delegated (url_path m r) in
  (token_expired m r = false → d = true →
   invoked (trace x.2) = requested_backend m (url_path m r))
  ∧ (∀ credentials,
       token_accepted m r = false →
       token_expired m r = false →
       redirects_home m r = false →
       GoStrings.HasPrefix (url_path m r) "login" || String.eqb (url_path m r) "" = true →
       ParseCredentials u r = (Some credentials, None) →
       x.1 ≠ Panicked →
       invoked (trace x.2) = List.filter (realm_matches credentials) (Backends m))
  ∧ sessionCache x.2 = replay cache (cache_writes (trace x.2))
  ∧ ∀ t1 b ctx resp t2 claims,
      trace x.2 = t1 ++ EvAuthenticate b ctx resp None :: t2 →
      resp !! "claims" = Some (VClaims (Some claims)) →
      (d = true → resp !! "redirect_url" = None) →
      let claims' := session_claims u m r claims in
      let entry := cache_entry claims' b in
      (b ∈ Backends m ∧ Authenticate b ctx = (resp, None))
      ∧ (entry !! "claims" = Some (VClaims (Some claims'))
         ∧ entry !! "backend_name" = Some (VString (GetName b))
         ∧ entry !! "backend_realm" = Some (VString (GetRealm b))
         ∧ entry !! "backend_method" = Some (VString (GetMethod b)))
      ∧ ∃ t3,
          t2 = EvCacheAdd (ID claims') entry :: t3
          ∧ ((∀ k e, (k, e) ∈ cache_writes t3 → k ≠ ID claims') →
             SessionCache.Get (ID claims') (sessionCache x.2) = Some entry)
          ∧ (d = true →
             SessionCache.Get (ID claims') (sessionCache x.2) = Some entry)
          ∧ ∃ c' claims2,
              c' ∈ calls (EvAuthenticate b ctx resp None :: t3)
              ∧ call_backend c' ∈ Backends m
              ∧ Authenticate (call_backend c') (call_ctx c') = (call_resp c', None)
              ∧ call_resp c' !! "claims" = Some (VClaims (Some claims2))
              ∧ ID (session_claims u m r claims2) = ID claims'
              ∧ SessionCache.Get (ID claims') (sessionCache x.2)
                = Some (cache_entry (session_claims u m r claims2) (call_backend c')).
Proof.
  cbv zeta. destruct (serve_tracks u m r cache) as (B & K & _). cbv zeta in *.
  split_and!.
  - intros E D. by destruct (serve_delegated u m r cache E D).
  - intros credentials A E RH L PC NP.
    destruct (serve_login u m r credentials cache A E RH L PC)
      as (o & s & Hs & _ & [(_ & I & _)|(-> & _)]); rewrite Hs in *; [done|].
    by destruct NP.
  - exact K.
  - intros t1 b ctx resp t2 claims T EC ER.
    set (claims' := session_claims u m r claims).
    set (entry := cache_entry claims' b).
    set (c := mkCall b ctx resp None).
    assert (write_of_call u m r (is_delegated (url_path m r)) c
            = Some (ID claims', entry)) as W.
    { unfold write_of_call. cbn.
      destruct (is_delegated (url_path m r)); cbn.
      - rewrite ER by done. rewrite bool_decide_eq_false_2 by (intros [? ?]; done).
        by rewrite EC.
      - by rewrite EC. }
    assert (c ∈ calls (trace (serve u m r cache).2)) as Hc.
    { rewrite T, calls_app, calls_auth. apply elem_of_app. right. by left. }
    destruct (blocks_calls _ _ _ _ _ _ B Hc) as (Hin & Hans).
    rewrite T in B. change (EvAuthenticate b ctx resp None) with (event_of_call c) in B.
    destruct (blocks_rest _ _ _ _ _ _ _ _ _ B W) as (t3 & -> & B3).
    split; [done|]. split; [apply cache_entry_lookups|].
    exists t3. split; [done|].
    assert (cache_writes (trace (serve u m r cache).2)
            = cache_writes t1 ++ (ID claims', entry) :: cache_writes t3) as CW.
    { rewrite T, cache_writes_app. by autorewrite with traces. }
    destruct (replay_key cache (cache_writes t1) (ID claims') entry (cache_writes t3))
      as (e' & He' & G & U).
    rewrite K, CW.
    split_and!.
    + intros Hno. rewrite G. f_equal. by apply U.
    + intros D. rewrite G. f_equal. apply U.
      pose proof (serve_delegated_once u m r cache D) as Hlen.
      rewrite CW, length_app in Hlen. cbn [length] in Hlen.
      destruct (cache_writes t3); [|simpl in Hlen; lia].
      by intros k e ?%elem_of_nil.
    + rewrite G. apply elem_of_cons in He' as [He'|He'].
      * injection He' as ->. exists c, claims. split_and!; try done.
        rewrite calls_auth. by left.
      * destruct (blocks_write_call _ _ _ _ _ _ _ B3 He')
          as (c' & claims2 & Hc' & Hin' & Hans' & EC' & Hk & ->).
        exists c', claims2. split_and!; try done.
        rewrite calls_auth. by right.
Qed.

Lemma successful_authentication_is_cached_witness :
  let u := Examples.utils (Some Examples.corp_credentials) in
  let m := Examples.portal Examples.no_token in
  let r := Examples.post "/auth/login" in
  let claims' := session_claims u m r (Examples.claims_of "bob") in
  invoked (trace (serve u m r ∅).2) = [Examples.ldap; Examples.local]
  ∧ ID claims' = "bob"
  ∧ SessionCache.Get (ID claims') (sessionCache (serve u m r ∅).2)
    = Some (cache_entry claims' Examples.ldap)
  ∧ cache_entry claims' Examples.ldap !! "backend_name"
    = Some (VString "ldap_backend").
Proof.
  intros u m r claims'.
  destruct (successful_authentication_is_cached u m r ∅) as (_ & I & _ & H).
  split.
  { apply (I Examples.corp_credentials); try reflexivity. vm_compute. discriminate. }
  split; [reflexivity|].
  set (t := trace (serve u m r ∅).2).
  destruct (H [] Examples.ldap
              (from_option call_ctx ∅ (head (calls t)))
              (from_option call_resp ∅ (head (calls t)))
              (drop 1 t) (Examples.claims_of "bob"))
    as (_ & (_ & N & _) & t3 & E3 & G & _).
  - vm_compute. reflexivity.
  - vm_compute. reflexivity.
  - discriminate.
  - split; [|exact N]. apply G.
    apply (f_equal (@tail Event)) in E3. cbn [tail] in E3. rewrite <- E3.
    replace (cache_writes (tail (drop 1 t))) with (@nil (string * gmap string value))
      by (vm_compute; reflexivity).
    intros k e Hin. exfalso. exact (proj1 (elem_of_nil (k, e)) Hin).
Defined.

(** C7 as stated fails: two directories share the realm "corp" and both
    know bob.  Both calls succeed with the identifier "bob"; both write
    under that key; what the identifier retrieves at the end is the entry of
    the second backend, not one with the attributes of the first. *)
Lemma same_identifier_overwrites :
  let x := serve (Examples.utils (Some Examples.corp_credentials))
             Examples2.twin_portal (Examples.post "/auth/login") ∅ in
  GetName <$> invoked (trace x.2) = ["ldap_backend"; "directory_backend"]
  ∧ succeeded <$> calls (trace x.2) = [true; true]
  ∧ (cache_writes (trace x.2)).*1 = ["bob"; "bob"]
  ∧ SessionCache.Get "bob" (sessionCache x.2) ≫= (fun e => e !! "backend_name")
    = Some (VString "directory_backend").
Proof. vm_compute. split_and!; reflexivity. Qed.

(** C8. A request that reaches routing with a path under a delegated-backend
    prefix that splits at the slashes into fewer than two segments is
    answered by the generic renderer with status 400, flow
    [malformed_backend] and [authenticated] false; no backend is called and
    the session cache is untouched. *)
Theorem malformed_backend_route u m r cache :
  token_expired m r = false →
  is_delegated (url_path m r) = true →
  (length (GoStrings.Split (url_path m r) "/") < 2)%nat →
  ∃ s, serve u m r cache = (Served ServeGeneric, s)
     ∧ opts s !! "status_code" = Some (VInt 400)
     ∧ opts s !! "flow" = Some (VString "malformed_backend")
     ∧ opts s !! "authenticated" = Some (VBool false)
     ∧ invoked (trace s) = []
     ∧ sessionCache s = cache.
Proof.
  intros HE HD HL. unfold serve. rewrite ServeHTTP_run, HE.
  unfold redirects_home. rewrite HD, andb_false_r.
  rewrite route_delegated by done. unfold delegated_flow.
  apply Nat.ltb_lt in HL. rewrite HL. run_monad.
  eexists. split_and!; [reflexivity|lookups; reflexivity..| |reflexivity].
  cbn [trace]. unfold invoked. rewrite calls_app.
  by rewrite !quiet_calls by (apply validation_log_quiet || apply redirect_cookie_quiet).
Qed.

Lemma malformed_backend_route_witness :
  ∃ s, serve (Examples.utils None) (Examples.portal Examples.valid_token)
         (Examples.get_with_redirect "/auth/oauth2") ∅ = (Served ServeGeneric, s)
     ∧ opts s !! "status_code" = Some (VInt 400)
     ∧ opts s !! "flow" = Some (VString "malformed_backend")
     ∧ opts s !! "authenticated" = Some (VBool false)
     ∧ invoked (trace s) = []
     ∧ sessionCache s = ∅.
Proof.
  apply malformed_backend_route; [reflexivity|reflexivity|vm_compute; lia].
Defined.

(** C9. In the interactive login loop the failure branch leaves
    [authenticated] as it found it, whether it completes or panics on the
    status code.  A credential submission that reaches the loop is rendered
    when the backends of its realm give answers the loop can process, and
    whenever it is rendered it ends with [authenticated] true exactly when
    the call of some configured backend of the credentials' realm succeeded,
    wherever that call stands among the others. *)
Theorem login_failure_leaves_authenticated u m r cache credentials :
  (∀ b s resp e,
     realm_matches credentials b = true →
     Authenticate b (login_ctx credentials (opts s)) = (resp, Some e) →
     opts (final (login_attempt u m r (GetRequestID u r) credentials b s))
       !! "authenticated"
     = opts s !! "authenticated")
  ∧ (token_accepted m r = false →
     token_expired m r = false →
     redirects_home m r = false →
     GoStrings.HasPrefix (url_path m r) "login" || String.eqb (url_path m r) "" = true →
     ParseCredentials u r = (Some credentials, None) →
     ((∀ b, b ∈ Backends m → realm_matches credentials b = true → well_behaved b) →
      (serve u m r cache).1 = Served ServeLogin)
     ∧ ((serve u m r cache).1 ≠ Panicked →
        (serve u m r cache).1 = Served ServeLogin
        ∧ (opts (serve u m r cache).2 !! "authenticated" = Some (VBool true)
           ↔ ∃ c, c ∈ calls (trace (serve u m r cache).2)
                ∧ call_of credentials (Backends m) c
                ∧ call_err c = None))).
Proof.
  split.
  - intros b s resp e RM EA.
    destruct (code_cases resp) as [[n EC]|EC].
    + rewrite (login_attempt_error _ _ _ _ _ _ _ _ n RM EA EC). simpl.
      unfold login_ctx. by rewrite !lookup_insert_ne by done.
    + rewrite (login_attempt_error_panics _ _ _ _ _ _ _ _ RM EA EC). simpl.
      unfold login_ctx. by rewrite !lookup_insert_ne by done.
  - intros HA HE HR HP HC. split.
    { intros HW.
      by destruct (serve_login_well_behaved u m r credentials cache HA HE HR HP HC HW)
        as (s & -> & _). }
    intros HN.
    destruct (serve_login u m r credentials cache HA HE HR HP HC)
      as (o & s & E & P & [(-> & I & F & A & S & L)|(-> & _)]);
      rewrite E in *; simpl in *; [|done].
    split; [done|]. rewrite A. split.
    + intros [= Hex]. apply existsb_exists in Hex as (c & Hc & Hs).
      apply list_elem_of_In in Hc. exists c. split_and!; [done|by apply P|].
      unfold succeeded in Hs. by destruct (call_err c).
    + intros (c & Hc & _ & Herr). do 2 f_equal. apply existsb_exists.
      exists c. split; [by apply list_elem_of_In|]. unfold succeeded. by rewrite Herr.
Qed.

Lemma login_failure_leaves_authenticated_witness :
  let x := serve (Examples.utils (Some Examples.corp_credentials))
             (Examples.portal Examples.no_token) (Examples.post "/auth/login") ∅ in
  x.1 = Served ServeLogin
  ∧ (opts x.2 !! "authenticated" = Some (VBool true)
     ↔ ∃ c, c ∈ calls (trace x.2)
          ∧ call_of Examples.corp_credentials
              (Backends (Examples.portal Examples.no_token)) c
          ∧ call_err c = None).
Proof.
  apply (login_failure_leaves_authenticated
           (Examples.utils (Some Examples.corp_credentials))
           (Examples.portal Examples.no_token) (Examples.post "/auth/login") ∅
           Examples.corp_credentials); try reflexivity.
  vm_compute. discriminate.
Defined.

(** C10.  When [Authenticate] returns an error, both flows read the [code]
    entry of the result as an integer, whatever the result holds.  On a
    delegated-backend path: with an integer there, it becomes the status
    code and the failure page is rendered; otherwise the handler panics.  In
    the interactive login loop: with an integer there, it becomes the status
    code and the loop goes on; otherwise the handler panics.  And in any run
    of the handler a call that returned an error without an integer code
    ends the run in a panic. *)
Theorem error_code_is_read_unchecked u m r :
  (∀ method realm b s resp e,
     Authenticate b (delegated_ctx u m method realm (opts s)) = (resp, Some e) →
     match resp !! "code" with
     | Some (VInt n) =>
         ∃ s', delegated_attempt u m r (GetRequestID u r) method realm b s
               = Stop (Served ServeGeneric) s'
             ∧ opts s' !! "status_code" = Some (VInt n)
     | _ =>
         ∃ s', delegated_attempt u m r (GetRequestID u r) method realm b s
               = Stop Panicked s'
     end)
  ∧ (∀ credentials b s resp e,
       realm_matches credentials b = true →
       Authenticate b (login_ctx credentials (opts s)) = (resp, Some e) →
       match resp !! "code" with
       | Some (VInt n) =>
           ∃ s', login_attempt u m r (GetRequestID u r) credentials b s = Next tt s'
               ∧ opts s' !! "status_code" = Some (VInt n)
       | _ =>
           ∃ s', login_attempt u m r (GetRequestID u r) credentials b s
                 = Stop Panicked s'
       end)
  ∧ (∀ cache c,
       c ∈ calls (trace (serve u m r cache).2) →
       call_err c ≠ None →
       (∀ n, call_resp c !! "code" ≠ Some (VInt n)) →
       (serve u m r cache).1 = Panicked).
Proof.
  split_and!.
  - intros method realm b s resp e EA.
    destruct (code_cases resp) as [[n EC]|EC].
    + rewrite EC, (delegated_attempt_error _ _ _ _ _ _ _ _ _ n EA EC).
      eexists. split; [reflexivity|]. by lookups.
    + rewrite (delegated_attempt_error_panics _ _ _ _ _ _ _ _ _ EA EC).
      destruct (resp !! "code") as [[| |n| | | | |]|]; eauto. by destruct (EC n).
  - intros credentials b s resp e RM EA.
    destruct (code_cases resp) as [[n EC]|EC].
    + rewrite EC, (login_attempt_error _ _ _ _ _ _ _ _ n RM EA EC).
      eexists. split; [reflexivity|]. by lookups.
    + rewrite (login_attempt_error_panics _ _ _ _ _ _ _ _ RM EA EC).
      destruct (resp !! "code") as [[| |n| | | | |]|]; eauto. by destruct (EC n).
  - intros cache c Hc Herr Hcode.
    destruct (serve_tracks u m r cache) as (_ & _ & F).
    destruct ((serve u m r cache).1) eqn:E; [exfalso..|done].
    all: specialize (F ltac:(done)); rewrite forallb_forall in F;
      apply list_elem_of_In, F in Hc; unfold error_has_code in Hc;
      destruct (call_err c); [|done];
      destruct (call_resp c !! "code") as [[| |n| | | | |]|]; try done;
      by destruct (Hcode n).
Qed.

Lemma error_code_is_read_unchecked_witness :
  (serve (Examples.utils None) (Examples.portal Examples.no_token)
     (Examples.get "/auth/saml/azure") ∅).1 = Panicked.
Proof.
  destruct (error_code_is_read_unchecked (Examples.utils None)
              (Examples.portal Examples.no_token) (Examples.get "/auth/saml/azure"))
    as (_ & _ & H).
  eapply H.
  - vm_compute. apply list_elem_of_here.
  - discriminate.
  - intros n. vm_compute. discriminate.
Defined.

(** ** What routing emits *)

Section Emits.

Context (P : Event → bool).

#[export] Instance emits_sequential : Sequential (emits P).
Proof.
  split.
  - intros s. exists []. by rewrite app_nil_r.
  - intros s1 s2 s3 b (e1 & T1 & F1) (e2 & T2 & F2).
    exists (e1 ++ e2). split; [by rewrite T2, T1, app_assoc|].
    by rewrite forallb_app, F1, F2.
Qed.

Lemma emits_set_opt k v : sound (emits P) (set_opt k v).
Proof. intros s. exists []. simpl. by rewrite app_nil_r. Qed.

Lemma emits_emit e : P e = true → sound (emits P) (emit e).
Proof. intros H s. exists [e]. simpl. by rewrite H. Qed.

Lemma emits_cache_add k e : P (EvCacheAdd k e) = true → sound (emits P) (cache_add k e).
Proof. intros H s. exists [EvCacheAdd k e]. simpl. by rewrite H. Qed.

Lemma emits_panic {A} : sound (emits P) (@panic A).
Proof. intros s. exists []. simpl. by rewrite app_nil_r. Qed.

Lemma emits_as_bool v : sound (emits P) (as_bool v).
Proof. destruct v as [[]|]; first [apply sound_ret, _ | apply emits_panic]. Qed.

Lemma emits_as_int v : sound (emits P) (as_int v).
Proof. destruct v as [[]|]; first [apply sound_ret, _ | apply emits_panic]. Qed.

Lemma emits_as_string v : sound (emits P) (as_string v).
Proof. destruct v as [[]|]; first [apply sound_ret, _ | apply emits_panic]. Qed.

Lemma emits_as_claims v : sound (emits P) (as_claims v).
Proof.
  destruct v as [[| | | | | |[c|]|]|]; first [apply sound_ret, _ | apply emits_panic].
Qed.

Lemma emits_Error_of err : sound (emits P) (Error_of err).
Proof. destruct err; first [apply sound_ret, _ | apply emits_panic]. Qed.

End Emits.

Ltac emits_step :=
  lazymatch goal with
  | |- sound _ (bind _ _) => apply (sound_bind _); [|intros ?]
  | |- sound _ (ret _) => apply (sound_ret _)
  | |- sound _ get_opts => apply (sound_get_opts _)
  | |- sound _ (set_opt _ _) => apply emits_set_opt
  | |- sound _ (log _ _ _) => apply emits_emit; cbn; rewrite ?String.eqb_refl; reflexivity
  | |- sound _ (emit _) => apply emits_emit; reflexivity
  | |- sound _ (cache_add _ _) => apply emits_cache_add; reflexivity
  | |- sound _ (exit _) => apply (sound_exit _); discriminate
  | |- sound _ panic => apply emits_panic
  | |- sound _ (as_bool _) => apply emits_as_bool
  | |- sound _ (as_int _) => apply emits_as_int
  | |- sound _ (as_string _) => apply emits_as_string
  | |- sound _ (as_claims _) => apply emits_as_claims
  | |- sound _ (Error_of _) => apply emits_Error_of
  | |- sound _ (if ?b then _ else _) => destruct b
  | |- sound _ (match ?x with _ => _ end) => destruct x
  end.

Section Routed.

Context (u : Utils) (m : AuthPortal) (r : Request) (reqID : string).

Lemma login_loop_routed d credentials backends :
  sound (emits (routed_event d true reqID))
    (login_loop u m r reqID credentials backends).
Proof.
  induction backends as [|b bs IH]; simpl.
  - apply (sound_ret _).
  - apply (sound_bind _); [|intros _; exact IH].
    unfold login_attempt. destruct d; repeat emits_step.
Qed.

Lemma login_flow_routed d :
  sound (emits (routed_event d true reqID)) (login_flow u m r reqID).
Proof.
  unfold login_flow. destruct d; repeat first [apply login_loop_routed | emits_step].
Qed.

Lemma delegated_flow_routed l p :
  sound (emits (routed_event true l reqID)) (delegated_flow u m r reqID p).
Proof.
  unfold delegated_flow. destruct (_ <? _)%nat; repeat emits_step.
  induction (Backends m) as [|b bs IH]; simpl.
  - repeat emits_step.
  - repeat (destruct (negb _); [exact IH|]).
    unfold delegated_attempt, delegated_failure, delegated_success.
    repeat emits_step.
Qed.

Lemma route_routed p :
  sound (emits (routed_event (is_delegated p) (is_login p) reqID)) (route u m r reqID p).
Proof.
  destruct (is_delegated p) eqn:D.
  - rewrite route_delegated by done. apply delegated_flow_routed.
  - unfold route.
    change (GoStrings.HasPrefix p "saml" || GoStrings.HasPrefix p "x509"
            || GoStrings.HasPrefix p "oauth2") with (is_delegated p).
    change (GoStrings.HasPrefix p "login" || String.eqb p "") with (is_login p).
    rewrite D. destruct (is_login p) eqn:L.
    + repeat first [apply login_flow_routed | emits_step].
    + repeat emits_step.
Qed.

End Routed.

(** ** Who switches [authenticated] on *)

Section Fail_closed.

Context (u : Utils) (m : AuthPortal) (r : Request).

Local Abbreviation FC := (fail_closed m r).

#[export] Instance fail_closed_sequential : Sequential FC.
Proof.
  split.
  - intros s. exists []. rewrite app_nil_r. split; [done|]. by left.
  - intros s1 s2 s3 b (e1 & T1 & F1) (e2 & T2 & F2).
    exists (e1 ++ e2). split; [by rewrite T2, T1, app_assoc|].
    intros H3. rewrite calls_app, existsb_app.
    destruct (F2 H3) as [H2 | [? | -> ] ]; [|by auto|].
    + destruct (F1 H2) as [? | [? | -> ] ]; auto.
    + right. right. apply orb_true_r.
Qed.

Lemma fc_set_opt k v :
  k ≠ "authenticated" ∨ v ≠ VBool true → sound FC (set_opt k v).
Proof.
  intros H s. exists []. simpl. rewrite app_nil_r. split; [done|].
  destruct H as [H|H].
  - rewrite lookup_insert_ne by done. by left.
  - destruct (decide (k = "authenticated")) as [->|Hk].
    + rewrite lookup_insert_eq. intros [= ->]. done.
    + rewrite lookup_insert_ne by done. by left.
Qed.

Lemma fc_emit e : sound FC (emit e).
Proof. intros s. exists [e]. split; [done|]. by left. Qed.

Lemma fc_panic {A} : sound FC (@panic A).
Proof. intros s. exists []. simpl. rewrite app_nil_r. split; [done|]. by left. Qed.

Lemma fc_as_bool v : sound FC (as_bool v).
Proof. destruct v as [[]|]; first [apply sound_ret, _ | apply fc_panic]. Qed.

Lemma fc_as_string v : sound FC (as_string v).
Proof. destruct v as [[]|]; first [apply sound_ret, _ | apply fc_panic]. Qed.

Lemma fc_Error_of err : sound FC (Error_of err).
Proof. destruct err; first [apply sound_ret, _ | apply fc_panic]. Qed.

End Fail_closed.

Ltac fc_step :=
  lazymatch goal with
  | |- sound _ (bind _ _) => apply (sound_bind _); [|intros ?]
  | |- sound _ (ret _) => apply (sound_ret _)
  | |- sound _ get_opts => apply (sound_get_opts _)
  | |- sound _ (set_opt _ _) => apply fc_set_opt; first [left; discriminate | right; discriminate]
  | |- sound _ (log _ _ _) => apply fc_emit
  | |- sound _ (emit _) => apply fc_emit
  | |- sound _ (exit _) => apply (sound_exit _); discriminate
  | |- sound _ panic => apply fc_panic
  | |- sound _ (as_bool _) => apply fc_as_bool
  | |- sound _ (as_string _) => apply fc_as_string
  | |- sound _ (Error_of _) => apply fc_Error_of
  | |- sound _ (if ?b then _ else _) => destruct b
  | |- sound _ (match ?x with _ => _ end) => destruct x
  end.

Ltac close_fc :=
  eexists; split;
  [ cbn [trace]; rewrite <- ?app_assoc; reflexivity
  | cbn [opts]; rewrite ?lookup_insert_ne by done;
    first [ by left
          | rewrite lookup_insert_eq; by intros [=]
          | intros _; right; right; cbn; unfold gave_claims; cbn; use_lookups;
            reflexivity ] ].

Section Handler_fail_closed.

Context (u : Utils) (m : AuthPortal) (r : Request) (reqID : string).

Lemma validate_token_fc : sound (fail_closed m r) (validate_token u m r).
Proof.
  unfold validate_token.
  destruct (Authorize _ r) as [[claims [|]] err] eqn:EA.
  - intros s. exists []. run_monad. simpl. rewrite app_nil_r. split; [done|].
    intros _. right. left. unfold token_accepted. by rewrite EA.
  - repeat fc_step.
Qed.

Lemma query_parameters_fc p : sound (fail_closed m r) (query_parameters m r p).
Proof. unfold query_parameters. repeat fc_step. Qed.

Lemma new_opts_fc : sound (fail_closed m r) (new_opts u m r reqID).
Proof. unfold new_opts. repeat fc_step. Qed.

Lemma login_attempt_fc credentials backend :
  sound (fail_closed m r) (login_attempt u m r reqID credentials backend).
Proof.
  intros [o t c]. unfold login_attempt.
  destruct (negb _); [apply (seq_refl (R := fail_closed m r))|].
  run_monad.
  destruct (Authenticate backend _) as [resp [e|]] eqn:EA.
  - destruct (resp !! "code") as [[]|] eqn:EC; close_fc.
  - destruct (resp !! "claims") as [[| | | | | |[claims|]|]|] eqn:EC; close_fc.
Qed.

Lemma delegated_attempt_fc method realm backend :
  sound (fail_closed m r) (delegated_attempt u m r reqID method realm backend).
Proof.
  intros [o t c]. unfold delegated_attempt, delegated_failure, delegated_success.
  run_monad.
  destruct (Authenticate backend _) as [resp [e|]] eqn:EA.
  - destruct (resp !! "code") as [[]|] eqn:EC; close_fc.
  - destruct (resp !! "redirect_url") as [v|] eqn:ER.
    + destruct v; close_fc.
    + destruct (resp !! "claims") as [v|] eqn:EC.
      * destruct v as [| | | | | |[claims|]|]; close_fc.
      * destruct (resp !! "code") as [[]|] eqn:EK; close_fc.
Qed.

Lemma login_loop_fc credentials backends :
  sound (fail_closed m r) (login_loop u m r reqID credentials backends).
Proof.
  induction backends as [|b bs IH]; simpl.
  - apply (sound_ret _).
  - apply (sound_bind _); [apply login_attempt_fc|intros _; exact IH].
Qed.

Lemma delegated_loop_fc method realm backends :
  sound (fail_closed m r) (delegated_loop u m r reqID method realm backends).
Proof.
  induction backends as [|b bs IH]; simpl.
  - repeat fc_step.
  - repeat (destruct (negb _); [exact IH|]). apply delegated_attempt_fc.
Qed.

Lemma route_fc p : sound (fail_closed m r) (route u m r reqID p).
Proof.
  unfold route, delegated_flow, login_flow.
  repeat first [apply delegated_loop_fc | apply login_loop_fc | fc_step].
Qed.

End Handler_fail_closed.

Lemma ServeHTTP_fc u m r : sound (fail_closed m r) (ServeHTTP u m r).
Proof.
  unfold ServeHTTP.
  repeat first [apply new_opts_fc | apply validate_token_fc | apply query_parameters_fc
               | apply route_fc | fc_step].
Qed.

(** ** The trace of a run, by its parts *)

Section Serve_trace.

Context (u : Utils) (m : AuthPortal) (r : Request).

Lemma validation_log_of_request :
  forallb (log_of_request (GetRequestID u r)) (validation_log u m r) = true.
Proof.
  unfold validation_log, validate_token.
  destruct (Authorize _ r) as [[claims [|]] [e|]]; run_monad; try done.
  destruct (String.eqb e "[Token is expired]"); [done|].
  destruct (String.eqb e "no token found"); [done|].
  rewrite new_context_request_id. cbn. by rewrite String.eqb_refl.
Qed.

Lemma redirect_cookie_headers :
  forallb writes_header (redirect_cookie m r) = true.
Proof.
  unfold redirect_cookie. destruct (String.eqb _ _); [|done].
  by destruct (URL_Query r !! "redirect_url").
Qed.

Lemma serve_expired cache :
  token_expired m r = true →
  serve u m r cache
  = (Served ServeSessionLoginRedirect, mkState (new_context u m r) [] cache).
Proof. intros E. unfold serve. by rewrite ServeHTTP_run, E. Qed.

(** After what validation logged and the cookie line, a run that is not cut
    short by an expired token either redirects to the portal's root or emits
    what routing may emit. *)
Lemma serve_trace cache :
  token_expired m r = false →
  ∃ evs, trace (serve u m r cache).2
         = validation_log u m r ++ redirect_cookie m r ++ evs
       ∧ if redirects_home m r
         then evs = [EvHeaderSet "Location" (AuthURLPath m); EvWriteHeader 302]
         else forallb (routed_event (is_delegated (url_path m r))
                         (is_login (url_path m r)) (GetRequestID u r)) evs = true.
Proof.
  intros E. unfold serve. rewrite ServeHTTP_run, E.
  destruct (redirects_home m r); [by eexists|].
  match goal with |- context [route _ _ _ _ _ ?s1] =>
    destruct (route_routed u m r (GetRequestID u r) (url_path m r) s1) as (evs & T & F)
  end.
  destruct (route _ _ _ _ _ _) as [[]|o s]. simpl in *.
  exists evs. by rewrite T, <- app_assoc.
Qed.

End Serve_trace.

Lemma filter_none {A} (P : A → bool) l :
  forallb (fun x => negb (P x)) l = true → List.filter P l = [].
Proof.
  induction l as [|x l IH]; [done|]. simpl. intros [Hx Hl]%andb_true_iff.
  destruct (P x); [done|]. by apply IH.
Qed.

Lemma filter_all {A} (P : A → bool) l :
  forallb P l = true → List.filter P l = l.
Proof.
  induction l as [|x l IH]; [done|]. simpl. intros [Hx Hl]%andb_true_iff.
  rewrite Hx. f_equal. by apply IH.
Qed.

Lemma forallb_weaken {A} (P Q : A → bool) l :
  (∀ x, P x = true → Q x = true) → forallb P l = true → forallb Q l = true.
Proof.
  intros H. induction l as [|x l IH]; [done|]. simpl.
  intros [Hx Hl]%andb_true_iff. by rewrite (H _ Hx), IH.
Qed.

(** ** More properties of the handler *)

(** X1. A run never ends with [authenticated] true unless the token validator
    accepted the request's token or some configured backend, called during
    the run, returned no error and a claim set: every other failure of token
    validation, of credential parsing or of a backend leaves the request
    unauthenticated. *)
Theorem authenticated_needs_token_or_claims u m r cache :
  opts (serve u m r cache).2 !! "authenticated" = Some (VBool true) →
  token_accepted m r = true
  ∨ ∃ c claims,
      c ∈ calls (trace (serve u m r cache).2)
      ∧ call_backend c ∈ Backends m
      ∧ Authenticate (call_backend c) (call_ctx c) = (call_resp c, None)
      ∧ call_resp c !! "claims" = Some (VClaims (Some claims)).
Proof.
  intros H. unfold serve in *.
  destruct (ServeHTTP_fc u m r (mkState ∅ [] cache)) as (evs & T & F).
  destruct (serve_tracks u m r cache) as (B & _ & _). unfold serve in B.
  destruct (ServeHTTP u m r _) as [[]|o s]. simpl in *. subst evs.
  destruct (F H) as [H0|[?|Hex]]; [done|by left|right].
  apply existsb_exists in Hex as (c & Hc & Hg). apply list_elem_of_In in Hc.
  destruct (blocks_calls _ _ _ _ _ _ B Hc) as (Hin & Hans).
  unfold gave_claims in Hg. destruct (call_err c); [done|].
  destruct (call_resp c !! "claims") as [[| | | | | |[claims|]|]|] eqn:EC; try done.
  exists c, claims. by split_and!.
Qed.

Lemma authenticated_needs_token_or_claims_witness :
  let u := Examples.utils (Some Examples.corp_credentials) in
  let m := Examples.portal Examples.no_token in
  let r := Examples.post "/auth/login" in
  token_accepted m r = true
  ∨ ∃ c claims,
      c ∈ calls (trace (serve u m r ∅).2)
      ∧ call_backend c ∈ Backends m
      ∧ Authenticate (call_backend c) (call_ctx c) = (call_resp c, None)
      ∧ call_resp c !! "claims" = Some (VClaims (Some claims)).
Proof.
  intros u m r. apply (authenticated_needs_token_or_claims u m r ∅).
  vm_compute. reflexivity.
Defined.

(** X2. The handler's own calls of [w.Header().Set] and [w.WriteHeader] all
    come before routing: unless the token is expired, the cookie header of a
    GET request with [redirect_url], followed by [Location] and the status
    302 when the path is not under a delegated-backend prefix.  Routing
    hands the writer to [http.Redirect] or to a renderer and sets no header
    and no status itself, on any path. *)
Theorem response_writes u m r cache :
  List.filter writes_header (trace (serve u m r cache).2)
  = if token_expired m r then []
    else redirect_cookie m r
         ++ (if redirects_home m r
             then [EvHeaderSet "Location" (AuthURLPath m); EvWriteHeader 302]
             else []).
Proof.
  destruct (token_expired m r) eqn:E.
  { by rewrite serve_expired. }
  destruct (serve_trace u m r cache E) as (evs & -> & H).
  rewrite !List.filter_app.
  rewrite (filter_none writes_header (validation_log u m r)).
  2:{ eapply forallb_weaken; [|apply validation_log_is_log]. by intros []. }
  rewrite (filter_all writes_header (redirect_cookie m r))
    by apply redirect_cookie_headers.
  destruct (redirects_home m r); [by subst evs|].
  rewrite (filter_none writes_header evs); [done|].
  eapply forallb_weaken; [|exact H]. by intros [].
Qed.

(** X3. Every line the handler logs during a run carries, as its first
    field, the correlation identifier of the request. *)
Theorem log_lines_carry_request_id u m r cache lvl msg fields :
  EvLog lvl msg fields ∈ trace (serve u m r cache).2 →
  ∃ rest, fields = ("request_id", VString (GetRequestID u r)) :: rest.
Proof.
  intros H.
  assert (forallb (log_of_request (GetRequestID u r)) (trace (serve u m r cache).2)
          = true) as F.
  { destruct (token_expired m r) eqn:E; [by rewrite serve_expired|].
    destruct (serve_trace u m r cache E) as (evs & -> & Hevs).
    rewrite !forallb_app, validation_log_of_request. simpl. apply andb_true_iff. split.
    - eapply forallb_weaken; [|apply redirect_cookie_headers]. by intros [].
    - destruct (redirects_home m r); [by subst evs|].
      eapply forallb_weaken; [|exact Hevs]. intros []; simpl; try done. }
  rewrite forallb_forall in F. apply list_elem_of_In, F in H. simpl in H.
  destruct fields as [|[k []] rest]; try done.
  apply andb_true_iff in H as [->%String.eqb_eq ->%String.eqb_eq]. eauto.
Qed.

Lemma log_lines_carry_request_id_witness :
  ∃ rest,
    [("request_id", VString "6ba7b810-9dad-11d1-80b4-00c04fd430c8");
     ("error", VString "no matching auth backend found")]
    = ("request_id",
       VString (GetRequestID (Examples.utils (Some (<["realm" := "nowhere"]> ∅)))
                  (Examples.post "/auth/login"))) :: rest.
Proof.
  apply (log_lines_carry_request_id (Examples.utils (Some (<["realm" := "nowhere"]> ∅)))
           (Examples.portal Examples.no_token) (Examples.post "/auth/login") ∅
           Warn "Authentication failed").
  replace (trace (serve (Examples.utils (Some (<["realm" := "nowhere"]> ∅)))
                    (Examples.portal Examples.no_token) (Examples.post "/auth/login") ∅).2)
    with [EvLog Warn "Authentication failed"
            [("request_id", VString "6ba7b810-9dad-11d1-80b4-00c04fd430c8");
             ("error", VString "no matching auth backend found")]]
    by (vm_compute; reflexivity).
  apply list_elem_of_here.
Defined.

(** ** Delegated-backend paths, from the request *)

Section Serve_delegated.

Context (u : Utils) (m : AuthPortal) (r : Request).

Local Abbreviation p := (url_path m r).
Local Abbreviation method := (requested_method (url_path m r)).
Local Abbreviation realm := (requested_realm (url_path m r)).

(** The state in which the scan of the backends starts. *)
Local Abbreviation scan_state cache :=
  (mkState (<["flow" := VString method]> (validated_context u m r))
     (validation_log u m r ++ redirect_cookie m r) cache).

Lemma serve_delegated_run cache :
  token_expired m r = false →
  is_delegated p = true →
  (length (GoStrings.Split p "/") <? 2)%nat = false →
  ServeHTTP u m r (mkState ∅ [] cache)
  = match List.find (serves method realm) (Backends m) with
    | Some backend =>
        delegated_attempt u m r (GetRequestID u r) method realm backend
          (scan_state cache)
    | None =>
        Stop (Served ServeGeneric)
          (mkState
             (<["authenticated" := VBool false]>
                (<["flow" := VString "backend_not_found"]>
                   (<["status_code" := VInt 400]>
                      (<["flow" := VString method]> (validated_context u m r)))))
             (validation_log u m r ++ redirect_cookie m r) cache)
    end.
Proof.
  intros E D L. rewrite ServeHTTP_run, E.
  unfold redirects_home. rewrite D, andb_false_r. rewrite route_delegated by done.
  unfold delegated_flow. rewrite L. unfold bind at 1. cbn [set_opt].
  by rewrite delegated_loop_find.
Qed.

Lemma delegated_attempt_redirect backend s resp url :
  Authenticate backend (delegated_ctx u m method realm (opts s)) = (resp, None) →
  resp !! "redirect_url" = Some (VString url) →
  delegated_attempt u m r (GetRequestID u r) method realm backend s
  = Stop ReturnedNil
      (mkState (delegated_ctx u m method realm (opts s))
         (trace s ++ [EvAuthenticate backend (delegated_ctx u m method realm (opts s))
                        resp None;
                      EvRedirect url 308])
         (sessionCache s)).
Proof.
  unfold delegated_attempt, delegated_ctx. intros EA ER.
  destruct s as [o t c]. run_monad. simpl in *. rewrite EA. simpl. rewrite ER.
  by rewrite <- app_assoc.
Qed.

End Serve_delegated.

Ltac prefix_quiet :=
  rewrite ?cache_writes_app, ?calls_app;
  rewrite ?quiet_cache_writes, ?quiet_calls
    by (apply validation_log_quiet || apply redirect_cookie_quiet);
  cbn [app]; autorewrite with traces.

(** X4. What a request under a delegated-backend prefix can come to, once
    its token is not rejected as expired.  The generic page is rendered
    unauthenticated, with a status code and one of the three failure flows,
    and the session cache is not written.  The login renderer is reached only
    authenticated, with status 200, the flow being the requested method and
    the session cache written exactly once.  The handler returns by itself
    only after a 308 redirect, without a cache write.  A panic leaves the
    cache unwritten.  No other renderer is reached. *)
Theorem delegated_outcomes u m r cache :
  token_expired m r = false →
  is_delegated (url_path m r) = true →
  let s := (serve u m r cache).2 in
  match (serve u m r cache).1 with
  | Served ServeGeneric =>
      opts s !! "authenticated" = Some (VBool false)
      ∧ (∃ n, opts s !! "status_code" = Some (VInt n))
      ∧ (opts s !! "flow" = Some (VString "malformed_backend")
         ∨ opts s !! "flow" = Some (VString "backend_not_found")
         ∨ opts s !! "flow" = Some (VString "auth_failed"))
      ∧ cache_writes (trace s) = []
  | Served ServeLogin =>
      opts s !! "authenticated" = Some (VBool true)
      ∧ opts s !! "status_code" = Some (VInt 200)
      ∧ opts s !! "flow" = Some (VString (requested_method (url_path m r)))
      ∧ length (cache_writes (trace s)) = 1%nat
  | ReturnedNil =>
      (∃ url, last (trace s) = Some (EvRedirect url 308))
      ∧ cache_writes (trace s) = []
  | Panicked => cache_writes (trace s) = []
  | Served _ => False
  end.
Proof.
  intros E D. cbv zeta. unfold serve.
  destruct (length (GoStrings.Split (url_path m r) "/") <? 2)%nat eqn:L.
  { rewrite ServeHTTP_run, E. unfold redirects_home. rewrite D, andb_false_r.
    rewrite route_delegated by done. unfold delegated_flow. rewrite L. run_monad.
    cbn [fst snd]. split_and!; [by lookups|eexists; by lookups|left; by lookups|].
    cbn [trace]. by prefix_quiet. }
  rewrite serve_delegated_run by done.
  destruct (List.find _ _) as [b|].
  2:{ cbn [fst snd]. split_and!; [by lookups|eexists; by lookups|right; left; by lookups|].
      cbn [trace]. by prefix_quiet. }
  unfold delegated_attempt, delegated_failure, delegated_success. run_monad.
  destruct (Authenticate b _) as [resp [e|]].
  - destruct (resp !! "code") as [[]|]; cbn [fst snd trace];
      rewrite <- ?app_assoc; try (by prefix_quiet).
    split_and!; [by lookups|eexists; by lookups|right; right; by lookups|by prefix_quiet].
  - destruct (resp !! "redirect_url") as [v|].
    + destruct v; cbn [fst snd trace]; rewrite <- ?app_assoc; try (by prefix_quiet).
      split; [|by prefix_quiet]. eexists. rewrite !app_assoc. apply last_snoc.
    + destruct (resp !! "claims") as [v|].
      * destruct v as [| | | | | |[claims|]|]; cbn [fst snd trace];
          rewrite <- ?app_assoc; try (by prefix_quiet).
        split_and!; [by lookups..|by prefix_quiet].
      * destruct (resp !! "code") as [[]|]; cbn [fst snd trace];
          rewrite <- ?app_assoc; by prefix_quiet.
Qed.

Lemma delegated_outcomes_witness :
  let s := (serve (Examples.utils None) (Examples.portal Examples.valid_token)
              (Examples.get "/auth/oauth2/google") ∅).2 in
  opts s !! "authenticated" = Some (VBool true)
  ∧ opts s !! "status_code" = Some (VInt 200)
  ∧ opts s !! "flow" = Some (VString "oauth2")
  ∧ length (cache_writes (trace s)) = 1%nat.
Proof.
  exact (delegated_outcomes (Examples.utils None) (Examples.portal Examples.valid_token)
           (Examples.get "/auth/oauth2/google") ∅ eq_refl eq_refl).
Defined.

(** X5. A request that reaches routing under a delegated-backend prefix, with
    at least two path segments of which no configured backend serves both the
    method and the realm, is answered by the generic renderer with status
    400, flow [backend_not_found] and [authenticated] false, whatever its
    token; no backend is called, not even one that serves the realm or the
    method alone, and the session cache is untouched. *)
Theorem delegated_backend_not_found u m r cache :
  token_expired m r = false →
  is_delegated (url_path m r) = true →
  (2 ≤ length (GoStrings.Split (url_path m r) "/"))%nat →
  (∀ b, b ∈ Backends m →
        GetRealm b ≠ requested_realm (url_path m r)
        ∨ GetMethod b ≠ requested_method (url_path m r)) →
  ∃ s, serve u m r cache = (Served ServeGeneric, s)
     ∧ opts s !! "status_code" = Some (VInt 400)
     ∧ opts s !! "flow" = Some (VString "backend_not_found")
     ∧ opts s !! "authenticated" = Some (VBool false)
     ∧ invoked (trace s) = []
     ∧ sessionCache s = cache.
Proof.
  intros E D L H. unfold serve.
  rewrite serve_delegated_run; [|done..|by apply Nat.ltb_ge].
  destruct (List.find _ _) as [b|] eqn:F.
  { apply find_some in F as [Hin Hs]. apply list_elem_of_In in Hin.
    unfold serves in Hs. apply andb_true_iff in Hs as [R%String.eqb_eq M%String.eqb_eq].
    by destruct (H b Hin). }
  eexists. split_and!; [reflexivity|by lookups..| |reflexivity].
  cbn [trace]. unfold invoked. by prefix_quiet.
Qed.

Lemma delegated_backend_not_found_witness :
  ∃ s, serve (Examples.utils None) (Examples.portal Examples.valid_token)
         (Examples.get "/auth/oauth2/okta") ∅ = (Served ServeGeneric, s)
     ∧ opts s !! "status_code" = Some (VInt 400)
     ∧ opts s !! "flow" = Some (VString "backend_not_found")
     ∧ opts s !! "authenticated" = Some (VBool false)
     ∧ invoked (trace s) = []
     ∧ sessionCache s = ∅.
Proof.
  apply delegated_backend_not_found; [reflexivity|reflexivity|vm_compute; lia|].
  intros b Hb. simpl in Hb.
  repeat (apply elem_of_cons in Hb as [->|Hb];
          [first [left; discriminate | right; discriminate]|]).
  by apply elem_of_nil in Hb.
Defined.

(** X6. On a delegated-backend path, when the requested backend returns no
    error and a result with a [redirect_url] string, the handler redirects
    there with status 308 and returns: the result's claims, if any, are not
    looked at, nothing is written to the session cache and no renderer is
    called. *)
Theorem delegated_redirect_outcome u m r cache backend resp url :
  token_expired m r = false →
  is_delegated (url_path m r) = true →
  (2 ≤ length (GoStrings.Split (url_path m r) "/"))%nat →
  List.find (serves (requested_method (url_path m r)) (requested_realm (url_path m r)))
    (Backends m) = Some backend →
  Authenticate backend (delegated_call_ctx u m r) = (resp, None) →
  resp !! "redirect_url" = Some (VString url) →
  serve u m r cache
  = (ReturnedNil,
     mkState (delegated_call_ctx u m r)
       ((validation_log u m r ++ redirect_cookie m r)
          ++ [EvAuthenticate backend (delegated_call_ctx u m r) resp None;
              EvRedirect url 308])
       cache).
Proof.
  intros E D L F EA ER. unfold serve.
  rewrite serve_delegated_run, F; [|done..|by apply Nat.ltb_ge].
  by rewrite (delegated_attempt_redirect u m r backend _ resp url); [|exact EA|exact ER].
Qed.

(** X7. On a delegated-backend path, when the requested backend returns no
    error, no [redirect_url] and a claim set, the login renderer is called
    with the context authenticated, status 200, the flow the requested
    method, and as [user_claims] the very claims written to the session
    cache: the returned ones with the issuer set to the current URL, the
    address stamped when tracking is on, and an empty identifier replaced by
    the correlation identifier. *)
Theorem delegated_success_context u m r cache backend resp claims :
  token_expired m r = false →
  is_delegated (url_path m r) = true →
  (2 ≤ length (GoStrings.Split (url_path m r) "/"))%nat →
  List.find (serves (requested_method (url_path m r)) (requested_realm (url_path m r)))
    (Backends m) = Some backend →
  Authenticate backend (delegated_call_ctx u m r) = (resp, None) →
  resp !! "redirect_url" = None →
  resp !! "claims" = Some (VClaims (Some claims)) →
  let claims' := session_claims u m r claims in
  ∃ s, serve u m r cache = (Served ServeLogin, s)
     ∧ opts s !! "authenticated" = Some (VBool true)
     ∧ opts s !! "user_claims" = Some (VClaims (Some claims'))
     ∧ opts s !! "status_code" = Some (VInt 200)
     ∧ opts s !! "flow" = Some (VString (requested_method (url_path m r)))
     ∧ cache_writes (trace s) = [(ID claims', cache_entry claims' backend)]
     ∧ Issuer claims' = GetCurrentURL u r
     ∧ Address claims'
       = (if EnableSourceIPTracking m then GetSourceAddress u r else Address claims)
     ∧ Attributes claims' = Attributes claims.
Proof.
  intros E D L F EA ER EC claims'. unfold serve.
  rewrite serve_delegated_run, F; [|done..|by apply Nat.ltb_ge].
  rewrite (delegated_attempt_success u m r _ _ backend _ resp claims);
    [|exact EA|exact ER|exact EC].
  eexists. split; [reflexivity|]. fold claims'.
  split_and!; try (by lookups).
  - unfold delegated_ctx. lookups. reflexivity.
  - cbn [trace]. by prefix_quiet.
  - unfold claims', session_claims.
    by destruct (EnableSourceIPTracking m), (String.eqb _ "").
  - unfold claims', session_claims.
    by destruct (EnableSourceIPTracking m), (String.eqb _ "").
  - unfold claims', session_claims.
    by destruct (EnableSourceIPTracking m), (String.eqb _ "").
Qed.

(** X8. On a delegated-backend path, when the requested backend returns an
    error with an integer code, the generic renderer is called with flow
    [auth_failed], that code as status, the message set and [authenticated]
    false, even for a request whose token was accepted; the warning names
    method, realm and error, and the session cache is untouched. *)
Theorem delegated_failure_outcome u m r cache backend resp e n :
  token_expired m r = false →
  is_delegated (url_path m r) = true →
  (2 ≤ length (GoStrings.Split (url_path m r) "/"))%nat →
  List.find (serves (requested_method (url_path m r)) (requested_realm (url_path m r)))
    (Backends m) = Some backend →
  Authenticate backend (delegated_call_ctx u m r) = (resp, Some e) →
  resp !! "code" = Some (VInt n) →
  ∃ s, serve u m r cache = (Served ServeGeneric, s)
     ∧ opts s !! "flow" = Some (VString "auth_failed")
     ∧ opts s !! "authenticated" = Some (VBool false)
     ∧ opts s !! "status_code" = Some (VInt n)
     ∧ opts s !! "message" = Some (VString "Authentication failed")
     ∧ last (trace s)
       = Some (delegated_failed_log (GetRequestID u r)
                 (requested_method (url_path m r)) (requested_realm (url_path m r)) e)
     ∧ sessionCache s = cache.
Proof.
  intros E D L F EA EC. unfold serve.
  rewrite serve_delegated_run, F; [|done..|by apply Nat.ltb_ge].
  rewrite (delegated_attempt_error u m r _ _ backend _ resp e n); [|exact EA|exact EC].
  eexists. split; [reflexivity|].
  split_and!; try (by lookups); try reflexivity.
  cbn [trace]. by rewrite last_app.
Qed.

Lemma delegated_redirect_outcome_witness :
  let x := serve (Examples.utils None)
             (Examples2.portal Examples.no_token Examples2.open_registration false)
             (Examples.get "/auth/saml/keycloak") ∅ in
  x.1 = ReturnedNil
  ∧ last (trace x.2) = Some (EvRedirect "https://idp.example.com/sso" 308)
  ∧ sessionCache x.2 = ∅.
Proof.
  cbv zeta.
  rewrite (delegated_redirect_outcome (Examples.utils None)
             (Examples2.portal Examples.no_token Examples2.open_registration false)
             (Examples.get "/auth/saml/keycloak") ∅ Examples2.keycloak
             (<["redirect_url" := VString "https://idp.example.com/sso"]>
                (<["claims" := VClaims (Some (Examples.claims_of "carol"))]> ∅))
             "https://idp.example.com/sso");
    [split_and!; reflexivity|reflexivity|reflexivity|vm_compute; lia|reflexivity..].
Defined.

Lemma delegated_success_context_witness :
  let u := Examples.utils None in
  let m := Examples2.portal Examples.valid_token Examples2.open_registration true in
  let r := Examples.get "/auth/oauth2/google/callback" in
  let claims' := session_claims u m r (Examples.claims_of "") in
  ∃ s, serve u m r ∅ = (Served ServeLogin, s)
     ∧ opts s !! "authenticated" = Some (VBool true)
     ∧ opts s !! "user_claims" = Some (VClaims (Some claims'))
     ∧ opts s !! "status_code" = Some (VInt 200)
     ∧ opts s !! "flow" = Some (VString "oauth2")
     ∧ cache_writes (trace s) = [(ID claims', cache_entry claims' Examples.google)]
     ∧ Issuer claims' = "https://portal.example.com/auth"
     ∧ Address claims' = "203.0.113.7"
     ∧ Attributes claims' = [("roles", "user")].
Proof.
  intros u m r.
  apply (delegated_success_context u m r ∅ Examples.google
           (<["claims" := VClaims (Some (Examples.claims_of ""))]> ∅)
           (Examples.claims_of ""));
    [reflexivity|reflexivity|vm_compute; lia|reflexivity..].
Defined.

Lemma delegated_failure_outcome_witness :
  let u := Examples.utils None in
  let m := Examples.portal Examples.valid_token in
  let r := Examples.get "/auth/oauth2/github" in
  ∃ s, serve u m r ∅ = (Served ServeGeneric, s)
     ∧ opts s !! "flow" = Some (VString "auth_failed")
     ∧ opts s !! "authenticated" = Some (VBool false)
     ∧ opts s !! "status_code" = Some (VInt 403)
     ∧ opts s !! "message" = Some (VString "Authentication failed")
     ∧ last (trace s)
       = Some (delegated_failed_log (GetRequestID u r) "oauth2" "github" "access denied")
     ∧ sessionCache s = ∅.
Proof.
  intros u m r.
  apply (delegated_failure_outcome u m r ∅ Examples.github (<["code" := VInt 403]> ∅)
           "access denied" 403);
    [reflexivity|reflexivity|vm_compute; lia|reflexivity..].
Defined.

(** ** The segments of a path *)

Lemma Split_cons_cases s :
  ∃ piece pieces, GoStrings.Split s "/" = piece :: pieces.
Proof.
  induction s as [|c s (piece & pieces & IH)]; simpl; [by eauto|].
  destruct (Ascii.eqb c "/"); [by eauto|]. rewrite IH. eauto.
Qed.

Lemma Split_no_slash s : has_slash s = false → GoStrings.Split s "/" = [s].
Proof.
  induction s as [|c s IH]; simpl; [done|].
  intros [Hc Hs]%orb_false_iff. rewrite Hc, IH; done.
Qed.

Lemma Split_slash s : has_slash s = true → (2 ≤ length (GoStrings.Split s "/"))%nat.
Proof.
  induction s as [|c s IH]; simpl; [done|].
  destruct (Ascii.eqb c "/"); simpl.
  - intros _. destruct (Split_cons_cases s) as (piece & pieces & ->). simpl. lia.
  - intros H. specialize (IH H).
    destruct (GoStrings.Split s "/") as [|piece pieces]; simpl in *; lia.
Qed.

(** The first segment ends at the first slash. *)
Lemma Split_segment a b :
  has_slash a = false →
  GoStrings.Split (a +:+ "/" +:+ b) "/" = a :: GoStrings.Split b "/".
Proof.
  induction a as [|c a IH]; [done|].
  cbn [has_slash]. intros [Hc Ha]%orb_false_iff.
  change (String c a +:+ "/" +:+ b) with (String c (a +:+ "/" +:+ b)).
  cbn [GoStrings.Split]. by rewrite Hc, IH.
Qed.

Lemma Split_head c s :
  Ascii.eqb c "/" = false →
  ∃ piece pieces, GoStrings.Split (String c s) "/" = String c piece :: pieces.
Proof.
  intros H. cbn [GoStrings.Split]. rewrite H.
  destruct (GoStrings.Split s "/"); eauto.
Qed.

Lemma delegated_method_not_malformed p :
  is_delegated p = true → requested_method p ≠ "malformed_backend".
Proof.
  intros D. unfold requested_method.
  destruct (is_delegated_cases p D) as [rest [ -> | [ -> | -> ] ] ].
  - change ("saml" +:+ rest) with (String "s" ("aml" +:+ rest)).
    destruct (Split_head "s" ("aml" +:+ rest) eq_refl) as (piece & pieces & ->).
    simpl. discriminate.
  - change ("x509" +:+ rest) with (String "x" ("509" +:+ rest)).
    destruct (Split_head "x" ("509" +:+ rest) eq_refl) as (piece & pieces & ->).
    simpl. discriminate.
  - change ("oauth2" +:+ rest) with (String "o" ("auth2" +:+ rest)).
    destruct (Split_head "o" ("auth2" +:+ rest) eq_refl) as (piece & pieces & ->).
    simpl. discriminate.
Qed.

Section Delegated_flow_of.

Context (u : Utils) (m : AuthPortal) (r : Request).

(** With two segments or more, the flow a delegated-backend path ends with
    is the requested method or one of the two failure flows of the scan. *)
Lemma delegated_scanned_flow cache :
  token_expired m r = false →
  is_delegated (url_path m r) = true →
  (2 ≤ length (GoStrings.Split (url_path m r) "/"))%nat →
  let f := opts (serve u m r cache).2 !! "flow" in
  f = Some (VString (requested_method (url_path m r)))
  ∨ f = Some (VString "backend_not_found")
  ∨ f = Some (VString "auth_failed").
Proof.
  intros E D L. cbv zeta. unfold serve.
  rewrite serve_delegated_run; [|done..|by apply Nat.ltb_ge].
  destruct (List.find _ _) as [b|].
  2:{ right. left. by (cbn [fst snd]; lookups). }
  unfold delegated_attempt, delegated_failure, delegated_success. run_monad.
  destruct (Authenticate b _) as [resp [e|]].
  - right. right. destruct (resp !! "code") as [[]|]; by (cbn [fst snd]; lookups).
  - destruct (resp !! "redirect_url") as [v|].
    + left. destruct v; by (cbn [fst snd]; lookups).
    + destruct (resp !! "claims") as [v|].
      * left. destruct v as [| | | | | |[claims|]|]; by (cbn [fst snd]; lookups).
      * right. right. destruct (resp !! "code") as [[]|]; by (cbn [fst snd]; lookups).
Qed.

Lemma delegated_no_slash_flow cache :
  token_expired m r = false →
  is_delegated (url_path m r) = true →
  has_slash (url_path m r) = false →
  serve u m r cache
  = (Served ServeGeneric,
     mkState
       (<["authenticated" := VBool false]>
          (<["flow" := VString "malformed_backend"]>
             (<["status_code" := VInt 400]> (validated_context u m r))))
       (validation_log u m r ++ redirect_cookie m r) cache).
Proof.
  intros E D H. unfold serve. rewrite ServeHTTP_run, E.
  unfold redirects_home. rewrite D, andb_false_r.
  rewrite route_delegated by done. unfold delegated_flow.
  by rewrite (Split_no_slash _ H).
Qed.

End Delegated_flow_of.

(** X9. A request that reaches routing under a delegated-backend prefix ends
    in the flow [malformed_backend] exactly when the path below the mount
    point has no slash in it.  A path with a slash is never malformed, even
    if the realm segment after it is empty. *)
Theorem malformed_iff_no_slash u m r cache :
  token_expired m r = false →
  is_delegated (url_path m r) = true →
  (opts (serve u m r cache).2 !! "flow" = Some (VString "malformed_backend")
   ↔ has_slash (url_path m r) = false).
Proof.
  intros E D. split.
  - intros F. destruct (has_slash (url_path m r)) eqn:H; [|done].
    destruct (delegated_scanned_flow u m r cache E D (Split_slash _ H)) as [G|[G|G]];
      rewrite F in G; try discriminate G.
    injection G as G. by destruct (delegated_method_not_malformed _ D).
  - intros H. rewrite delegated_no_slash_flow by done. cbn [fst snd]. by lookups.
Qed.

Lemma malformed_iff_no_slash_witness :
  opts (serve (Examples.utils None) (Examples.portal Examples.no_token)
          (Examples.get "/auth/saml/") ∅).2 !! "flow"
  ≠ Some (VString "malformed_backend").
Proof.
  intros H.
  apply (malformed_iff_no_slash (Examples.utils None) (Examples.portal Examples.no_token)
           (Examples.get "/auth/saml/") ∅) in H; [discriminate H|reflexivity..].
Defined.

(** X10. Under a delegated-backend prefix only the first two segments of the
    path count: for a path [method/realm] followed by nothing or by a slash
    and anything, the one backend called is the first configured backend
    whose realm and method are these two, and no backend is called when
    there is none. *)
Theorem delegated_path_segments u m r cache method realm tail :
  token_expired m r = false →
  is_delegated (url_path m r) = true →
  has_slash method = false →
  has_slash realm = false →
  url_path m r = method +:+ "/" +:+ realm
  ∨ url_path m r = method +:+ "/" +:+ realm +:+ "/" +:+ tail →
  invoked (trace (serve u m r cache).2)
  = option_list (List.find (serves method realm) (Backends m)).
Proof.
  intros E D Hm Hr Hp.
  destruct (serve_delegated u m r cache E D) as [-> _].
  unfold requested_backend.
  assert (∃ rest, GoStrings.Split (url_path m r) "/" = method :: realm :: rest)
    as [rest ->].
  { destruct Hp as [-> | ->]; rewrite Split_segment by done.
    - rewrite Split_no_slash by done. eauto.
    - rewrite Split_segment by done. eauto. }
  reflexivity.
Qed.

Lemma delegated_path_segments_witness :
  invoked (trace (serve (Examples.utils None)
                    (Examples2.portal Examples.no_token Examples2.open_registration false)
                    (Examples.get "/auth/oauth2/google/authorization-code-callback")
                    ∅).2)
  = [Examples.google].
Proof.
  apply (delegated_path_segments (Examples.utils None)
           (Examples2.portal Examples.no_token Examples2.open_registration false)
           (Examples.get "/auth/oauth2/google/authorization-code-callback") ∅
           "oauth2" "google" "authorization-code-callback");
    [reflexivity..|right; reflexivity].
Defined.

(** ** The interactive login flow, without a backend *)

Section Login_idle.

Context (u : Utils) (m : AuthPortal) (r : Request).

Lemma login_flow_authorized s :
  opts s !! "authenticated" = Some (VBool true) →
  login_flow u m r (GetRequestID u r) s
  = Stop (Served ServeLogin)
      (mkState
         (<["authorized" := VBool true]>
            (<["login_options" := VRef "loginOptions"]>
               (<["flow" := VString "login"]> (opts s))))
         (trace s) (sessionCache s)).
Proof.
  intros A. destruct s as [o t c]. simpl in A. unfold login_flow. run_monad.
  rewrite !lookup_insert_ne by done. by rewrite A.
Qed.

Lemma login_flow_no_credentials s :
  opts s !! "authenticated" = Some (VBool false) →
  ParseCredentials u r = (None, None) →
  login_flow u m r (GetRequestID u r) s
  = Stop (Served ServeLogin)
      (mkState
         (<["login_options" := VRef "loginOptions"]>
            (<["flow" := VString "login"]> (opts s)))
         (trace s) (sessionCache s)).
Proof.
  intros A P. destruct s as [o t c]. simpl in A. unfold login_flow. run_monad.
  rewrite !lookup_insert_ne by done. by rewrite A, P.
Qed.

Lemma login_flow_parse_error s credentials e :
  opts s !! "authenticated" = Some (VBool false) →
  ParseCredentials u r = (credentials, Some e) →
  login_flow u m r (GetRequestID u r) s
  = Stop (Served ServeLogin)
      (mkState
         (<["status_code" := VInt 400]>
            (<["message" := VString "Authentication failed"]>
               (<["login_options" := VRef "loginOptions"]>
                  (<["flow" := VString "login"]> (opts s)))))
         (trace s ++ [login_failed_log (GetRequestID u r) e])
         (sessionCache s)).
Proof.
  intros A P. destruct s as [o t c]. simpl in A. unfold login_flow. run_monad.
  rewrite !lookup_insert_ne by done. by rewrite A, P.
Qed.

Lemma login_loop_no_match credentials backends s :
  List.filter (realm_matches credentials) backends = [] →
  login_loop u m r (GetRequestID u r) credentials backends s = Next tt s.
Proof.
  induction backends as [|b bs IH]; [done|]. cbn [List.filter login_loop].
  destruct (realm_matches credentials b) eqn:RM; [done|]. intros H.
  unfold bind. rewrite login_attempt_skip by done. by apply IH.
Qed.

(** A request that reaches routing on a login path, from the request. *)
Lemma serve_login_path cache :
  token_expired m r = false →
  redirects_home m r = false →
  is_login (url_path m r) = true →
  ServeHTTP u m r (mkState ∅ [] cache)
  = login_flow u m r (GetRequestID u r)
      (mkState (validated_context u m r)
         (validation_log u m r ++ redirect_cookie m r) cache).
Proof.
  intros E R L. rewrite ServeHTTP_run, E, R. by rewrite route_login.
Qed.

End Login_idle.

(** X11. A request to the login path that carries no valid token and no
    credentials (the parser returns neither credentials nor an error) has the
    login page rendered unauthenticated: no backend is called, no status
    code and no message are set, the credentials are marked as not found and
    the session cache is untouched. *)
Theorem login_without_credentials u m r cache :
  token_accepted m r = false →
  token_expired m r = false →
  redirects_home m r = false →
  is_login (url_path m r) = true →
  ParseCredentials u r = (None, None) →
  ∃ o, serve u m r cache
       = (Served ServeLogin,
          mkState o (validation_log u m r ++ redirect_cookie m r) cache)
     ∧ o !! "flow" = Some (VString "login")
     ∧ o !! "authenticated" = Some (VBool false)
     ∧ o !! "auth_credentials_found" = Some (VBool false)
     ∧ o !! "status_code" = None
     ∧ invoked (validation_log u m r ++ redirect_cookie m r) = [].
Proof.
  intros A E R L P. unfold serve. rewrite serve_login_path by done.
  rewrite login_flow_no_credentials;
    [|cbn [opts]; by rewrite validated_context_authenticated, A|done].
  eexists. split; [reflexivity|]. cbn [opts].
  split_and!; rewrite ?lookup_insert_ne by done.
  - by rewrite lookup_insert_eq.
  - by rewrite validated_context_authenticated, A.
  - rewrite validated_context_other by done.
    unfold new_context, new_opts. destruct (String.eqb _ ""); run_monad; by simplify_map_eq.
  - rewrite validated_context_other by done. apply new_context_status_code.
  - unfold invoked. by prefix_quiet.
Qed.

Lemma login_without_credentials_witness :
  ∃ o, serve (Examples.utils None) (Examples.portal Examples2.bad_token)
         (Examples.get "/auth") ∅
       = (Served ServeLogin,
          mkState o
            (validation_log (Examples.utils None) (Examples.portal Examples2.bad_token)
               (Examples.get "/auth")
             ++ redirect_cookie (Examples.portal Examples2.bad_token)
                  (Examples.get "/auth")) ∅)
     ∧ o !! "flow" = Some (VString "login")
     ∧ o !! "authenticated" = Some (VBool false)
     ∧ o !! "auth_credentials_found" = Some (VBool false)
     ∧ o !! "status_code" = None
     ∧ invoked (validation_log (Examples.utils None) (Examples.portal Examples2.bad_token)
                  (Examples.get "/auth")
                ++ redirect_cookie (Examples.portal Examples2.bad_token)
                     (Examples.get "/auth")) = [].
Proof.
  apply login_without_credentials; reflexivity.
Defined.

(** X12. When the credentials of a request to the login path cannot be
    parsed, the login page is rendered with status 400 and the message
    "Authentication failed", unauthenticated; the parser's error is logged
    as a warning, no backend is called and the session cache is untouched,
    whatever the parser returned beside the error. *)
Theorem login_parse_failure u m r cache credentials e :
  token_accepted m r = false →
  token_expired m r = false →
  redirects_home m r = false →
  is_login (url_path m r) = true →
  ParseCredentials u r = (credentials, Some e) →
  ∃ o, serve u m r cache
       = (Served ServeLogin,
          mkState o
            ((validation_log u m r ++ redirect_cookie m r)
               ++ [EvLog Warn "Authentication failed"
                     [("request_id", VString (GetRequestID u r)); ("error", VString e)]])
            cache)
     ∧ o !! "status_code" = Some (VInt 400)
     ∧ o !! "message" = Some (VString "Authentication failed")
     ∧ o !! "authenticated" = Some (VBool false)
     ∧ o !! "flow" = Some (VString "login").
Proof.
  intros A E R L P. unfold serve. rewrite serve_login_path by done.
  rewrite (login_flow_parse_error u m r _ credentials e);
    [|cbn [opts]; by rewrite validated_context_authenticated, A|done].
  eexists. split; [reflexivity|]. cbn [opts].
  split_and!; rewrite ?lookup_insert_ne by done; try (by rewrite lookup_insert_eq).
  by rewrite validated_context_authenticated, A.
Qed.

Lemma login_parse_failure_witness :
  (serve Examples2.utils_unparsable (Examples.portal Examples.no_token)
     (Examples.post "/auth/login") ∅).1 = Served ServeLogin
  ∧ opts (serve Examples2.utils_unparsable (Examples.portal Examples.no_token)
            (Examples.post "/auth/login") ∅).2 !! "status_code" = Some (VInt 400).
Proof.
  destruct (login_parse_failure Examples2.utils_unparsable
              (Examples.portal Examples.no_token) (Examples.post "/auth/login") ∅
              None "invalid json") as (o & -> & S & _); [reflexivity..|].
  split; [reflexivity|exact S].
Defined.

(** X13. When the credentials submitted to the login path name a realm that
    no configured backend has, no backend is called; the login page is
    rendered unauthenticated with status 500 after the warning "no matching
    auth backend found", the credentials marked as found, the backend as
    not found. *)
Theorem login_unknown_realm u m r cache credentials :
  token_accepted m r = false →
  token_expired m r = false →
  redirects_home m r = false →
  is_login (url_path m r) = true →
  ParseCredentials u r = (Some credentials, None) →
  (∀ b, b ∈ Backends m → GetRealm b ≠ credentials_realm credentials) →
  ∃ o, serve u m r cache
       = (Served ServeLogin,
          mkState o
            ((validation_log u m r ++ redirect_cookie m r)
               ++ [EvLog Warn "Authentication failed"
                     [("request_id", VString (GetRequestID u r));
                      ("error", VString "no matching auth backend found")]])
            cache)
     ∧ o !! "status_code" = Some (VInt 500)
     ∧ o !! "authenticated" = Some (VBool false)
     ∧ o !! "auth_credentials_found" = Some (VBool true)
     ∧ o !! "auth_backend_found" = Some (VBool false).
Proof.
  intros A E R L P H. unfold serve. rewrite serve_login_path by done.
  rewrite (login_flow_run u m r credentials);
    [|cbn [opts]; by rewrite validated_context_authenticated, A|done].
  rewrite login_loop_no_match.
  2:{ induction (Backends m) as [|b bs IH]; [done|]. cbn [List.filter].
      destruct (realm_matches credentials b) eqn:RM.
      - apply String.eqb_eq in RM. destruct (H b); [by left|done].
      - apply IH. intros b' Hb'. apply H. by right. }
  cbn [opts trace sessionCache]. rewrite !lookup_insert_ne by done.
  rewrite validated_context_other, new_context_auth_backend_found by done.
  eexists. split; [reflexivity|]. cbn [opts].
  split_and!; rewrite ?lookup_insert_ne by done; try (by rewrite lookup_insert_eq).
  - by rewrite validated_context_authenticated, A.
  - by rewrite validated_context_other, new_context_auth_backend_found.
Qed.

Lemma login_unknown_realm_witness :
  (serve (Examples.utils (Some (<["realm" := "nowhere"]> ∅)))
     (Examples.portal Examples.no_token) (Examples.post "/auth/login") ∅).1
  = Served ServeLogin
  ∧ opts (serve (Examples.utils (Some (<["realm" := "nowhere"]> ∅)))
            (Examples.portal Examples.no_token) (Examples.post "/auth/login") ∅).2
      !! "status_code" = Some (VInt 500).
Proof.
  destruct (login_unknown_realm (Examples.utils (Some (<["realm" := "nowhere"]> ∅)))
              (Examples.portal Examples.no_token) (Examples.post "/auth/login") ∅
              (<["realm" := "nowhere"]> ∅)) as (o & -> & S & _); [reflexivity..| |].
  - intros b Hb. simpl in Hb.
    repeat (apply elem_of_cons in Hb as [->|Hb]; [discriminate|]).
    by apply elem_of_nil in Hb.
  - split; [reflexivity|exact S].
Defined.

(** ** Backend calls and cache writes, on every path *)

Lemma elem_of_omap_calls (f : Call → option (string * gmap string value))
    (cs : list Call) w :
  w ∈ omap f cs → ∃ c, c ∈ cs ∧ f c = Some w.
Proof. intros H. by apply list_elem_of_omap in H. Qed.

(** X14. Every write to the session cache during a run, on whatever path,
    follows a call of a configured backend that returned no error and a claim
    set; the entry written names that backend and holds the returned claims
    with the issuer set to the current URL and, when source IP tracking is
    on, the address set to the request's source address, whatever the backend
    had put there. *)
Theorem cache_writes_are_stamped u m r cache k e :
  (k, e) ∈ cache_writes (trace (serve u m r cache).2) →
  ∃ c claims,
    c ∈ calls (trace (serve u m r cache).2)
    ∧ call_backend c ∈ Backends m
    ∧ Authenticate (call_backend c) (call_ctx c) = (call_resp c, None)
    ∧ call_resp c !! "claims" = Some (VClaims (Some claims))
    ∧ k = ID (session_claims u m r claims)
    ∧ e = cache_entry (session_claims u m r claims) (call_backend c)
    ∧ Issuer (session_claims u m r claims) = GetCurrentURL u r
    ∧ Address (session_claims u m r claims)
      = (if EnableSourceIPTracking m then GetSourceAddress u r else Address claims)
    ∧ Attributes (session_claims u m r claims) = Attributes claims.
Proof.
  intros H. destruct (serve_tracks u m r cache) as (B & _ & _).
  rewrite (blocks_writes _ _ _ _ _ B) in H.
  apply elem_of_omap_calls in H as (c & Hc & Hw).
  destruct (blocks_calls _ _ _ _ _ _ B Hc) as (Hin & Hans).
  unfold write_of_call in Hw. destruct (call_err c); [done|].
  destruct (_ && _); [done|].
  destruct (call_resp c !! "claims") as [[| | | | | |[claims|]|]|] eqn:EC; try done.
  injection Hw as <- <-. exists c, claims. split_and!; try done.
  - unfold session_claims. by destruct (EnableSourceIPTracking m), (String.eqb _ _).
  - unfold session_claims. by destruct (EnableSourceIPTracking m), (String.eqb _ _).
  - unfold session_claims. by destruct (EnableSourceIPTracking m), (String.eqb _ _).
Qed.

Lemma cache_writes_are_stamped_witness :
  let u := Examples.utils (Some Examples.corp_credentials) in
  let m := Examples2.portal Examples.no_token Examples2.open_registration true in
  let r := Examples.post "/auth/login" in
  let stored := {| ID := "robert"; Issuer := "https://portal.example.com/auth";
                   Address := "203.0.113.7"; Attributes := [("roles", "user")] |} in
  ∃ c claims,
    c ∈ calls (trace (serve u m r ∅).2)
    ∧ call_backend c ∈ Backends m
    ∧ Authenticate (call_backend c) (call_ctx c) = (call_resp c, None)
    ∧ call_resp c !! "claims" = Some (VClaims (Some claims))
    ∧ "robert" = ID (session_claims u m r claims)
    ∧ cache_entry stored Examples2.ldap_branch
      = cache_entry (session_claims u m r claims) (call_backend c)
    ∧ Issuer (session_claims u m r claims) = GetCurrentURL u r
    ∧ Address (session_claims u m r claims)
      = (if EnableSourceIPTracking m then GetSourceAddress u r else Address claims)
    ∧ Attributes (session_claims u m r claims) = Attributes claims.
Proof.
  intros u m r stored.
  apply (cache_writes_are_stamped u m r ∅ "robert"
           (cache_entry stored Examples2.ldap_branch)).
  replace (cache_writes (trace (serve u m r ∅).2))
    with [("bob", cache_entry
                    {| ID := "bob"; Issuer := "https://portal.example.com/auth";
                       Address := "203.0.113.7"; Attributes := [("roles", "user")] |}
                    Examples.ldap);
          ("robert", cache_entry stored Examples2.ldap_branch)]
    by (vm_compute; reflexivity).
  apply list_elem_of_In. simpl. right. left. reflexivity.
Defined.

(** X15. A backend is called only to authenticate.  Every call of
    [Authenticate] during a run is, on a delegated-backend path, the call of
    the backend the path asks for; otherwise the path is the login path, the
    token was not accepted, the request was not sent back to the portal's
    root, credentials were parsed, and the backend called is a configured one
    of the credentials' realm.  No other path and no request with an expired
    token reaches a backend. *)
Theorem backend_calls_only_when_authenticating u m r cache c :
  c ∈ calls (trace (serve u m r cache).2) →
  token_expired m r = false
  ∧ ((is_delegated (url_path m r) = true
      ∧ call_backend c ∈ requested_backend m (url_path m r))
     ∨ (is_delegated (url_path m r) = false
        ∧ is_login (url_path m r) = true
        ∧ token_accepted m r = false
        ∧ redirects_home m r = false
        ∧ ∃ credentials,
            ParseCredentials u r = (Some credentials, None)
            ∧ call_of credentials (Backends m) c)).
Proof.
  intros H.
  destruct (token_expired m r) eqn:E.
  { rewrite serve_expired in H by done. by apply elem_of_nil in H. }
  split; [done|].
  destruct (is_delegated (url_path m r)) eqn:D.
  { left. split; [done|].
    destruct (serve_delegated u m r cache E D) as [<- _].
    unfold invoked. by apply list_elem_of_fmap_2. }
  right.
  assert (∀ t, calls ((validation_log u m r ++ redirect_cookie m r) ++ t) = calls t)
    as P.
  { intros t. rewrite !calls_app.
    rewrite (quiet_calls (validation_log u m r)) by apply validation_log_quiet.
    by rewrite (quiet_calls (redirect_cookie m r)) by apply redirect_cookie_quiet. }
  destruct (redirects_home m r) eqn:RH.
  { destruct (serve_trace u m r cache E) as (evs & T & F).
    rewrite RH in F. subst evs. rewrite T, app_assoc, P in H.
    by apply elem_of_nil in H. }
  destruct (is_login (url_path m r)) eqn:L.
  2:{ destruct (serve_trace u m r cache E) as (evs & T & F).
      rewrite RH, D, L in F. rewrite T, app_assoc, P in H.
      rewrite (quiet_calls evs) in H; [by apply elem_of_nil in H|].
      eapply forallb_weaken; [|exact F]. by intros []. }
  pose proof (validated_context_authenticated u m r E) as VA.
  destruct (token_accepted m r) eqn:A.
  { unfold serve in H. rewrite serve_login_path in H by done.
    rewrite login_flow_authorized in H by done. cbn [snd trace] in H.
    rewrite <- (app_nil_r (_ ++ _)), P in H. by apply elem_of_nil in H. }
  split_and!; try done.
  destruct (ParseCredentials u r) as [credentials [e|]] eqn:PC.
  { unfold serve in H. rewrite serve_login_path in H by done.
    rewrite (login_flow_parse_error u m r _ credentials e) in H by done.
    cbn [snd trace] in H. rewrite P in H. by apply elem_of_nil in H. }
  destruct credentials as [credentials|].
  - exists credentials. split; [done|].
    destruct (serve_login u m r credentials cache A E RH L PC) as (o & s & Hs & Hc & _).
    rewrite Hs in H. by apply Hc.
  - unfold serve in H. rewrite serve_login_path in H by done.
    rewrite login_flow_no_credentials in H by done. cbn [snd trace] in H.
    rewrite <- (app_nil_r (_ ++ _)), P in H. by apply elem_of_nil in H.
Qed.

Lemma backend_calls_only_when_authenticating_witness :
  let u := Examples.utils None in
  let m := Examples2.portal Examples.valid_token Examples2.closed_registration false in
  let r := Examples.get "/auth/oauth2/google/callback" in
  ∃ c, call_backend c = Examples.google
     ∧ token_expired m r = false
     ∧ ((is_delegated (url_path m r) = true
         ∧ call_backend c ∈ requested_backend m (url_path m r))
        ∨ (is_delegated (url_path m r) = false
           ∧ is_login (url_path m r) = true
           ∧ token_accepted m r = false
           ∧ redirects_home m r = false
           ∧ ∃ credentials,
               ParseCredentials u r = (Some credentials, None)
               ∧ call_of credentials (Backends m) c)).
Proof.
  intros u m r.
  exists (mkCall Examples.google (delegated_call_ctx u m r)
            (<["claims" := VClaims (Some (Examples.claims_of ""))]> ∅) None).
  split; [reflexivity|].
  apply (backend_calls_only_when_authenticating u m r ∅).
  replace (calls (trace (serve u m r ∅).2))
    with [mkCall Examples.google (delegated_call_ctx u m r)
            (<["claims" := VClaims (Some (Examples.claims_of ""))]> ∅) None]
    by (vm_compute; reflexivity).
  apply list_elem_of_here.
Defined.

(** ** How a run ends *)

Section Ends.

Context (Q : Outcome → Prop).

Lemma ends_bind {A B} (c : M A) (k : A → M B) :
  ends_in Q c → (∀ a, ends_in Q (k a)) → ends_in Q (bind c k).
Proof.
  intros Hc Hk s. unfold bind. specialize (Hc s).
  destruct (c s) as [a s'|o s']; [apply Hk|exact Hc].
Qed.

Lemma ends_exit {A} o : Q o → ends_in Q (@exit A o).
Proof. intros H s. exact H. Qed.

Lemma ends_as_bool v : Q Panicked → ends_in Q (as_bool v).
Proof. intros H s. by destruct v as [[]|]. Qed.

Lemma ends_as_int v : Q Panicked → ends_in Q (as_int v).
Proof. intros H s. by destruct v as [[]|]. Qed.

Lemma ends_as_string v : Q Panicked → ends_in Q (as_string v).
Proof. intros H s. by destruct v as [[]|]. Qed.

Lemma ends_as_claims v : Q Panicked → ends_in Q (as_claims v).
Proof. intros H s. by destruct v as [[| | | | | |[c|]|]|]. Qed.

Lemma ends_Error_of err : Q Panicked → ends_in Q (Error_of err).
Proof. intros H s. by destruct err. Qed.

Lemma ends_weaken {A} (Q' : Outcome → Prop) (c : M A) :
  (∀ o, Q' o → Q o) → ends_in Q' c → ends_in Q c.
Proof. intros H Hc s. specialize (Hc s). destruct (c s); [done|by apply H]. Qed.

End Ends.

Ltac ends_step :=
  lazymatch goal with
  | |- ends_in _ (bind _ _) => apply ends_bind; [|intros ?]
  | |- ends_in _ (ret _) => intros ?; exact I
  | |- ends_in _ get_opts => intros ?; exact I
  | |- ends_in _ (set_opt _ _) => intros ?; exact I
  | |- ends_in _ (log _ _ _) => intros ?; exact I
  | |- ends_in _ (emit _) => intros ?; exact I
  | |- ends_in _ (cache_add _ _) => intros ?; exact I
  | |- ends_in _ (exit _) => apply ends_exit; done
  | |- ends_in _ panic => apply ends_exit; done
  | |- ends_in _ (as_bool _) => apply ends_as_bool; done
  | |- ends_in _ (as_int _) => apply ends_as_int; done
  | |- ends_in _ (as_string _) => apply ends_as_string; done
  | |- ends_in _ (as_claims _) => apply ends_as_claims; done
  | |- ends_in _ (Error_of _) => apply ends_Error_of; done
  | |- ends_in _ (if ?b then _ else _) => destruct b
  | |- ends_in _ (match ?x with _ => _ end) => destruct x
  end.

Section Handler_ends.

Context (u : Utils) (m : AuthPortal) (r : Request) (reqID : string).

Lemma login_flow_ends :
  ends_in (fun o => login_outcome o = true) (login_flow u m r reqID).
Proof.
  unfold login_flow. repeat ends_step.
  induction (Backends m) as [|b bs IH]; simpl; [repeat ends_step|].
  apply ends_bind; [|intros _; exact IH].
  unfold login_attempt. repeat ends_step.
Qed.

Lemma delegated_flow_ends p :
  ends_in (fun o => delegated_outcome o = true) (delegated_flow u m r reqID p).
Proof.
  unfold delegated_flow. destruct (_ <? _)%nat; repeat ends_step.
  induction (Backends m) as [|b bs IH]; simpl; [repeat ends_step|].
  repeat (destruct (negb _); [exact IH|]).
  unfold delegated_attempt, delegated_failure, delegated_success. repeat ends_step.
Qed.

(** Routing renders the registration page only on a registration path of a
    portal whose registration is switched on, and never the session login
    redirect. *)
Lemma route_ends p :
  ends_in (fun o =>
             o ≠ Served ServeSessionLoginRedirect
             ∧ (o = Served ServeRegister →
                GoStrings.HasPrefix p "register" = true
                ∧ Disabled (UserRegistration m) = false
                ∧ Dropbox (UserRegistration m) ≠ ""))
    (route u m r reqID p).
Proof.
  unfold route. destruct (GoStrings.HasPrefix p "register") eqn:R.
  - destruct (Disabled _); [repeat ends_step|].
    destruct (String.eqb_spec (Dropbox (UserRegistration m)) ""); repeat ends_step.
  - repeat first
      [ (eapply ends_weaken; [|apply login_flow_ends]); by intros [[]| |]
      | (eapply ends_weaken; [|apply (delegated_flow_ends p)]); by intros [[]| |]
      | ends_step ].
Qed.

End Handler_ends.

(** X16. The registration page is rendered exactly for a request whose token
    is not expired, that is not sent back to the portal's root, whose path
    starts with [register], on a portal whose registration is not disabled
    and has a dropbox.  No other path, and no flow of authentication, ends
    there. *)
Theorem registration_gate u m r cache :
  (serve u m r cache).1 = Served ServeRegister
  ↔ token_expired m r = false
    ∧ redirects_home m r = false
    ∧ GoStrings.HasPrefix (url_path m r) "register" = true
    ∧ Disabled (UserRegistration m) = false
    ∧ Dropbox (UserRegistration m) ≠ "".
Proof.
  unfold serve. rewrite ServeHTTP_run. split.
  - destruct (token_expired m r); [done|]. destruct (redirects_home m r); [done|].
    pose proof (route_ends u m r (GetRequestID u r) (url_path m r)
                  (mkState (validated_context u m r)
                     (validation_log u m r ++ redirect_cookie m r) cache)) as H.
    destruct (route _ _ _ _ _ _) as [[]|o s]. simpl. intros ->.
    destruct H as [_ H]. do 2 (split; [done|]). by apply H.
  - intros (-> & -> & R & D & B). unfold route. rewrite R, D.
    by destruct (String.eqb_spec (Dropbox (UserRegistration m)) "").
Qed.

Lemma registration_gate_witness :
  (serve (Examples.utils None)
     (Examples2.portal Examples.no_token Examples2.open_registration false)
     (Examples.get "/auth/register") ∅).1 = Served ServeRegister
  ∧ (serve (Examples.utils None)
       (Examples2.portal Examples.no_token Examples2.closed_registration false)
       (Examples.get "/auth/register") ∅).1 ≠ Served ServeRegister.
Proof.
  split.
  - apply registration_gate. by split_and!.
  - intros H. apply registration_gate in H as (_ & _ & _ & H & _). discriminate H.
Defined.

(** X17. The session login redirect is rendered exactly when the token
    validator rejects the request's token as expired: routing never ends
    there. *)
Theorem session_login_redirect_iff_expired u m r cache :
  (serve u m r cache).1 = Served ServeSessionLoginRedirect ↔ token_expired m r = true.
Proof.
  unfold serve. rewrite ServeHTTP_run. split.
  - destruct (token_expired m r); [done|]. destruct (redirects_home m r); [done|].
    pose proof (route_ends u m r (GetRequestID u r) (url_path m r)
                  (mkState (validated_context u m r)
                     (validation_log u m r ++ redirect_cookie m r) cache)) as H.
    destruct (route _ _ _ _ _ _) as [[]|o s]. simpl. intros ->.
    by destruct H as [[] _].
  - by intros ->.
Qed.

Lemma session_login_redirect_iff_expired_witness :
  (serve (Examples.utils None) (Examples.portal Examples.expired_token)
     (Examples.get "/auth/settings") ∅).1 = Served ServeSessionLoginRedirect
  ∧ (serve (Examples.utils None) (Examples.portal Examples.no_token)
       (Examples.get "/auth/settings") ∅).1 ≠ Served ServeSessionLoginRedirect.
Proof.
  split.
  - by apply session_login_redirect_iff_expired.
  - intros H. apply session_login_redirect_iff_expired in H. discriminate H.
Defined.

(** ** Panics *)

Ltac rewrite_lookups_in H :=
  repeat match goal with E : _ !! _ = _ |- _ => rewrite E in H end.

(** Settles a leaf of the case analysis of a delegated attempt: the run has
    panicked or not, and its one call has an answer that can be processed
    or not. *)
Ltac settle_answer :=
  let H := fresh "H" in
  let call := fresh "call" in
  let Hc := fresh "Hc" in
  let Hok := fresh "Hok" in
  cbn [fst snd trace]; rewrite <- ?app_assoc; prefix_quiet;
  split;
  [ intros H;
    first [ discriminate H
          | eexists; split; [apply list_elem_of_here|];
            unfold delegated_answer_ok; cbn [call_err call_resp]; use_lookups;
            reflexivity ]
  | intros (call & Hc & Hok);
    first [ reflexivity
          | by apply elem_of_nil in Hc
          | apply list_elem_of_singleton in Hc; subst call;
            unfold delegated_answer_ok in Hok; cbn [call_err call_resp] in Hok;
            rewrite_lookups_in Hok; discriminate Hok ] ].

Section Panics.

Context (u : Utils) (m : AuthPortal) (r : Request).

Lemma route_static_ends reqID p :
  is_delegated p = false → is_login p = false →
  ends_in (fun o => o ≠ Panicked) (route u m r reqID p).
Proof.
  intros D L. unfold route.
  change (GoStrings.HasPrefix p "saml" || GoStrings.HasPrefix p "x509"
          || GoStrings.HasPrefix p "oauth2") with (is_delegated p).
  change (GoStrings.HasPrefix p "login" || String.eqb p "") with (is_login p).
  rewrite D, L. repeat ends_step.
Qed.

Lemma delegated_panics cache :
  token_expired m r = false →
  is_delegated (url_path m r) = true →
  (serve u m r cache).1 = Panicked
  ↔ ∃ c, c ∈ calls (trace (serve u m r cache).2) ∧ delegated_answer_ok c = false.
Proof.
  intros E D. unfold serve.
  destruct (length (GoStrings.Split (url_path m r) "/") <? 2)%nat eqn:L.
  { rewrite ServeHTTP_run, E. unfold redirects_home. rewrite D, andb_false_r.
    rewrite route_delegated by done. unfold delegated_flow. rewrite L. run_monad.
    settle_answer. }
  rewrite serve_delegated_run by done.
  destruct (List.find _ _) as [b|]; [|settle_answer].
  unfold delegated_attempt, delegated_failure, delegated_success. run_monad.
  destruct (Authenticate b _) as [resp [e|]].
  - destruct (resp !! "code") as [[]|] eqn:EC; settle_answer.
  - destruct (resp !! "redirect_url") as [v|] eqn:ER.
    + destruct v; settle_answer.
    + destruct (resp !! "claims") as [v|] eqn:EL.
      * destruct v as [| | | | | |[claims|]|]; settle_answer.
      * destruct (resp !! "code") as [[]|] eqn:EC; settle_answer.
Qed.

End Panics.

(** X18. The handler panics exactly when a backend it called gave an answer
    it cannot process.  On the login path that is an error without an
    integer [code], or no error and no claim set; on a delegated-backend
    path an error without an integer [code], a [redirect_url] that is not a
    string, or neither error nor [redirect_url] nor claim set.  Nothing
    else in a request, a token or the configuration makes it panic: the
    reads of its own context never fail. *)
Theorem panics_on_backend_answers u m r cache :
  (serve u m r cache).1 = Panicked
  ↔ ∃ c, c ∈ calls (trace (serve u m r cache).2)
       ∧ (if is_delegated (url_path m r) then delegated_answer_ok c else answer_ok c)
         = false.
Proof.
  destruct (token_expired m r) eqn:E.
  { rewrite serve_expired by done. split; [done|].
    by intros (c & []%elem_of_nil & _). }
  destruct (is_delegated (url_path m r)) eqn:D.
  { by apply delegated_panics. }
  assert (∀ t, calls ((validation_log u m r ++ redirect_cookie m r) ++ t) = calls t)
    as P.
  { intros t. rewrite !calls_app.
    rewrite (quiet_calls (validation_log u m r)) by apply validation_log_quiet.
    by rewrite (quiet_calls (redirect_cookie m r)) by apply redirect_cookie_quiet. }
  destruct (redirects_home m r) eqn:RH.
  { unfold serve. rewrite ServeHTTP_run, E, RH. cbn [fst snd trace].
    rewrite app_assoc, P. split; [done|]. by intros (c & []%elem_of_nil & _). }
  destruct (is_login (url_path m r)) eqn:L.
  2:{ split.
      - unfold serve. rewrite ServeHTTP_run, E, RH.
        pose proof (route_static_ends u m r (GetRequestID u r) (url_path m r) D L
                      (mkState (validated_context u m r)
                         (validation_log u m r ++ redirect_cookie m r) cache)) as H.
        by destruct (route _ _ _ _ _ _) as [[]|o s].
      - intros (c & Hc & _).
        destruct (serve_trace u m r cache E) as (evs & T & F).
        rewrite RH, D, L in F. rewrite T, app_assoc, P in Hc.
        rewrite (quiet_calls evs) in Hc; [by apply elem_of_nil in Hc|].
        eapply forallb_weaken; [|exact F]. by intros []. }
  pose proof (validated_context_authenticated u m r E) as VA.
  destruct (token_accepted m r) eqn:A.
  { unfold serve. rewrite serve_login_path by done.
    rewrite login_flow_authorized by done. cbn [fst snd trace].
    rewrite <- (app_nil_r (_ ++ _)), P. split; [done|].
    by intros (c & []%elem_of_nil & _). }
  destruct (ParseCredentials u r) as [credentials [e|]] eqn:PC.
  { unfold serve. rewrite serve_login_path by done.
    rewrite (login_flow_parse_error u m r _ credentials e) by done.
    cbn [fst snd trace]. rewrite P. split; [done|].
    by intros (c & []%elem_of_nil & _). }
  destruct credentials as [credentials|].
  - destruct (serve_login u m r credentials cache A E RH L PC)
      as (o & s & -> & _ & [(-> & _ & F & _)|(-> & c & Hc & Hok)]); cbn [fst snd].
    + split; [done|]. intros (c & Hc & Hok).
      rewrite forallb_forall in F. apply list_elem_of_In, F in Hc. congruence.
    + split; [|done]. intros _. by exists c.
  - unfold serve. rewrite serve_login_path by done.
    rewrite login_flow_no_credentials by done. cbn [fst snd trace].
    rewrite <- (app_nil_r (_ ++ _)), P. split; [done|].
    by intros (c & []%elem_of_nil & _).
Qed.

Lemma panics_on_backend_answers_witness :
  (serve (Examples.utils None) (Examples.portal Examples.no_token)
     (Examples.get "/auth/saml/okta") ∅).1 = Panicked
  ∧ (serve (Examples.utils (Some Examples.corp_credentials))
       (Examples.portal Examples.no_token) (Examples.post "/auth/login") ∅).1
    ≠ Panicked.
Proof.
  split.
  - apply panics_on_backend_answers. eexists. split.
    + vm_compute. apply list_elem_of_here.
    + reflexivity.
  - intros H. apply panics_on_backend_answers in H as (c & Hc & Hok).
    replace (is_delegated _) with false in Hok by (vm_compute; reflexivity).
    assert (forallb answer_ok
              (calls (trace (serve (Examples.utils (Some Examples.corp_credentials))
                               (Examples.portal Examples.no_token)
                               (Examples.post "/auth/login") ∅).2)) = true) as F
      by (vm_compute; reflexivity).
    rewrite forallb_forall in F. apply list_elem_of_In, F in Hc. congruence.
Defined.

(** ** The static flows *)

(** X19. On every path that is neither a delegated-backend path nor the
    login path, a request that is not stopped before routing is handed to a
    renderer as token validation left it: the handler sets the flow (and, on
    an open registration, the two registration entries) and nothing else in
    the context, [authenticated] says whether the token was accepted, no
    event is added and the session cache is untouched.  Routing itself
    refuses no unauthenticated request. *)
Theorem static_flows_keep_context u m r cache :
  token_expired m r = false →
  redirects_home m r = false →
  is_delegated (url_path m r) = false →
  is_login (url_path m r) = false →
  ∃ h o f,
    serve u m r cache
    = (Served h, mkState o (validation_log u m r ++ redirect_cookie m r) cache)
    ∧ o !! "flow" = Some (VString f)
    ∧ o !! "authenticated" = Some (VBool (token_accepted m r))
    ∧ ∀ k, static_key k = false → o !! k = validated_context u m r !! k.
Proof.
  intros E RH D L. unfold serve. rewrite ServeHTTP_run, E, RH.
  pose proof (validated_context_authenticated u m r E) as VA.
  unfold route.
  change (GoStrings.HasPrefix (url_path m r) "saml"
          || GoStrings.HasPrefix (url_path m r) "x509"
          || GoStrings.HasPrefix (url_path m r) "oauth2")
    with (is_delegated (url_path m r)).
  change (GoStrings.HasPrefix (url_path m r) "login" || String.eqb (url_path m r) "")
    with (is_login (url_path m r)).
  rewrite D, L.
  assert (∀ k, static_key k = false →
               k ≠ "flow" ∧ k ≠ "registration" ∧ k ≠ "registration_db") as K.
  { intros k Hk. unfold static_key in Hk.
    apply orb_false_iff in Hk as [[H1 H2]%orb_false_iff H3].
    by rewrite !String.eqb_neq in H1, H2, H3. }
  repeat match goal with
         | |- context [if ?b then _ else _] => destruct b
         end;
    run_monad; eexists _, _, _;
    (split; [reflexivity|]); (split; [by lookups|]); (split; [by lookups|]);
    intros k (? & ? & ?)%K; by lookups.
Qed.

Lemma static_flows_keep_context_witness :
  let u := Examples.utils None in
  let m := Examples2.portal Examples2.bad_token Examples2.open_registration false in
  let r := Examples.get "/auth/settings" in
  ∃ h o f,
    serve u m r ∅
    = (Served h, mkState o (validation_log u m r ++ redirect_cookie m r) ∅)
    ∧ o !! "flow" = Some (VString f)
    ∧ o !! "authenticated" = Some (VBool (token_accepted m r))
    ∧ ∀ k, static_key k = false → o !! k = validated_context u m r !! k.
Proof.
  intros u m r.
  apply (static_flows_keep_context u m r ∅); reflexivity.
Defined.

(** ** The base context *)

#[export] Instance keeps_base_sequential : Sequential keeps_base.
Proof.
  split.
  - by intros s k Hk.
  - intros s1 s2 s3 b H1 H2 k Hk. by rewrite H2, H1.
Qed.

Lemma kb_set_opt k v : flow_key k = true → sound keeps_base (set_opt k v).
Proof.
  intros H s k' Hk'. cbn. rewrite lookup_insert_ne; [done|]. intros <-. congruence.
Qed.

Lemma kb_same {A} (c : M A) : (∀ s, opts (final (c s)) = opts s) → sound keeps_base c.
Proof. intros H s k Hk. by rewrite H. Qed.

Ltac kb_step :=
  lazymatch goal with
  | |- sound _ (bind _ _) => apply (sound_bind _); [|intros ?]
  | |- sound _ (ret _) => apply (sound_ret _)
  | |- sound _ get_opts => apply (sound_get_opts _)
  | |- sound _ (set_opt _ _) => apply kb_set_opt; reflexivity
  | |- sound _ (log _ _ _) => apply kb_same; reflexivity
  | |- sound _ (emit _) => apply kb_same; reflexivity
  | |- sound _ (cache_add _ _) => apply kb_same; reflexivity
  | |- sound _ (exit _) => apply kb_same; reflexivity
  | |- sound _ panic => apply kb_same; reflexivity
  | |- sound _ (as_bool ?v) => apply kb_same; intros ?; by destruct v as [[]|]
  | |- sound _ (as_int ?v) => apply kb_same; intros ?; by destruct v as [[]|]
  | |- sound _ (as_string ?v) => apply kb_same; intros ?; by destruct v as [[]|]
  | |- sound _ (as_claims ?v) =>
      apply kb_same; intros ?; by destruct v as [[| | | | | |[?|]|]|]
  | |- sound _ (Error_of ?e) => apply kb_same; intros ?; by destruct e
  | |- sound _ (if ?b then _ else _) => destruct b
  | |- sound _ (match ?x with _ => _ end) => destruct x
  end.

Section Handler_keeps_base.

Context (u : Utils) (m : AuthPortal) (r : Request) (reqID : string).

Lemma route_keeps_base p : sound keeps_base (route u m r reqID p).
Proof.
  unfold route, login_flow, delegated_flow. repeat kb_step.
  - induction (Backends m) as [|b bs IH]; simpl; [repeat kb_step|].
    repeat (destruct (negb _); [exact IH|]).
    unfold delegated_attempt, delegated_failure, delegated_success. repeat kb_step.
  - induction (Backends m) as [|b bs IH]; simpl; [repeat kb_step|].
    apply (sound_bind _); [|intros _; exact IH].
    unfold login_attempt. repeat kb_step.
Qed.

End Handler_keeps_base.

Lemma flow_key_other k k' : flow_key k = false → flow_key k' = true → k ≠ k'.
Proof. intros H H' ->. congruence. Qed.

(** X20. Whatever the path and however the run ends, the entries the
    handler put into the fresh context that are not flow state (the
    correlation identifier, the content type, the logger, the cookie and
    token settings, the UI title) reach the end of the run unchanged: no
    flow overwrites or removes them, and no flow adds an entry of another
    name. *)
Theorem base_context_is_kept u m r cache k :
  flow_key k = false →
  opts (serve u m r cache).2 !! k = new_context u m r !! k.
Proof.
  intros Hk. unfold serve. rewrite ServeHTTP_run.
  destruct (token_expired m r); [done|].
  assert (validated_context u m r !! k = new_context u m r !! k) as V.
  { apply validated_context_other; by apply (flow_key_other _ _ Hk). }
  destruct (redirects_home m r); [done|].
  pose proof (route_keeps_base u m r (GetRequestID u r) (url_path m r)
                (mkState (validated_context u m r)
                   (validation_log u m r ++ redirect_cookie m r) cache) k Hk) as H.
  destruct (route _ _ _ _ _ _) as [[]|o s]. cbn in H. cbn [snd]. by rewrite H.
Qed.

Lemma base_context_is_kept_witness :
  let u := Examples.utils (Some Examples.corp_credentials) in
  let m := Examples.portal Examples.no_token in
  let r := Examples.post "/auth/login" in
  opts (serve u m r ∅).2 !! "cookie_names" = new_context u m r !! "cookie_names".
Proof.
  intros u m r. apply (base_context_is_kept u m r ∅). reflexivity.
Defined.

(** ** The path below the mount point *)

Lemma cut_prefix_of_app a s : GoStrings.cut_prefix (a +:+ s) a = Some s.
Proof. induction a as [|c a IH]; [done|]. simpl. by rewrite Ascii.eqb_refl. Qed.

(** X21. The path the handler routes on is what follows the portal's mount
    point in the request path, less one leading slash: the mount point is
    stripped as a string prefix, so that it needs no slash after it, and a
    second slash is not stripped. *)
Theorem url_path_below_mount m r p :
  URL_Path r = AuthURLPath m +:+ p →
  url_path m r = GoStrings.TrimPrefix p "/".
Proof.
  intros H. unfold url_path. rewrite H.
  unfold GoStrings.TrimPrefix at 2. by rewrite cut_prefix_of_app.
Qed.

Lemma url_path_below_mount_witness :
  let m := Examples.portal Examples.no_token in
  url_path m (Examples.get "/auth/login") = "login"
  ∧ url_path m (Examples.get "/authlogin") = "login"
  ∧ url_path m (Examples.get "/auth//login") = "/login".
Proof.
  intros m. split_and!.
  - apply (url_path_below_mount m (Examples.get "/auth/login") "/login"). reflexivity.
  - apply (url_path_below_mount m (Examples.get "/authlogin") "login"). reflexivity.
  - apply (url_path_below_mount m (Examples.get "/auth//login") "//login"). reflexivity.
Defined.
